(** * GruenderAI adaptive measurement engine: a shallow embedding

    The development embeds the Python modules that carry the measurement
    logic of the repository,

    - [src/assessment_engine/pure_python_irt.py]   (module [PurePythonIrt]),
    - [src/assessment_engine/irt_cat_engine.py] and
      [src/assessment_engine/sample_items.py]      (modules [IrtCatEngine],
                                                    [IrtCatPercentile]),
    - [src/assessment_engine/assessment_session.py]
                                                   (module [AssessmentSession]),
    - [src/assessment_engine/integrated_assessment_system.py]
                                                   (modules [Integrated],
                                                    [IntegratedIrt],
                                                    [IntegratedReport]),
    - [src/assessment_engine/contextual_scoring.py]
                                                   (module [ContextualScoring]),

    and states the properties of the specification over them.

    Numbers.  Python floats are idealised as exact numbers: rounding, NaN
    and infinities are not modelled.  Code that calls [exp], [log] or
    [sqrt] is embedded over the real numbers [R]; the stopping rule and the
    analysis of a session, which only multiply, divide and compare, are
    embedded over the rationals [Q] so that they run.  Python integers are
    [Z].

    Exceptions.  A Python call either returns or raises; [result A] keeps the
    two apart, and [try ... except] becomes [try_except]. *)

From Stdlib Require Import Reals Lra Lia ZArith QArith List String Bool.
From Stdlib Require Lqa Qabs Qround.
From stdpp Require Import base option gmap strings.
Import ListNotations.

(* ===================================================================== *)
(** * Python run-time model                                              *)
(* ===================================================================== *)

Inductive PyExn : Type :=
| IndexError
| OverflowError
| ValueError
| ZeroDivisionError
| KeyError.

Inductive result (A : Type) : Type :=
| Ok (a : A)
| Raise (e : PyExn).

Arguments Ok {A} a.
Arguments Raise {A} e.

Definition bind {A B : Type} (m : result A) (k : A -> result B) : result B :=
  match m with
  | Ok a => k a
  | Raise e => Raise e
  end.

Notation "x <-- m ;; k" := (bind m (fun x => k))
  (at level 100, m at next level, right associativity).

(** [try: m except (IndexError, OverflowError): return fallback] *)
Definition try_except {A : Type} (m : result A) (fallback : A) : result A :=
  match m with
  | Ok a => Ok a
  | Raise IndexError => Ok fallback
  | Raise OverflowError => Ok fallback
  | Raise e => Raise e
  end.

(** [l[i]] on a Python list: indices [0 .. len-1] count from the front,
    [-len .. -1] from the back, anything else raises [IndexError]. *)
Definition py_getitem {A : Type} (l : list A) (i : Z) : result A :=
  let n := Z.of_nat (List.length l) in
  let j := (if i <? 0 then n + i else i)%Z in
  if ((0 <=? j) && (j <? n))%Z
  then match nth_error l (Z.to_nat j) with
       | Some x => Ok x
       | None => Raise IndexError
       end
  else Raise IndexError.

(** [range(lo, hi)] *)
Definition py_range (lo hi : Z) : list Z :=
  List.map (fun k => (lo + Z.of_nat k)%Z) (seq 0 (Z.to_nat (hi - lo))).

Module PyReal.
Local Open Scope R_scope.

(** [math.log]: raises [ValueError] outside its domain. *)
Definition math_log (x : R) : result R :=
  if Rlt_dec 0 x then Ok (ln x) else Raise ValueError.

(** Float division: raises [ZeroDivisionError] on a zero divisor. *)
Definition py_div (x y : R) : result R :=
  if Req_dec_T y 0 then Raise ZeroDivisionError else Ok (x / y).

(** [max(a, b)] and [min(a, b)] of two floats. *)
Definition py_max (a b : R) : R := if Rlt_dec a b then b else a.
Definition py_min (a b : R) : R := if Rlt_dec b a then b else a.

End PyReal.

(* ===================================================================== *)
(** * pure_python_irt.py : class GruenderAIEngine                        *)
(* ===================================================================== *)

Module PurePythonIrt.
Import PyReal.
Local Open Scope R_scope.

(** The dictionaries passed as items, with the keys the engine reads. *)
Record Item : Type := mkItem {
  item_id : string;
  discrimination : R;
  difficulty_thresholds : list R
}.

Definition max_items : Z := 18.
Definition min_items : Z := 12.
Definition target_se : R := 0.20.

(** [safe_logistic], local to [grm_probability]. *)
Definition safe_logistic (x : R) : R :=
  if Rlt_dec 500 x then 1
  else if Rlt_dec x (-500) then 0
  else 1 / (1 + exp (- x)).

(** The body of the [try] block of [grm_probability]. *)
Definition grm_probability_body (theta a : R) (bs : list R) (category : Z)
  : result R :=
  if (category =? 1)%Z then
    b <-- py_getitem bs 0 ;;
    let z := a * (theta - b) in
    Ok (safe_logistic (- z))
  else if (category =? 5)%Z then
    b <-- py_getitem bs (-1) ;;
    let z := a * (theta - b) in
    Ok (safe_logistic z)
  else
    b1 <-- py_getitem bs (category - 2) ;;
    let z1 := a * (theta - b1) in
    b2 <-- py_getitem bs (category - 1) ;;
    let z2 := a * (theta - b2) in
    let p1 := safe_logistic z1 in
    let p2 := safe_logistic z2 in
    Ok (py_max 0.001 (p1 - p2)).

Definition grm_probability (theta a : R) (bs : list R) (category : Z)
  : result R :=
  try_except (grm_probability_body theta a bs category) 0.001.

(** [fisher_information]: the loop over [range(1, 6)], then the floor. *)
Fixpoint fisher_loop (theta a : R) (bs : list R) (cats : list Z)
  (total_info : R) : result R :=
  match cats with
  | [] => Ok total_info
  | category :: rest =>
      prob <-- grm_probability theta a bs category ;;
      fisher_loop theta a bs rest
        (if Rlt_dec 0.001 prob
         then total_info + (a ^ 2) * prob * (1 - prob)
         else total_info)
  end.

Definition fisher_information (theta a : R) (bs : list R) : result R :=
  total_info <-- fisher_loop theta a bs (py_range 1 6) 0 ;;
  Ok (py_max total_info 0.001).

(** The inner loop of [estimate_theta] over [zip(responses, items)]. *)
Fixpoint likelihood_loop (theta_test : R) (pairs : list (Z * Item))
  (log_likelihood : R) : result R :=
  match pairs with
  | [] => Ok log_likelihood
  | (response, item) :: rest =>
      prob <-- grm_probability theta_test (discrimination item)
                 (difficulty_thresholds item) response ;;
      term <-- (if Rlt_dec 0.001 prob then math_log prob
                else math_log 0.001) ;;
      likelihood_loop theta_test rest (log_likelihood + term)
  end.

(** The grid [[i * 0.1 for i in range(-30, 31)]]. *)
Definition theta_grid : list R :=
  List.map (fun i => IZR i * 0.1) (py_range (-30) 31).

(** The outer loop, threading [(best_theta, best_likelihood)]. *)
Fixpoint grid_loop (grid : list R) (pairs : list (Z * Item))
  (best_theta best_likelihood : R) : result (R * R) :=
  match grid with
  | [] => Ok (best_theta, best_likelihood)
  | theta_test :: rest =>
      log_likelihood <-- likelihood_loop theta_test pairs 0 ;;
      if Rlt_dec best_likelihood log_likelihood
      then grid_loop rest pairs theta_test log_likelihood
      else grid_loop rest pairs best_theta best_likelihood
  end.

(** [sum(self.fisher_information(best_theta, ...) for item in items)] *)
Fixpoint info_sum (theta : R) (items : list Item) (acc : R) : result R :=
  match items with
  | [] => Ok acc
  | item :: rest =>
      info <-- fisher_information theta (discrimination item)
                 (difficulty_thresholds item) ;;
      info_sum theta rest (acc + info)
  end.

Definition estimate_theta (responses : list Z) (items : list Item)
  : result (R * R) :=
  match responses, items with
  | [], _ | _, [] => Ok (0, 1)
  | _, _ =>
      best <-- grid_loop theta_grid (combine responses items) 0 (-999999) ;;
      let best_theta := fst best in
      total_info <-- info_sum best_theta items 0 ;;
      standard_error <-- py_div 1 (sqrt (py_max total_info 0.1)) ;;
      let standard_error := py_min 2 (py_max 0.1 standard_error) in
      Ok (best_theta, standard_error)
  end.

(** [select_next_item]: the candidate filter and the arg-max loop. *)
Definition is_used (used_set : list string) (item : Item) : bool :=
  existsb (String.eqb (item_id item)) used_set.

Fixpoint select_loop (current_theta : R) (candidates : list Item)
  (best_item : option Item) (max_info : R) : result (option Item) :=
  match candidates with
  | [] => Ok best_item
  | item :: rest =>
      info <-- fisher_information current_theta (discrimination item)
                 (difficulty_thresholds item) ;;
      if Rlt_dec max_info info
      then select_loop current_theta rest (Some item) info
      else select_loop current_theta rest best_item max_info
  end.

Definition select_next_item (current_theta : R) (available_items : list Item)
  (used_items : option (list string)) : result (option Item) :=
  match available_items with
  | [] => Ok None
  | _ =>
      let used_set := match used_items with Some u => u | None => [] end in
      let candidates :=
        List.filter (fun item => negb (is_used used_set item)) available_items in
      match candidates with
      | [] => Ok None
      | _ => select_loop current_theta candidates None (-1)
      end
  end.

End PurePythonIrt.

(* ===================================================================== *)
(** * irt_cat_engine.py : PersonalityItem, class IRTCATEngine            *)
(* ===================================================================== *)

Module IrtCatEngine.
Import PyReal.
Local Open Scope R_scope.

Record PersonalityItem : Type := mkPersonalityItem {
  item_id : string;
  dimension : string;
  text_de : string;
  text_en : string;
  discrimination : R;
  difficulty_thresholds : list R
}.

(** The [__init__] that [@dataclass] generates for [PersonalityItem]: it
    stores its six arguments.  The class declares no [__post_init__]. *)
Definition PersonalityItem_init (item_id dimension text_de text_en : string)
  (discrimination : R) (difficulty_thresholds : list R)
  : result PersonalityItem :=
  Ok (mkPersonalityItem item_id dimension text_de text_en
        discrimination difficulty_thresholds).

Definition max_items : Z := 18.
Definition min_items : Z := 12.
Definition target_se : R := 0.20.

(** One pass of the loop [for b in b_thresholds] of [grm_probability]. *)
Definition cumulative_entry (theta a b : R) : R :=
  let exp_val := a * (theta - b) in
  if Rlt_dec 500 exp_val then 1
  else if Rlt_dec exp_val (-500) then 0
  else 1 / (1 + exp (- exp_val)).

Definition cumulative_probs (theta : R) (item : PersonalityItem) : list R :=
  ([0] ++ List.map (cumulative_entry theta (discrimination item))
            (difficulty_thresholds item)) ++ [1].

Definition grm_probability (theta : R) (item : PersonalityItem) (response : Z)
  : result R :=
  let cumulative_probs := cumulative_probs theta item in
  let response_index := (response - 1)%Z in
  if ((response_index <? 0)
      || (Z.of_nat (List.length cumulative_probs) - 1 <=? response_index))%Z
  then Ok 0.001
  else
    hi <-- py_getitem cumulative_probs (response_index + 1) ;;
    lo <-- py_getitem cumulative_probs response_index ;;
    let category_prob := hi - lo in
    Ok (py_max category_prob 0.001).

Fixpoint fisher_loop (theta a : R) (bs : list R) (total_info : R) : R :=
  match bs with
  | [] => total_info
  | b :: rest =>
      let exp_val := a * (theta - b) in
      if Rlt_dec (-500) exp_val then
        if Rlt_dec exp_val 500 then
          let p := 1 / (1 + exp (- exp_val)) in
          let info := (a * a) * p * (1 - p) in
          fisher_loop theta a rest (total_info + info)
        else fisher_loop theta a rest total_info
      else fisher_loop theta a rest total_info
  end.

Definition fisher_information (theta : R) (item : PersonalityItem) : result R :=
  Ok (fisher_loop theta (discrimination item) (difficulty_thresholds item) 0).

(** [update_theta].  NumPy's division by zero would give [inf]; the reals
    have none, so the model marks it with [ZeroDivisionError]. *)
Definition update_theta (current_theta : R) (item : PersonalityItem)
  (response : Z) : result (R * R) :=
  prob <-- grm_probability current_theta item response ;;
  let new_theta :=
    if (4 <=? response)%Z then current_theta + 0.2
    else if (response <=? 2)%Z then current_theta - 0.2
    else current_theta + 0.1 * IZR (response - 3) in
  let new_theta := py_max (-3) (py_min 3 new_theta) in
  fisher_info <-- fisher_information new_theta item ;;
  se <-- (if Rlt_dec 0 fisher_info then py_div 1 (sqrt fisher_info)
          else Ok 1) ;;
  Ok (new_theta, se).

(** ** sample_items.py *)

(** Evaluation of a list display whose elements are constructor calls. *)
Fixpoint py_list {A : Type} (elems : list (result A)) : result (list A) :=
  match elems with
  | [] => Ok []
  | e :: rest => x <-- e ;; xs <-- py_list rest ;; Ok (x :: xs)
  end.

Definition create_sample_item_bank : result (list PersonalityItem) :=
  py_list [
    PersonalityItem_init "INNOV_001" "innovativeness"
      "Ich entwickle gerne völlig neue Lösungsansätze, auch wenn bewährte Methoden existieren"
      "I enjoy developing completely new approaches, even when proven methods exist"
      1.4 [-1.2; -0.3; 0.4; 1.3];
    PersonalityItem_init "INNOV_002" "innovativeness"
      "Ich experimentiere gerne mit unkonventionellen Geschäftsideen"
      "I enjoy experimenting with unconventional business ideas"
      1.6 [-0.8; 0.0; 0.8; 1.6];
    PersonalityItem_init "RISK_001" "risk_taking"
      "Ich bin bereit, finanzielle Risiken einzugehen, wenn die Chancen vielversprechend sind"
      "I am willing to take financial risks when opportunities are promising"
      1.3 [-1.0; -0.2; 0.6; 1.4];
    PersonalityItem_init "RISK_002" "risk_taking"
      "Ich würde auch bei unsicheren Marktbedingungen ein Unternehmen gründen"
      "I would start a business even under uncertain market conditions"
      1.5 [-0.5; 0.3; 1.0; 1.8];
    PersonalityItem_init "ACHV_001" "achievement_orientation"
      "Ich setze mir bewusst hohe Ziele und arbeite intensiv daran, diese zu erreichen"
      "I deliberately set high goals and work intensively to achieve them"
      1.2 [-1.5; -0.5; 0.3; 1.2];
    PersonalityItem_init "ACHV_002" "achievement_orientation"
      "Erfolg zu haben ist mir wichtiger als ein entspanntes Leben zu führen"
      "Being successful is more important to me than leading a relaxed life"
      1.4 [-0.8; 0.0; 0.8; 1.5];
    PersonalityItem_init "AUTO_001" "autonomy_orientation"
      "Ich möchte meine eigenen Entscheidungen treffen, ohne Rücksprache mit Vorgesetzten"
      "I want to make my own decisions without consulting superiors"
      1.3 [-1.3; -0.4; 0.4; 1.1];
    PersonalityItem_init "PROACT_001" "proactiveness"
      "Ich erkenne Markttrends früh und handle entsprechend, bevor andere reagieren"
      "I recognize market trends early and act accordingly before others react"
      1.5 [-0.9; -0.1; 0.7; 1.4];
    PersonalityItem_init "LOC_001" "locus_of_control"
      "Mein Erfolg hängt hauptsächlich von meinen eigenen Anstrengungen ab"
      "My success depends mainly on my own efforts"
      1.1 [-1.8; -0.8; 0.2; 1.0];
    PersonalityItem_init "SELF_001" "self_efficacy"
      "Ich traue mir zu, auch schwierige Geschäftsprobleme erfolgreich zu lösen"
      "I believe I can successfully solve even difficult business problems"
      1.2 [-1.4; -0.6; 0.3; 1.3]
  ].

End IrtCatEngine.

(* ===================================================================== *)
(** * integrated_assessment_system.py : the stopping rule                *)
(* ===================================================================== *)

Module Integrated.
Local Open Scope Q_scope.

(** The keys of the session dictionary that [should_stop_assessment] reads
    or writes. *)
Record Session : Type := mkSession {
  current_item : Z;
  max_items : Z;
  target_se : Q;
  context_weights : gmap string Q;
  se_estimates : gmap string Q;
  completion_reason : option string
}.

Definition set_completion_reason (session : Session) (reason : string)
  : Session :=
  mkSession (current_item session) (max_items session) (target_se session)
    (context_weights session) (se_estimates session) (Some reason).

(** The table [self.trait_weights] of [initialize_contextual_scoring]. *)
Definition weights (risk_taking innovativeness self_efficacy
  achievement_orientation proactiveness autonomy_orientation
  competitive_aggressiveness : Q) : gmap string Q :=
  list_to_map [
    ("risk_taking"%string, risk_taking);
    ("innovativeness"%string, innovativeness);
    ("self_efficacy"%string, self_efficacy);
    ("achievement_orientation"%string, achievement_orientation);
    ("proactiveness"%string, proactiveness);
    ("autonomy_orientation"%string, autonomy_orientation);
    ("competitive_aggressiveness"%string, competitive_aggressiveness) ].

Definition trait_weights : gmap string (gmap string Q) :=
  list_to_map [
    ("fintech"%string,    weights 0.85 0.80 0.75 0.70 0.65 0.45 0.55);
    ("consulting"%string, weights 0.35 0.50 0.80 0.75 0.70 0.85 0.60);
    ("restaurant"%string, weights 0.60 0.45 0.70 0.65 0.55 0.75 0.50);
    ("ecommerce"%string,  weights 0.70 0.75 0.65 0.80 0.85 0.60 0.75) ].

Definition dimensions : list string :=
  [ "risk_taking"; "innovativeness"; "self_efficacy";
    "achievement_orientation"; "proactiveness";
    "autonomy_orientation"; "competitive_aggressiveness" ]%string.

(** One pass of the loop over [session["se_estimates"].items()], threading
    [(important_traits_ready, total_important_traits)]. *)
Definition count_trait (target_se : Q) (context_weights : gmap string Q)
  (dimension : string) (se : Q) (acc : Z * Z) : Z * Z :=
  let '(important_traits_ready, total_important_traits) := acc in
  let weight := default 0.5 (context_weights !! dimension) in
  if Qle_bool 0.65 weight then
    let required_se :=
      target_se * (if Qle_bool 0.8 weight then 0.8 else 0.9) in
    if Qle_bool se required_se
    then ((important_traits_ready + 1)%Z, (total_important_traits + 1)%Z)
    else (important_traits_ready, (total_important_traits + 1)%Z)
  else acc.

Definition count_important (session : Session) : Z * Z :=
  map_fold (count_trait (target_se session) (context_weights session))
    (0%Z, 0%Z) (se_estimates session).

(** [should_stop_assessment]: the returned flag and the session as the call
    leaves it. *)
Definition should_stop_assessment (session : Session) : bool * Session :=
  if (max_items session <=? current_item session)%Z then
    (true, set_completion_reason session "max_items_reached")
  else
    let '(important_traits_ready, total_important_traits) :=
      count_important session in
    let minimum_items_check :=
      if (current_item session <? 8)%Z then (false, session)
      else (false, session) in
    if (0 <? total_important_traits)%Z then
      let readiness_ratio :=
        inject_Z important_traits_ready / inject_Z total_important_traits in
      if Qle_bool 0.8 readiness_ratio
      then (true, set_completion_reason session "precision_criteria_met")
      else minimum_items_check
    else minimum_items_check.

(** The part of [start_adaptive_assessment] that fills those keys;
    [self.trait_weights[business_context]] raises [KeyError] on an unknown
    context. *)
Definition start_adaptive_assessment (business_context : string)
  (target_se : Q) (max_items : Z) : result Session :=
  match trait_weights !! business_context with
  | None => Raise KeyError
  | Some context_weights =>
      Ok (mkSession 0 max_items target_se context_weights
            (list_to_map (List.map (fun dim => (dim, 1.0)) dimensions)) None)
  end.

End Integrated.

(* ===================================================================== *)
(** * Vocabulary of the statements                                       *)
(* ===================================================================== *)

Module Notions.
Import PyReal.
Local Open Scope R_scope.

(** Thresholds in strictly increasing order. *)
Fixpoint strictly_increasing (bs : list R) : Prop :=
  match bs with
  | b :: (b' :: _) as rest => b < b' /\ strictly_increasing rest
  | _ => True
  end.

(** A well-formed item of the five-category scale: positive discrimination
    and four strictly increasing thresholds. *)
Definition well_formed (a : R) (bs : list R) : Prop :=
  0 < a /\ List.length bs = 4%nat /\ strictly_increasing bs.

(** [sum(p(c) for c in range(1, 6))] for a probability function [p]. *)
Fixpoint sum_over (p : Z -> result R) (cats : list Z) (acc : R) : result R :=
  match cats with
  | [] => Ok acc
  | c :: rest => x <-- p c ;; sum_over p rest (acc + x)
  end.

Definition probability_sum (p : Z -> result R) : result R :=
  sum_over p (py_range 1 6) 0.

(** The value [PurePythonIrt.grm_probability] returns on an item. *)
Definition grm_value (theta : R) (item : PurePythonIrt.Item) (category : Z)
  : R :=
  match PurePythonIrt.grm_probability theta
          (PurePythonIrt.discrimination item)
          (PurePythonIrt.difficulty_thresholds item) category with
  | Ok p => p
  | Raise _ => 0
  end.

(** The accumulated log-likelihood of a response list at [theta], each
    probability floored at 0.001 as [estimate_theta] floors it. *)
Fixpoint log_likelihood (theta : R) (pairs : list (Z * PurePythonIrt.Item))
  : R :=
  match pairs with
  | [] => 0
  | (response, item) :: rest =>
      ln (py_max 0.001 (grm_value theta item response))
      + log_likelihood theta rest
  end.

(** The [k]-th grid point, [k * 0.1]. *)
Definition grid_point (k : Z) : R := IZR k * 0.1.

(** [theta] is a point of the grid [-3.0, -2.9, ..., 3.0] that maximises the
    log-likelihood of [pairs] over the grid, and the first such point in
    ascending order. *)
Definition first_grid_maximiser (pairs : list (Z * PurePythonIrt.Item))
  (theta : R) : Prop :=
  exists k : Z,
    (-30 <= k <= 30)%Z /\ theta = grid_point k /\
    forall j : Z, (-30 <= j <= 30)%Z ->
      log_likelihood (grid_point j) pairs <= log_likelihood theta pairs /\
      (log_likelihood (grid_point j) pairs = log_likelihood theta pairs ->
       (k <= j)%Z).

(** Successive calls of [select_next_item], one per entry of [thetas]; the
    identifier of each selected item joins the administered list before the
    next call, and the run ends when the selector returns [None]. *)
Fixpoint select_sequence (thetas : list R)
  (available_items : list PurePythonIrt.Item) (administered : list string)
  : result (list PurePythonIrt.Item) :=
  match thetas with
  | [] => Ok []
  | theta :: rest =>
      choice <-- PurePythonIrt.select_next_item theta available_items
                   (Some administered) ;;
      match choice with
      | None => Ok []
      | Some item =>
          later <-- select_sequence rest available_items
                      (administered ++ [PurePythonIrt.item_id item]) ;;
          Ok (item :: later)
      end
  end.

(** A [PersonalityItem] seen as the dictionary [estimate_theta] expects. *)
Definition as_dict (item : IrtCatEngine.PersonalityItem) : PurePythonIrt.Item :=
  PurePythonIrt.mkItem (IrtCatEngine.item_id item)
    (IrtCatEngine.discrimination item)
    (IrtCatEngine.difficulty_thresholds item).

(** The running estimate: [update_theta] applied response after response,
    each call starting from the estimate the previous one returned. *)
Fixpoint incremental_theta (theta : R)
  (steps : list (Z * IrtCatEngine.PersonalityItem)) : result R :=
  match steps with
  | [] => Ok theta
  | (response, item) :: rest =>
      updated <-- IrtCatEngine.update_theta theta item response ;;
      incremental_theta (fst updated) rest
  end.

(** The move one response makes, read off the branches of [update_theta]. *)
Definition response_step (theta : R) (response : Z) : R :=
  let moved :=
    if (4 <=? response)%Z then theta + 0.2
    else if (response <=? 2)%Z then theta - 0.2
    else theta in
  Rmax (-3) (Rmin 3 moved).

Definition response_walk (theta : R) (responses : list Z) : R :=
  fold_left response_step responses theta.

(** The precision test of [should_stop_assessment]. *)
Definition precision_met (session : Integrated.Session) : bool :=
  let '(important_traits_ready, total_important_traits) :=
    Integrated.count_important session in
  (0 <? total_important_traits)%Z
  && Qle_bool 0.8%Q
       (inject_Z important_traits_ready / inject_Z total_important_traits)%Q.

End Notions.

(* ===================================================================== *)
(** * Inputs of the examples                                             *)
(* ===================================================================== *)

Module Inputs.
Local Open Scope R_scope.

(** The item of the self-test at the end of [irt_cat_engine.py]. *)
Definition sample_item : IrtCatEngine.PersonalityItem :=
  IrtCatEngine.mkPersonalityItem "INNOV_001" "innovativeness"
    "Ich entwickle gerne kreative Lösungen für Probleme"
    "I enjoy developing creative solutions to problems"
    1.2 [-1.5; -0.5; 0.5; 1.5].

(** A well-formed item whose thresholds lie far outside the theta range. *)
Definition remote_item : PurePythonIrt.Item :=
  PurePythonIrt.mkItem "REMOTE_001" 1 [-2000; -1000; 1000; 2000].

(** Two well-formed items: one whose thresholds lie well below the theta
    range, one whose last threshold is 0. *)
Definition low_item : PurePythonIrt.Item :=
  PurePythonIrt.mkItem "LOW_001" 1 [-20; -19; -18; -17].

Definition mid_item : PurePythonIrt.Item :=
  PurePythonIrt.mkItem "MID_001" 1 [-3; -2; -1; 0].

Definition remote_personality_item : IrtCatEngine.PersonalityItem :=
  IrtCatEngine.mkPersonalityItem "REMOTE_002" "innovativeness" "" ""
    1 [1000; 2000; 3000; 4000].

(** A session of seven administered items, every standard error at 0.1,
    target 0.20, in the fintech context. *)
Definition early_precise_session : Integrated.Session :=
  Integrated.mkSession 7 15 0.20%Q
    (Integrated.weights 0.85 0.80 0.75 0.70 0.65 0.45 0.55)%Q
    (list_to_map (List.map (fun dim => (dim, 0.1%Q)) Integrated.dimensions))
    None.

End Inputs.

(* ===================================================================== *)
(** * irt_cat_engine.py : the percentile conversion                      *)
(* ===================================================================== *)

Module PyNumbers.
Local Open Scope R_scope.

(** [int(x)] of a float: the integer part, rounded towards zero. *)
Definition py_int (x : R) : Z :=
  if Rlt_dec x 0 then (- Int_part (- x))%Z else Int_part x.

(** [math.exp]: raises [OverflowError] when the result would exceed the
    largest float, that is for arguments above about 709.78. *)
Definition exp_overflow : R := 709.78.

Definition math_exp (x : R) : result R :=
  if Rlt_dec exp_overflow x then Raise OverflowError else Ok (exp x).

End PyNumbers.

Module IrtCatPercentile.
Import PyNumbers.
Local Open Scope R_scope.

(** [IRTCATEngine.theta_to_percentile] *)
Definition theta_to_percentile (theta : R) : Z :=
  let normalized := (theta + 3.0) / 6.0 in
  let percentile := (py_int (normalized * 98) + 1)%Z in
  Z.max 1 (Z.min 99 percentile).

End IrtCatPercentile.

(* ===================================================================== *)
(** * assessment_session.py : class AssessmentSession                    *)
(* ===================================================================== *)

Module AssessmentSession.
Import IrtCatEngine.
Local Open Scope R_scope.

(** The attributes of the session object; [self.engine] carries no state. *)
Record AssessmentSession : Type := mkAssessmentSession {
  items : list PersonalityItem;
  user_responses : list (string * Z);
  theta_estimates : gmap string R;
  administered_items : list string
}.

Definition session_dimensions : list string :=
  [ "innovativeness"; "risk_taking"; "achievement_orientation";
    "autonomy_orientation"; "proactiveness"; "locus_of_control";
    "self_efficacy" ]%string.

(** [__init__]: the sample bank, empty logs, theta 0.0 in every dimension. *)
Definition init : result AssessmentSession :=
  bank <-- create_sample_item_bank ;;
  Ok (mkAssessmentSession bank [] 
        (fold_left (fun estimates dimension => <[dimension := 0.0]> estimates)
           session_dimensions ∅)
        []).

(** [x in l] on a list of strings. *)
Definition py_in (x : string) (l : list string) : bool :=
  existsb (String.eqb x) l.

(** [random.choice(seq)] on a non-empty list, with the number the generator
    draws made an argument. *)
Definition random_choice {A : Type} (draw : nat) (seq : list A) : option A :=
  nth_error seq (draw mod List.length seq).

(** [select_next_question]; [None] is Python's [None]. *)
Definition select_next_question (self : AssessmentSession) (draw : nat)
  : option PersonalityItem :=
  let available_items :=
    List.filter (fun item => negb (py_in (item_id item) (administered_items self)))
      (items self) in
  match available_items with
  | [] => None
  | _ =>
      let administered_item_objects :=
        List.filter (fun item => py_in (item_id item) (administered_items self))
          (items self) in
      let dimensions_asked := List.map dimension administered_item_objects in
      match List.find (fun item => negb (py_in (dimension item) dimensions_asked))
              available_items with
      | Some item => Some item
      | None => random_choice draw available_items
      end
  end.

Definition set_theta (self : AssessmentSession) (dimension : string)
  (theta : R) : AssessmentSession :=
  mkAssessmentSession (items self) (user_responses self)
    (<[dimension := theta]> (theta_estimates self)) (administered_items self).

(** [process_response]: the session as the call leaves it, and whether the
    call returned or raised.  The two logs are extended before the estimate
    is read. *)
Definition process_response (self : AssessmentSession)
  (item : PersonalityItem) (response : Z) : AssessmentSession * result unit :=
  let logged :=
    mkAssessmentSession (items self)
      (user_responses self ++ [(item_id item, response)])
      (theta_estimates self)
      (administered_items self ++ [item_id item]) in
  match theta_estimates logged !! dimension item with
  | None => (logged, Raise KeyError)
  | Some current_theta =>
      match update_theta current_theta item response with
      | Raise e => (logged, Raise e)
      | Ok (new_theta, se) => (set_theta logged (dimension item) new_theta, Ok tt)
      end
  end.

(** [interpret_score] *)
Definition interpret_score (percentile : Z) : string :=
  if (80 <=? percentile)%Z then "Sehr hoch"
  else if (60 <=? percentile)%Z then "Hoch"
  else if (40 <=? percentile)%Z then "Mittel"
  else if (20 <=? percentile)%Z then "Niedrig"
  else "Sehr niedrig".

Record Score : Type := mkScore {
  percentile : Z;
  theta : R;
  interpretation : string
}.

(** [get_final_scores] *)
Definition get_final_scores (self : AssessmentSession) : gmap string Score :=
  (fun theta =>
     let percentile := IrtCatPercentile.theta_to_percentile theta in
     mkScore percentile theta (interpret_score percentile))
  <$> theta_estimates self.

End AssessmentSession.

(* ===================================================================== *)
(** * integrated_assessment_system.py : the item bank and the estimates  *)
(* ===================================================================== *)

Module IntegratedIrt.
Import PyReal PyNumbers.
Local Open Scope R_scope.

(** The dictionaries of [self.item_bank]; [difficulty] and
    [interaction_target] are read with [.get]. *)
Record BankItem : Type := mkBankItem {
  item_id : string;
  dimension : string;
  text_de : string;
  discrimination : R;
  difficulty : option R;
  business_context : string;
  interaction_target : option string
}.

(** [self.item_bank] of [initialize_irt_system]. *)
Definition item_bank : list BankItem := [
  mkBankItem "risk_001" "risk_taking"
    "Ich bin bereit, finanzielle Risiken einzugehen, um mein Geschäft voranzubringen"
    1.2 (Some 0.5) "general" (Some "risk_achievement_friction"%string);
  mkBankItem "autonomy_001" "autonomy_orientation"
    "Ich arbeite am besten, wenn ich völlige Kontrolle über meine Aufgaben habe"
    1.4 (Some 0.0) "general" (Some "autonomy_self_efficacy_friction"%string);
  mkBankItem "efficacy_001" "self_efficacy"
    "Ich bin zuversichtlich, auch schwierige Geschäftsprobleme lösen zu können"
    1.3 (Some (-0.2)) "general" (Some "autonomy_self_efficacy_friction"%string);
  mkBankItem "innovation_001" "innovativeness"
    "Ich entwickle gerne völlig neue Lösungsansätze für bestehende Probleme"
    1.1 (Some 0.3) "fintech" (Some "innovation_autonomy_synergy"%string);
  mkBankItem "achievement_001" "achievement_orientation"
    "Ich setze mir sehr hohe Leistungsstandards und arbeite hart, um sie zu erreichen"
    1.0 (Some 0.1) "general" (Some "risk_achievement_friction"%string);
  mkBankItem "proactive_001" "proactiveness"
    "Ich erkenne Geschäftschancen, bevor andere sie sehen"
    1.3 (Some 0.7) "ecommerce" (Some "proactiveness_efficacy_friction"%string);
  mkBankItem "competitive_001" "competitive_aggressiveness"
    "Ich bin entschlossen, meine Konkurrenten zu übertreffen"
    1.2 (Some 0.4) "general" (Some "innovation_competition_friction"%string)
].

(** [1 / (1 + math.exp(-discrimination * (theta - difficulty)))], the
    expression both functions below evaluate. *)
Definition response_probability (discrimination theta difficulty : R)
  : result R :=
  e <-- math_exp ((- discrimination) * (theta - difficulty)) ;;
  py_div 1 (1 + e).

(** [calculate_fisher_information] *)
Definition calculate_fisher_information (theta : R) (item : BankItem)
  : result R :=
  let discrimination := discrimination item in
  let difficulty := default 0.0 (difficulty item) in
  prob <-- response_probability discrimination theta difficulty ;;
  let fisher_info := discrimination ^ 2 * prob * (1 - prob) in
  Ok fisher_info.

(** The two dictionaries of the session that [update_theta_estimate] reads
    and writes.  The standard errors are only ever multiplied by 0.9 and
    stay rational, as in [Integrated.Session]. *)
Record Estimates : Type := mkEstimates {
  theta_estimates : gmap string R;
  se_estimates : gmap string Q
}.

(** [update_theta_estimate]: the estimates as the call leaves them, and
    whether it returned or raised. *)
Definition update_theta_estimate (session : Estimates) (item : BankItem)
  (response : Z) : Estimates * result unit :=
  let dimension := dimension item in
  let binary_response := if (4 <=? response)%Z then 1 else 0 in
  match theta_estimates session !! dimension with
  | None => (session, Raise KeyError)
  | Some current_theta =>
      let discrimination := discrimination item in
      let difficulty := default 0.0 (difficulty item) in
      match response_probability discrimination current_theta difficulty with
      | Raise e => (session, Raise e)
      | Ok expected =>
          let error := binary_response - expected in
          let learning_rate := 0.3 in
          let new_theta := current_theta + learning_rate * error in
          let new_theta := py_max (-3.0) (py_min 3.0 new_theta) in
          let updated :=
            mkEstimates (<[dimension := new_theta]> (theta_estimates session))
              (se_estimates session) in
          match se_estimates updated !! dimension with
          | None => (updated, Raise KeyError)
          | Some se =>
              (mkEstimates (theta_estimates updated)
                 (<[dimension := (se * 0.9)%Q]> (se_estimates updated)),
               Ok tt)
          end
      end
  end.

End IntegratedIrt.

(* ===================================================================== *)
(** * integrated_assessment_system.py : the analysis of a session        *)
(* ===================================================================== *)

Module PyRational.
Local Open Scope Q_scope.

Definition Qlt_bool (a b : Q) : bool := negb (Qle_bool b a).

(** [max(a, b)], [min(a, b)] and [int(x)] on exact rationals. *)
Definition py_max (a b : Q) : Q := if Qlt_bool a b then b else a.
Definition py_min (a b : Q) : Q := if Qlt_bool b a then b else a.
Definition py_int (x : Q) : Z := Z.quot (Qnum x) (Z.pos (Qden x)).

End PyRational.

Module IntegratedReport.
Import PyRational.
Local Open Scope Q_scope.

(** [theta_to_percentile] *)
Definition theta_to_percentile (theta : Q) : Z :=
  Z.max 1 (Z.min 99 (py_int ((theta + 3) / 6 * 100))).

(** [get_fitness_level], [get_friction_level], [get_confidence_level] *)
Definition get_fitness_level (score : Q) : string :=
  if Qle_bool 0.8 score then "excellent"
  else if Qle_bool 0.65 score then "good"
  else if Qle_bool 0.5 score then "adequate"
  else if Qle_bool 0.35 score then "challenging"
  else "difficult".

Definition get_friction_level (net_friction : Q) : string :=
  if Qle_bool net_friction 0 then "optimal"
  else if Qle_bool net_friction 0.5 then "manageable"
  else if Qle_bool net_friction 1.0 then "concerning"
  else "critical".

Definition get_confidence_level (probability : Q) : string :=
  if Qle_bool 0.8 probability then "sehr hoch"
  else if Qle_bool 0.65 probability then "hoch"
  else if Qle_bool 0.5 probability then "moderat"
  else "niedrig".

(** The entries of [self.friction_patterns]; [friction_pattern_items] is
    the dictionary in its insertion order, as [.items()] walks it. *)
Record Condition : Type := mkCondition {
  operator : string;
  threshold : Q
}.

Record Pattern : Type := mkPattern {
  traits : list string;
  conditions : list (string * Condition);
  severity_multiplier : Q;
  description : string
}.

Definition friction_pattern_items : list (string * Pattern) :=
  [ ("autonomy_self_efficacy_friction"%string,
     mkPattern ["autonomy_orientation"; "self_efficacy"]%string
       [("autonomy_orientation"%string, mkCondition ">=" 0.6);
        ("self_efficacy"%string, mkCondition "<=" (-0.5))]
       0.8
       "Hohe Autonomie mit geringer Selbstwirksamkeit führt zu Delegationsproblemen");
    ("risk_achievement_friction"%string,
     mkPattern ["risk_taking"; "achievement_orientation"]%string
       [("risk_taking"%string, mkCondition ">=" 0.5);
        ("achievement_orientation"%string, mkCondition "<=" (-0.3))]
       0.7
       "Hohe Risikobereitschaft ohne Leistungsorientierung führt zu unvorsichtigen Entscheidungen");
    ("innovation_autonomy_synergy"%string,
     mkPattern ["innovativeness"; "autonomy_orientation"]%string
       [("innovativeness"%string, mkCondition ">=" 0.4);
        ("autonomy_orientation"%string, mkCondition ">=" 0.4)]
       (-0.6)
       "Hohe Innovation und Autonomie verstärken sich gegenseitig positiv") ].

Definition friction_patterns : gmap string Pattern :=
  list_to_map friction_pattern_items.

(** Float division by the length of a list. *)
Definition div_by_len {A : Type} (x : Q) (l : list A) : result Q :=
  match l with
  | [] => Raise ZeroDivisionError
  | _ => Ok (x / inject_Z (Z.of_nat (List.length l)))
  end.

(** [assess_interaction_information_need]; an empty target string is falsy. *)
Definition assess_interaction_information_need
  (theta_estimates : gmap string Q) (interaction_target : string)
  : result Q :=
  if String.eqb interaction_target "" then Ok 0.0
  else
    match friction_patterns !! interaction_target with
    | None => Ok 0.0
    | Some pattern =>
        let involved_traits := traits pattern in
        let total_uncertainty :=
          fold_left
            (fun total_uncertainty trait =>
               let trait_theta := default 0.0 (theta_estimates !! trait) in
               let uncertainty := 1.0 - py_min 1.0 (Qabs.Qabs trait_theta / 2.0) in
               total_uncertainty + uncertainty)
            involved_traits 0.0 in
        div_by_len total_uncertainty involved_traits
    end.

(** The table [self.business_contexts]. *)
Record ContextInfo : Type := mkContextInfo {
  regulatory_complexity : Z;
  capital_requirements : Z;
  gruendungszuschuss_compatibility : Q;
  approval_probability_base : Q
}.

Definition business_contexts : gmap string ContextInfo :=
  list_to_map [
    ("fintech"%string,    mkContextInfo 5 250000 0.6 0.55);
    ("consulting"%string, mkContextInfo 2 15000 0.9 0.75);
    ("restaurant"%string, mkContextInfo 3 120000 0.8 0.65);
    ("ecommerce"%string,  mkContextInfo 3 50000 0.7 0.60) ].

(** The dictionary [calculate_context_weighted_scores] returns; its
    [weighted_scores] keep the order of [theta_scores]. *)
Record TraitScore : Type := mkTraitScore {
  raw_theta : Q;
  normalized : Q;
  weight : Q;
  weighted_score : Q;
  importance : string
}.

Record ContextualAnalysis : Type := mkContextualAnalysis {
  business_context : string;
  weighted_scores : list (string * TraitScore);
  context_fitness_score : Q;
  fitness_level : string
}.

(** One pass of the loop of [calculate_context_weighted_scores], threading
    [(weighted_scores, total_weighted, total_weight)]. *)
Definition weigh_trait (context_weights : gmap string Q)
  (acc : list (string * TraitScore) * Q * Q) (entry : string * Q)
  : list (string * TraitScore) * Q * Q :=
  let '(weighted_scores, total_weighted, total_weight) := acc in
  let '(trait, theta) := entry in
  let weight := default 0.5 (context_weights !! trait) in
  let normalized := (theta + 3.0) / 6.0 in
  let weighted_score := normalized * weight in
  (weighted_scores
     ++ [(trait,
          mkTraitScore theta normalized weight weighted_score
            (if Qle_bool 0.8 weight then "critical"
             else if Qle_bool 0.65 weight then "high" else "moderate"))],
   total_weighted + weighted_score,
   total_weight + weight).

(** [calculate_context_weighted_scores]; [theta_scores] is the dictionary
    in its insertion order. *)
Definition calculate_context_weighted_scores (theta_scores : list (string * Q))
  (business_context : string) : result ContextualAnalysis :=
  match Integrated.trait_weights !! business_context with
  | None => Raise KeyError
  | Some context_weights =>
      let '(weighted_scores, total_weighted, total_weight) :=
        fold_left (weigh_trait context_weights) theta_scores ([], 0.0, 0.0) in
      let context_fitness :=
        if Qlt_bool 0 total_weight then total_weighted / total_weight
        else 0.5 in
      Ok (mkContextualAnalysis business_context weighted_scores
            context_fitness (get_fitness_level context_fitness))
  end.

(** A detected friction; [detection_time] is the clock reading.  The keys
    [description] and [fitness_level] occur in two dictionaries and carry a
    prefix in the second record. *)
Record Friction : Type := mkFriction {
  pattern_id : string;
  detection_time : Z;
  friction_description : string;
  severity : Q;
  type : string
}.

Record FrictionAnalysis : Type := mkFrictionAnalysis {
  total_frictions : Z;
  total_synergies : Z;
  friction_score : Q;
  synergy_score : Q;
  net_friction : Q;
  friction_level : string;
  detected_patterns : list Friction
}.

(** The loop of [monitor_real_time_friction] over the conditions of one
    pattern: [friction_detected] stays true unless a condition fails; an
    operator other than [">="] and ["<="] constrains nothing. *)
Fixpoint conditions_hold (current_thetas : gmap string Q)
  (conditions : list (string * Condition)) : bool :=
  match conditions with
  | [] => true
  | (trait, condition) :: rest =>
      let trait_theta := default 0.0 (current_thetas !! trait) in
      if String.eqb (operator condition) ">="
         && Qlt_bool trait_theta (threshold condition) then false
      else if String.eqb (operator condition) "<="
              && Qlt_bool (threshold condition) trait_theta then false
      else conditions_hold current_thetas rest
  end.

(** One pass of the loop over [self.friction_patterns.items()], threading
    [session["detected_frictions"]]; [clock pattern_id] is the reading of
    [datetime.now()] when the pattern is recorded. *)
Definition monitor_pattern (clock : string -> Z)
  (current_thetas : gmap string Q) (detected_frictions : list Friction)
  (entry : string * Pattern) : list Friction :=
  let '(pattern_id', pattern) := entry in
  if conditions_hold current_thetas (conditions pattern) then
    let existing :=
      existsb (fun f => String.eqb (pattern_id f) pattern_id')
        detected_frictions in
    if existing then detected_frictions
    else detected_frictions
           ++ [mkFriction pattern_id' (clock pattern_id')
                 (description pattern)
                 (Qabs.Qabs (severity_multiplier pattern))
                 (if Qlt_bool (severity_multiplier pattern) 0
                  then "synergy" else "friction")]
  else detected_frictions.

(** [monitor_real_time_friction], as the new value of
    [session["detected_frictions"]]. *)
Definition monitor_real_time_friction {A : Type} (clock : string -> Z)
  (responses : list A) (current_thetas : gmap string Q)
  (detected_frictions : list Friction) : list Friction :=
  if (List.length responses <? 3)%nat then detected_frictions
  else fold_left (monitor_pattern clock current_thetas)
         friction_pattern_items detected_frictions.

Definition of_type (kind : string) (frictions : list Friction)
  : list Friction :=
  List.filter (fun f => String.eqb (type f) kind) frictions.

Definition sum_severity (frictions : list Friction) : Q :=
  fold_left (fun total f => total + severity f) frictions 0.

(** [analyze_detected_frictions]; it reads neither [theta_scores] nor
    [business_context]. *)
Definition analyze_detected_frictions (detected_frictions : list Friction)
  (theta_scores : list (string * Q)) (business_context : string)
  : FrictionAnalysis :=
  let friction_score := sum_severity (of_type "friction" detected_frictions) in
  let synergy_score := sum_severity (of_type "synergy" detected_frictions) in
  mkFrictionAnalysis
    (Z.of_nat (List.length (of_type "friction" detected_frictions)))
    (Z.of_nat (List.length (of_type "synergy" detected_frictions)))
    friction_score synergy_score (friction_score - synergy_score)
    (get_friction_level (friction_score - synergy_score))
    detected_frictions.

(** [identify_key_strengths] *)
Definition identify_key_strengths (contextual_analysis : ContextualAnalysis)
  : list string :=
  let strengths :=
    fold_left
      (fun strengths entry =>
         let '(trait, analysis) := entry in
         if Qle_bool 0.7 (normalized analysis)
            && Qle_bool 0.6 (weight analysis)
         then strengths
                ++ [("Starke " ++ trait ++ " (" ++ importance analysis
                     ++ " für Geschäft)")%string]
         else strengths)
      (weighted_scores contextual_analysis) [] in
  firstn 3 strengths.

(** [identify_development_areas] *)
Definition identify_development_areas
  (contextual_analysis : ContextualAnalysis)
  (friction_analysis : FrictionAnalysis) : list string :=
  let areas :=
    fold_left
      (fun areas entry =>
         let '(trait, analysis) := entry in
         if Qlt_bool (normalized analysis) 0.5
            && Qle_bool 0.6 (weight analysis)
         then areas
                ++ [("Verbesserung " ++ trait
                     ++ " (wichtig für Kontext)")%string]
         else areas)
      (weighted_scores contextual_analysis) [] in
  let areas :=
    fold_left
      (fun areas friction =>
         if String.eqb (type friction) "friction"
         then areas ++ [("Adressierung " ++ pattern_id friction)%string]
         else areas)
      (detected_patterns friction_analysis) areas in
  firstn 3 areas.

Record BusinessFitness : Type := mkBusinessFitness {
  raw_context_fitness : Q;
  friction_adjustment : Q;
  adjusted_fitness_score : Q;
  business_fitness_level : string;
  key_strengths : list string;
  development_areas : list string
}.

(** [assess_business_fitness]; it does not read [business_context]. *)
Definition assess_business_fitness (contextual_analysis : ContextualAnalysis)
  (friction_analysis : FrictionAnalysis) (business_context : string)
  : BusinessFitness :=
  let context_fitness := context_fitness_score contextual_analysis in
  let net_friction := net_friction friction_analysis in
  let friction_penalty := py_min 0.3 (net_friction * 0.2) in
  let adjusted_fitness := py_max 0.0 (context_fitness - friction_penalty) in
  mkBusinessFitness context_fitness (- friction_penalty) adjusted_fitness
    (get_fitness_level adjusted_fitness)
    (identify_key_strengths contextual_analysis)
    (identify_development_areas contextual_analysis friction_analysis).

(** [get_optimization_factors] *)
Definition get_optimization_factors (business_fitness : BusinessFitness)
  (business_context : string) : result (list string) :=
  let factors := [] in
  let factors :=
    if Qle_bool 0.7 (adjusted_fitness_score business_fitness)
    then factors ++ ["Starke Persönlichkeits-Business-Passung"%string]
    else factors in
  match business_contexts !! business_context with
  | None => Raise KeyError
  | Some context_info =>
      let factors :=
        if Qle_bool 0.8 (gruendungszuschuss_compatibility context_info)
        then factors ++ ["Hohe Gründungszuschuss-Kompatibilität"%string]
        else factors in
      let factors :=
        if Qlt_bool (-0.1) (friction_adjustment business_fitness)
        then factors ++ ["Geringe psychologische Risikofaktoren"%string]
        else factors in
      Ok (match factors with
          | [] => ["Standardbewertung"%string]
          | _ => factors
          end)
  end.

Record ApprovalOutlook : Type := mkApprovalOutlook {
  probability : Q;
  confidence_level : string;
  base_probability : Q;
  fitness_adjustment : Q;
  compatibility_adjustment : Q;
  optimization_factors : list string
}.

(** [optimize_gruendungszuschuss_probability] *)
Definition optimize_gruendungszuschuss_probability
  (business_fitness : BusinessFitness) (business_context : string)
  : result ApprovalOutlook :=
  match business_contexts !! business_context with
  | None => Raise KeyError
  | Some context_info =>
      let base_probability := approval_probability_base context_info in
      let fitness_score := adjusted_fitness_score business_fitness in
      let fitness_adjustment := (fitness_score - 0.5) * 0.4 in
      let compatibility := gruendungszuschuss_compatibility context_info in
      let compatibility_adjustment := (compatibility - 0.7) * 0.15 in
      let final_probability :=
        py_max 0.25
          (py_min 0.95
             (base_probability + fitness_adjustment
              + compatibility_adjustment)) in
      factors <-- get_optimization_factors business_fitness business_context ;;
      Ok (mkApprovalOutlook final_probability
            (get_confidence_level final_probability)
            base_probability fitness_adjustment compatibility_adjustment
            factors)
  end.

End IntegratedReport.

(* ===================================================================== *)
(** * contextual_scoring.py : fitness and approval probability           *)
(* ===================================================================== *)

Module ContextualScoring.
Import PyRational.
Local Open Scope Q_scope.

(** An entry of [critical_trait_scores]. *)
Record CriticalTrait : Type := mkCriticalTrait {
  dimension : string;
  score : Q;
  weight : Q
}.

(** The dictionary [calculate_business_fitness] returns;
    [critical_traits_status] holds the two numbers its text is formatted
    from. *)
Record Fitness : Type := mkFitness {
  fitness_score : Q;
  fitness_level : string;
  critical_traits_status : Z * nat;
  optimization_potential : Q
}.

(** [calculate_business_fitness]; [context_info] holds the numeric entries
    of a context, and is empty for a context that is not known. *)
Definition calculate_business_fitness
  (total_weighted_score total_possible_weight : Q)
  (critical_traits : list CriticalTrait) (context_info : gmap string Q)
  : Fitness :=
  let base_fitness :=
    if Qlt_bool 0 total_possible_weight
    then total_weighted_score / total_possible_weight
    else 0.5 in
  let critical_traits_ready :=
    fold_left
      (fun critical_traits_ready trait =>
         if Qle_bool 0.6 (score trait)
         then (critical_traits_ready + 1)%Z else critical_traits_ready)
      critical_traits 0%Z in
  let critical_traits_ratio :=
    match critical_traits with
    | [] => 1.0
    | _ => inject_Z critical_traits_ready
           / inject_Z (Z.of_nat (List.length critical_traits))
    end in
  let complexity_adjustment :=
    if bool_decide (context_info = ∅) then 1.0
    else
      let regulatory_complexity :=
        default 3 (context_info !! "regulatory_complexity"%string) in
      1.0 - ((regulatory_complexity - 1) * 0.05) in
  let final_fitness :=
    base_fitness * critical_traits_ratio * complexity_adjustment in
  let final_fitness := py_max 0.0 (py_min 1.0 final_fitness) in
  let fitness_level :=
    if Qle_bool 0.8 final_fitness then "excellent"
    else if Qle_bool 0.65 final_fitness then "good"
    else if Qle_bool 0.5 final_fitness then "adequate"
    else if Qle_bool 0.35 final_fitness then "challenging"
    else "difficult" in
  mkFitness final_fitness fitness_level
    (critical_traits_ready, List.length critical_traits)
    (1.0 - final_fitness).

(** [calculate_gruendungszuschuss_probability] *)
Definition calculate_gruendungszuschuss_probability
  (fitness_analysis : Fitness) (business_context : string)
  (context_info : gmap string Q) : Q :=
  let base_probability :=
    default 0.6 (context_info !! "approval_probability_base"%string) in
  let fitness_score := fitness_score fitness_analysis in
  let fitness_adjustment := (fitness_score - 0.5) * 0.4 in
  let compatibility :=
    default 0.7
      (context_info !! "gruendungszuschuss_compatibility"%string) in
  let compatibility_adjustment := (compatibility - 0.7) * 0.2 in
  let final_probability :=
    base_probability + fitness_adjustment + compatibility_adjustment in
  py_max 0.25 (py_min 0.95 final_probability).

End ContextualScoring.

(* ===================================================================== *)
(** * Vocabulary of the further statements                               *)
(* ===================================================================== *)

Module MoreNotions.
Import PyReal Notions.
Local Open Scope R_scope.

(** The value [PurePythonIrt.fisher_information] returns on an item. *)
Definition fisher_value (theta : R) (item : PurePythonIrt.Item) : R :=
  match PurePythonIrt.fisher_information theta
          (PurePythonIrt.discrimination item)
          (PurePythonIrt.difficulty_thresholds item) with
  | Ok v => v
  | Raise _ => 0
  end.

(** The items [select_next_item] chooses among. *)
Definition candidates (available_items : list PurePythonIrt.Item)
  (used_items : list string) : list PurePythonIrt.Item :=
  List.filter (fun item => negb (PurePythonIrt.is_used used_items item))
    available_items.

(** [item] is a candidate of the largest information at [theta], and the
    first such candidate in list order. *)
Definition first_most_informative (theta : R)
  (pool : list PurePythonIrt.Item) (item : PurePythonIrt.Item) : Prop :=
  exists pre post,
    pool = pre ++ item :: post /\
    List.Forall (fun c => fisher_value theta c < fisher_value theta item) pre /\
    List.Forall (fun c => fisher_value theta c <= fisher_value theta item) post.

(** The information [estimate_theta] adds up over its items. *)
Fixpoint total_information (theta : R) (items : list PurePythonIrt.Item) : R :=
  match items with
  | [] => 0
  | item :: rest => fisher_value theta item + total_information theta rest
  end.

(** The sum of the squared discriminations of a list of items. *)
Fixpoint squared_discriminations (items : list PurePythonIrt.Item) : R :=
  match items with
  | [] => 0
  | item :: rest =>
      PurePythonIrt.discrimination item ^ 2 + squared_discriminations rest
  end.

(** The label [get_final_scores] attaches to a theta, as a step function
    of theta. *)
Definition theta_label (theta : R) : string :=
  if Rle_dec (90 / 49) theta then "Sehr hoch"
  else if Rle_dec (30 / 49) theta then "Hoch"
  else if Rle_dec (- 30 / 49) theta then "Mittel"
  else if Rle_dec (- 90 / 49) theta then "Niedrig"
  else "Sehr niedrig".

(** The dimensions of the bank items that were administered, as
    [select_next_question] collects them. *)
Definition dimensions_asked (self : AssessmentSession.AssessmentSession)
  : list string :=
  List.map IrtCatEngine.dimension
    (List.filter
       (fun item => AssessmentSession.py_in (IrtCatEngine.item_id item)
                      (AssessmentSession.administered_items self))
       (AssessmentSession.items self)).

(** [process_response] applied to one answered item after the other, up to
    the first call that raises. *)
Fixpoint process_all (self : AssessmentSession.AssessmentSession)
  (answers : list (IrtCatEngine.PersonalityItem * Z))
  : AssessmentSession.AssessmentSession * result unit :=
  match answers with
  | [] => (self, Ok tt)
  | (item, response) :: rest =>
      match AssessmentSession.process_response self item response with
      | (next, Ok _) => process_all next rest
      | (next, Raise e) => (next, Raise e)
      end
  end.

(** [update_theta_estimate] applied to one answered item after the other,
    up to the first call that raises. *)
Fixpoint update_all (session : IntegratedIrt.Estimates)
  (answers : list (IntegratedIrt.BankItem * Z))
  : IntegratedIrt.Estimates * result unit :=
  match answers with
  | [] => (session, Ok tt)
  | (item, response) :: rest =>
      match IntegratedIrt.update_theta_estimate session item response with
      | (next, Ok _) => update_all next rest
      | (next, Raise e) => (next, Raise e)
      end
  end.

(** An item whose exponent stays far from the overflow of [math.exp] for
    every theta between -3 and 3. *)
Definition tame (item : IntegratedIrt.BankItem) : Prop :=
  forall theta, -3 <= theta <= 3 ->
    -709 <= IntegratedIrt.discrimination item
            * (theta - default 0 (IntegratedIrt.difficulty item)).

End MoreNotions.

Module ReportNotions.
Import PyRational IntegratedReport.
Local Open Scope Q_scope.

(** The pattern identifiers of a list of detected frictions. *)
Definition pattern_ids (detected : list Friction) : list string :=
  List.map pattern_id detected.

(** A detected friction that carries the severity and the type
    [monitor_real_time_friction] derives from the table for its pattern. *)
Definition recorded (f : Friction) : Prop :=
  match friction_patterns !! pattern_id f with
  | Some pattern =>
      severity f = Qabs.Qabs (severity_multiplier pattern) /\
      type f = (if Qlt_bool (severity_multiplier pattern) 0
                then "synergy" else "friction")%string
  | None => False
  end.

(** Detected frictions in which no pattern occurs twice and every entry is
    as the table has it. *)
Definition monitored (detected : list Friction) : Prop :=
  List.NoDup (pattern_ids detected) /\ List.Forall recorded detected.

(** What one detected friction adds to the net friction that
    [analyze_detected_frictions] reports. *)
Definition net_share (f : Friction) : Q :=
  (if String.eqb (type f) "friction" then severity f else 0)
  - (if String.eqb (type f) "synergy" then severity f else 0).

End ReportNotions.

(* ===================================================================== *)
(** * Inputs of the further examples                                     *)
(* ===================================================================== *)

Module MoreInputs.
Local Open Scope R_scope.

(** The first item of [self.item_bank]. *)
Definition risk_item : IntegratedIrt.BankItem :=
  IntegratedIrt.mkBankItem "risk_001" "risk_taking"
    "Ich bin bereit, finanzielle Risiken einzugehen, um mein Geschäft voranzubringen"
    1.2 (Some 0.5) "general" (Some "risk_achievement_friction"%string).

(** Estimates that track risk taking only, as a session starts them. *)
Definition risk_estimates : IntegratedIrt.Estimates :=
  IntegratedIrt.mkEstimates (<["risk_taking"%string := 0]> ∅)
    (<["risk_taking"%string := 1.0%Q]> ∅).

End MoreInputs.

Module ReportInputs.
Import IntegratedReport.
Local Open Scope Q_scope.

(** Three recorded answers, as item identifier and response. *)
Definition three_answers : list (string * Z) :=
  [("risk_001"%string, 5%Z); ("achievement_001"%string, 1%Z);
   ("innovation_001"%string, 3%Z)].

(** Estimates of a founder who takes risks and cares little for
    achievement. *)
Definition bold_thetas : gmap string Q :=
  <["risk_taking"%string := 1.0]>
    (<["achievement_orientation"%string := -1.0]> ∅).

(** A clock that stands still. *)
Definition still_clock (pattern_id : string) : Z := 0%Z.

(** The second entry of [self.friction_patterns]. *)
Definition risk_achievement_pattern : Pattern :=
  mkPattern ["risk_taking"; "achievement_orientation"]%string
    [("risk_taking"%string, mkCondition ">=" 0.5);
     ("achievement_orientation"%string, mkCondition "<=" (-0.3))]
    0.7
    "Hohe Risikobereitschaft ohne Leistungsorientierung führt zu unvorsichtigen Entscheidungen".

(** The friction that monitoring records for that entry. *)
Definition risk_achievement_record : Friction :=
  mkFriction "risk_achievement_friction" 0
    (description risk_achievement_pattern) 0.7 "friction".

(** The numeric entries of a context as the engine loads them. *)
Definition fintech_info : gmap string Q :=
  <["regulatory_complexity"%string := 5]>
    (<["gruendungszuschuss_compatibility"%string := 0.6]>
       (<["approval_probability_base"%string := 0.55]> ∅)).

(** Two critical traits, neither of which reaches 0.6. *)
Definition weak_critical_traits : list ContextualScoring.CriticalTrait :=
  [ContextualScoring.mkCriticalTrait "risk_taking" 0.4 0.85;
   ContextualScoring.mkCriticalTrait "innovativeness" 0.55 0.8].

(** A contextual analysis of fitness one half. *)
Definition plain_analysis : ContextualAnalysis :=
  mkContextualAnalysis "consulting" [] 0.5 "adequate".

End ReportInputs.

(** Case analysis on every comparison of reals that the goal branches on. *)
Ltac split_Rlt :=
  repeat match goal with
         | |- context [Rlt_dec ?x ?y] => destruct (Rlt_dec x y)
         end.

(* ===================================================================== *)
(** * Running the model                                                  *)
(* ===================================================================== *)

Section Runs.
Import Integrated Notions Inputs.

Example py_getitem_first : py_getitem [10; 20; 30]%Z 0 = Ok 10%Z.
Proof. reflexivity. Qed.

Example py_getitem_last : py_getitem [10; 20; 30]%Z (-1) = Ok 30%Z.
Proof. reflexivity. Qed.

Example py_getitem_past_end : py_getitem [10; 20; 30]%Z 3 = Raise IndexError.
Proof. reflexivity. Qed.

Example py_getitem_before_start :
  py_getitem [10; 20; 30]%Z (-4) = Raise IndexError.
Proof. reflexivity. Qed.

Example py_range_categories : py_range 1 6 = [1; 2; 3; 4; 5]%Z.
Proof. reflexivity. Qed.

Example theta_grid_size : List.length PurePythonIrt.theta_grid = 61%nat.
Proof. reflexivity. Qed.

(** A fresh fintech session with the default target: five important traits,
    none of them precise yet, so the rule continues. *)
Example fresh_session_counts :
  (session <-- start_adaptive_assessment "fintech" 0.20%Q 15 ;;
   Ok (count_important session)) = Ok (0%Z, 5%Z).
Proof. vm_compute. reflexivity. Qed.

Example fresh_session_continues :
  (session <-- start_adaptive_assessment "fintech" 0.20%Q 15 ;;
   Ok (fst (should_stop_assessment session))) = Ok false.
Proof. vm_compute. reflexivity. Qed.

Example unknown_context_raises :
  start_adaptive_assessment "bakery" 0.20%Q 15 = Raise KeyError.
Proof. vm_compute. reflexivity. Qed.

(** At the ceiling the rule stops whatever the precision. *)
Example ceiling_stops :
  (session <-- start_adaptive_assessment "consulting" 0.20%Q 0 ;;
   Ok (should_stop_assessment session))
  = (session <-- start_adaptive_assessment "consulting" 0.20%Q 0 ;;
     Ok (true, set_completion_reason session "max_items_reached")).
Proof. vm_compute. reflexivity. Qed.

End Runs.

(* ===================================================================== *)
(** * Arithmetic of the run-time model                                   *)
(* ===================================================================== *)

Section RealFacts.
Import PyReal.
Local Open Scope R_scope.

Lemma py_max_Rmax (a b : R) : py_max a b = Rmax a b.
Proof.
  unfold py_max, Rmax.
  destruct (Rlt_dec a b), (Rle_dec a b); lra.
Qed.

Lemma py_min_Rmin (a b : R) : py_min a b = Rmin a b.
Proof.
  unfold py_min, Rmin.
  destruct (Rlt_dec b a), (Rle_dec a b); lra.
Qed.

Lemma py_max_lower_l (a b : R) : a <= py_max a b.
Proof. rewrite py_max_Rmax. apply Rmax_l. Qed.

Lemma py_max_lower_r (a b : R) : b <= py_max a b.
Proof. rewrite py_max_Rmax. apply Rmax_r. Qed.

Lemma py_max_upper (a b c : R) : a <= c -> b <= c -> py_max a b <= c.
Proof. intros Ha Hb. rewrite py_max_Rmax. now apply Rmax_lub. Qed.

Lemma py_max_absorb_l (a b : R) : b <= a -> py_max a b = a.
Proof. intros H. unfold py_max. destruct (Rlt_dec a b); lra. Qed.

Lemma py_max_absorb_r (a b : R) : a <= b -> py_max a b = b.
Proof. intros H. unfold py_max. destruct (Rlt_dec a b); lra. Qed.

(** The logistic curve [1 / (1 + exp (- x))]. *)
Lemma logistic_denominator (x : R) : 1 < 1 + exp (- x).
Proof. pose proof (exp_pos (- x)). lra. Qed.

Lemma logistic_open_unit (x : R) : 0 < 1 / (1 + exp (- x)) < 1.
Proof.
  pose proof (logistic_denominator x) as Hd.
  split.
  - apply Rdiv_lt_0_compat; lra.
  - apply (Rmult_lt_reg_r (1 + exp (- x))); [lra|].
    unfold Rdiv. rewrite Rmult_assoc, Rinv_l by lra. lra.
Qed.

Lemma logistic_increasing (x y : R) :
  x <= y -> 1 / (1 + exp (- x)) <= 1 / (1 + exp (- y)).
Proof.
  intros Hxy.
  pose proof (logistic_denominator x) as Hx.
  pose proof (logistic_denominator y) as Hy.
  assert (Hexp : exp (- y) <= exp (- x)).
  { destruct (Req_dec x y) as [->|Hne]; [lra|].
    left. apply exp_increasing. lra. }
  unfold Rdiv. rewrite !Rmult_1_l.
  apply Rinv_le_contravar; lra.
Qed.

Lemma logistic_strictly_increasing (x y : R) :
  x < y -> 1 / (1 + exp (- x)) < 1 / (1 + exp (- y)).
Proof.
  intros Hxy.
  pose proof (logistic_denominator x) as Hx.
  pose proof (logistic_denominator y) as Hy.
  assert (Hexp : exp (- y) < exp (- x)) by (apply exp_increasing; lra).
  unfold Rdiv. rewrite !Rmult_1_l.
  apply Rinv_lt_contravar; [|lra].
  apply Rmult_lt_0_compat; lra.
Qed.

Lemma logistic_reflect (x : R) :
  1 / (1 + exp (- - x)) = 1 - 1 / (1 + exp (- x)).
Proof.
  rewrite Ropp_involutive, exp_Ropp.
  pose proof (exp_pos x) as Hx.
  field. split; lra.
Qed.

Lemma logistic_complement (x : R) :
  1 - 1 / (1 + exp (- x)) = 1 / (1 + exp x).
Proof.
  rewrite exp_Ropp. pose proof (exp_pos x) as Hx.
  field. split; lra.
Qed.

(** A lower bound that needs nothing but [1 + x <= exp x]. *)
Lemma logistic_lower (x : R) :
  0 < x -> (1 + x) / (2 + x) < 1 / (1 + exp (- x)).
Proof.
  intros Hx.
  assert (He : 1 + x < exp x) by (apply exp_ineq1; lra).
  pose proof (exp_pos x) as Hp.
  rewrite exp_Ropp.
  apply (Rmult_lt_reg_r ((2 + x) * (1 + / exp x))).
  { apply Rmult_lt_0_compat; [lra|].
    pose proof (Rinv_0_lt_compat _ Hp). lra. }
  assert (Hinv : / exp x < / (1 + x)).
  { apply Rinv_lt_contravar; [|lra]. apply Rmult_lt_0_compat; lra. }
  assert (H1 : (1 + x) * / (1 + x) = 1) by (apply Rinv_r; lra).
  pose proof (Rinv_0_lt_compat _ Hp) as Hip.
  replace ((1 + x) / (2 + x) * ((2 + x) * (1 + / exp x)))
    with ((1 + x) * (1 + / exp x)) by (field; lra).
  replace (1 / (1 + / exp x) * ((2 + x) * (1 + / exp x)))
    with (2 + x) by (field; split; lra).
  nra.
Qed.

End RealFacts.

(* ===================================================================== *)
(** * Facts about pure_python_irt.py                                     *)
(* ===================================================================== *)

Section PureFacts.
Import PyReal PurePythonIrt Notions.
Local Open Scope R_scope.

Lemma safe_logistic_unit (x : R) : 0 <= safe_logistic x <= 1.
Proof.
  unfold safe_logistic.
  destruct (Rlt_dec 500 x); [lra|].
  destruct (Rlt_dec x (-500)); [lra|].
  pose proof (logistic_open_unit x). lra.
Qed.

Lemma safe_logistic_reflect (x : R) :
  safe_logistic (- x) = 1 - safe_logistic x.
Proof.
  unfold safe_logistic.
  destruct (Rlt_dec 500 x), (Rlt_dec x (-500)),
           (Rlt_dec 500 (- x)), (Rlt_dec (- x) (-500)); try lra.
  apply logistic_reflect.
Qed.

Lemma safe_logistic_increasing (x y : R) :
  x <= y -> safe_logistic x <= safe_logistic y.
Proof.
  intros Hxy. unfold safe_logistic.
  pose proof (logistic_open_unit x). pose proof (logistic_open_unit y).
  pose proof (logistic_increasing x y Hxy).
  destruct (Rlt_dec 500 x), (Rlt_dec x (-500)),
           (Rlt_dec 500 y), (Rlt_dec y (-500)); lra.
Qed.

Lemma py_getitem_raises {A : Type} (l : list A) (i : Z) (e : PyExn) :
  py_getitem l i = Raise e -> e = IndexError.
Proof.
  unfold py_getitem.
  destruct (_ && _)%bool; [destruct (nth_error _ _)|]; congruence.
Qed.

(** [grm_probability] never raises, and what it returns lies in [0, 1]. *)
Lemma grm_probability_total (theta a : R) (bs : list R) (category : Z) :
  exists p, grm_probability theta a bs category = Ok p /\ 0 <= p <= 1.
Proof.
  unfold grm_probability, grm_probability_body.
  destruct (category =? 1)%Z.
  { destruct (py_getitem bs 0) as [b|e] eqn:E; cbn.
    - eexists; split; [reflexivity|apply safe_logistic_unit].
    - apply py_getitem_raises in E as ->. cbn.
      eexists; split; [reflexivity|lra]. }
  destruct (category =? 5)%Z.
  { destruct (py_getitem bs (-1)) as [b|e] eqn:E; cbn.
    - eexists; split; [reflexivity|apply safe_logistic_unit].
    - apply py_getitem_raises in E as ->. cbn.
      eexists; split; [reflexivity|lra]. }
  destruct (py_getitem bs (category - 2)) as [b1|e] eqn:E1; cbn.
  2:{ apply py_getitem_raises in E1 as ->. cbn.
      eexists; split; [reflexivity|lra]. }
  destruct (py_getitem bs (category - 1)) as [b2|e] eqn:E2; cbn.
  2:{ apply py_getitem_raises in E2 as ->. cbn.
      eexists; split; [reflexivity|lra]. }
  eexists; split; [reflexivity|].
  pose proof (safe_logistic_unit (a * (theta - b1))).
  pose proof (safe_logistic_unit (a * (theta - b2))).
  split.
  - pose proof (py_max_lower_l 0.001
                  (safe_logistic (a * (theta - b1))
                   - safe_logistic (a * (theta - b2)))). lra.
  - apply py_max_upper; lra.
Qed.

Lemma grm_probability_value (theta : R) (item : Item) (category : Z) :
  grm_probability theta (discrimination item) (difficulty_thresholds item)
    category = Ok (grm_value theta item category).
Proof.
  unfold grm_value.
  destruct (grm_probability_total theta (discrimination item)
              (difficulty_thresholds item) category) as (p & -> & _).
  reflexivity.
Qed.

Lemma grm_value_unit (theta : R) (item : Item) (category : Z) :
  0 <= grm_value theta item category <= 1.
Proof.
  unfold grm_value.
  destruct (grm_probability_total theta (discrimination item)
              (difficulty_thresholds item) category) as (p & -> & Hp).
  exact Hp.
Qed.

(** The five categories of an item with four thresholds. *)
Lemma grm_probability_1 (theta a b1 b2 b3 b4 : R) :
  grm_probability theta a [b1; b2; b3; b4] 1
  = Ok (1 - safe_logistic (a * (theta - b1))).
Proof.
  rewrite <- safe_logistic_reflect. reflexivity.
Qed.

Lemma grm_probability_5 (theta a b1 b2 b3 b4 : R) :
  grm_probability theta a [b1; b2; b3; b4] 5
  = Ok (safe_logistic (a * (theta - b4))).
Proof. reflexivity. Qed.

Lemma grm_probability_2 (theta a b1 b2 b3 b4 : R) :
  grm_probability theta a [b1; b2; b3; b4] 2
  = Ok (py_max 0.001 (safe_logistic (a * (theta - b1))
                      - safe_logistic (a * (theta - b2)))).
Proof. reflexivity. Qed.

Lemma grm_probability_3 (theta a b1 b2 b3 b4 : R) :
  grm_probability theta a [b1; b2; b3; b4] 3
  = Ok (py_max 0.001 (safe_logistic (a * (theta - b2))
                      - safe_logistic (a * (theta - b3)))).
Proof. reflexivity. Qed.

Lemma grm_probability_4 (theta a b1 b2 b3 b4 : R) :
  grm_probability theta a [b1; b2; b3; b4] 4
  = Ok (py_max 0.001 (safe_logistic (a * (theta - b3))
                      - safe_logistic (a * (theta - b4)))).
Proof. reflexivity. Qed.

(** Away from the categories 1 and 5, what [grm_probability] returns is at
    least 0.001: the floored difference, or the fallback. *)
Lemma grm_probability_middle_floor (theta a : R) (bs : list R) (category : Z) :
  exists p, grm_probability theta a bs category = Ok p
            /\ 0 <= p <= 1
            /\ (0.001 <= p \/ category = 1%Z \/ category = 5%Z).
Proof.
  destruct (grm_probability_total theta a bs category) as (p & Heq & Hp).
  exists p. split; [exact Heq|]. split; [exact Hp|].
  revert Heq.
  unfold grm_probability, grm_probability_body.
  destruct (Z.eqb_spec category 1); [auto|].
  destruct (Z.eqb_spec category 5); [auto|].
  intros Heq. left.
  destruct (py_getitem bs (category - 2)) as [b1|e] eqn:E1; cbn in Heq.
  2:{ apply py_getitem_raises in E1 as ->. cbn in Heq.
      injection Heq as <-. lra. }
  destruct (py_getitem bs (category - 1)) as [b2|e] eqn:E2; cbn in Heq.
  2:{ apply py_getitem_raises in E2 as ->. cbn in Heq.
      injection Heq as <-. lra. }
  injection Heq as <-. apply py_max_lower_l.
Qed.

End PureFacts.

Section PureEstimatorFacts.
Import PyReal PurePythonIrt Notions.
Local Open Scope R_scope.

Lemma fisher_loop_total (theta a : R) (bs : list R) (cats : list Z) :
  forall total_info, exists v, fisher_loop theta a bs cats total_info = Ok v.
Proof.
  induction cats as [|c cats IH]; intros total_info; cbn.
  - now exists total_info.
  - destruct (grm_probability_total theta a bs c) as (p & -> & _). cbn.
    apply IH.
Qed.

Lemma fisher_information_floor (theta a : R) (bs : list R) :
  exists v, fisher_information theta a bs = Ok v /\ 0.001 <= v.
Proof.
  unfold fisher_information.
  destruct (fisher_loop_total theta a bs (py_range 1 6) 0) as (t & ->). cbn.
  eexists; split; [reflexivity|apply py_max_lower_r].
Qed.

Lemma math_log_positive (x : R) : 0 < x -> math_log x = Ok (ln x).
Proof. intros Hx. unfold math_log. destruct (Rlt_dec 0 x); [reflexivity|lra]. Qed.

(** The inner loop adds the floored log-likelihood to its accumulator and
    never reaches [math.log] with a non-positive argument. *)
Lemma likelihood_loop_value (theta : R) (pairs : list (Z * Item)) :
  forall acc,
    likelihood_loop theta pairs acc = Ok (acc + log_likelihood theta pairs).
Proof.
  induction pairs as [|[response item] pairs IH]; intros acc; cbn.
  - f_equal. lra.
  - rewrite grm_probability_value. cbn.
    unfold py_max at 1.
    destruct (Rlt_dec 0.001 (grm_value theta item response)) as [Hp|Hp].
    + rewrite math_log_positive by lra. cbn. rewrite IH. f_equal. lra.
    + rewrite math_log_positive by lra. cbn. rewrite IH. f_equal. lra.
Qed.

(** The outer loop is an arg-max scan: either nothing beat the initial
    likelihood, or the result is the first grid point that attains the
    maximum of the log-likelihood over the grid. *)
Lemma grid_loop_scan (pairs : list (Z * Item)) (grid : list R) :
  forall best_theta best_likelihood,
  exists t l,
    grid_loop grid pairs best_theta best_likelihood = Ok (t, l) /\
    ((t = best_theta /\ l = best_likelihood /\
      Forall (fun x => log_likelihood x pairs <= best_likelihood) grid)
     \/
     (exists pre post,
        grid = pre ++ t :: post /\
        l = log_likelihood t pairs /\
        best_likelihood < l /\
        Forall (fun x => log_likelihood x pairs < l) pre /\
        Forall (fun x => log_likelihood x pairs <= l) post)).
Proof.
  induction grid as [|x grid IH]; intros bt bl; cbn.
  - exists bt, bl. split; [reflexivity|]. left. repeat split. constructor.
  - rewrite likelihood_loop_value. cbn. rewrite Rplus_0_l.
    destruct (Rlt_dec bl (log_likelihood x pairs)) as [Hlt|Hge].
    + destruct (IH x (log_likelihood x pairs))
        as (t & l & -> & [(-> & -> & Hall)|(pre & post & -> & -> & Hbl & Hpre & Hpost)]).
      * exists x, (log_likelihood x pairs). split; [reflexivity|]. right.
        exists [], grid.
        split; [reflexivity|]. split; [reflexivity|]. split; [exact Hlt|].
        split; [constructor|exact Hall].
      * exists t, (log_likelihood t pairs). split; [reflexivity|]. right.
        exists (x :: pre), post.
        split; [reflexivity|]. split; [reflexivity|]. split; [lra|].
        split; [constructor; auto|exact Hpost].
    + destruct (IH bt bl)
        as (t & l & -> & [(-> & -> & Hall)|(pre & post & -> & -> & Hbl & Hpre & Hpost)]).
      * exists bt, bl. split; [reflexivity|]. left.
        split; [reflexivity|]. split; [reflexivity|].
        constructor; [lra|exact Hall].
      * exists t, (log_likelihood t pairs). split; [reflexivity|]. right.
        exists (x :: pre), post.
        split; [reflexivity|]. split; [reflexivity|]. split; [exact Hbl|].
        split; [constructor; [lra|exact Hpre]|exact Hpost].
Qed.

Lemma info_sum_total (theta : R) (items : list Item) :
  forall acc, exists v, info_sum theta items acc = Ok v.
Proof.
  induction items as [|item items IH]; intros acc; cbn.
  - now exists acc.
  - destruct (fisher_information_floor theta (discrimination item)
                (difficulty_thresholds item)) as (v & -> & _). cbn.
    apply IH.
Qed.

Lemma standard_error_total (total_info : R) :
  exists se, py_div 1 (sqrt (py_max total_info 0.1)) = Ok se.
Proof.
  unfold py_div.
  assert (H : 0 < sqrt (py_max total_info 0.1)).
  { apply sqrt_lt_R0. pose proof (py_max_lower_r total_info 0.1). lra. }
  destruct (Req_dec_T _ 0); [lra|]. eauto.
Qed.

Lemma standard_error_clamped (se : R) :
  0.1 <= py_min 2 (py_max 0.1 se) <= 2.
Proof.
  unfold py_min, py_max.
  destruct (Rlt_dec 0.1 se); destruct (Rlt_dec _ 2); lra.
Qed.

(** [estimate_theta] returns on every input: no logarithm of a
    non-positive number, no division by zero. *)
Lemma estimate_theta_total (responses : list Z) (items : list Item) :
  exists theta se,
    estimate_theta responses items = Ok (theta, se) /\ 0.1 <= se <= 2.
Proof.
  unfold estimate_theta.
  destruct responses as [|r rs]; [exists 0, 1; split; [reflexivity|lra]|].
  destruct items as [|it its]; [exists 0, 1; split; [reflexivity|lra]|].
  destruct (grid_loop_scan (combine (r :: rs) (it :: its)) theta_grid
              0 (-999999)) as (t & l & -> & _).
  cbn [bind fst].
  destruct (info_sum_total t (it :: its) 0) as (v & ->). cbn [bind].
  destruct (standard_error_total v) as (se & ->). cbn [bind].
  eexists _, _. split; [reflexivity|apply standard_error_clamped].
Qed.

End PureEstimatorFacts.

Section GridSearchFacts.
Import PyReal PurePythonIrt Notions.
Local Open Scope R_scope.

Lemma exp_nat (n : nat) : exp (INR n) = exp 1 ^ n.
Proof.
  induction n as [|n IH].
  - cbn. apply exp_0.
  - rewrite S_INR, exp_plus, IH. cbn. ring.
Qed.

Lemma exp_10_lower : 1000 < exp 10.
Proof.
  assert (H2 : 2 <= exp 1) by (pose proof (exp_ineq1_le 1); lra).
  assert (H10 : 2 ^ 10 <= exp 1 ^ 10) by (apply pow_incr; lra).
  replace 10 with (INR 10) by (cbn; lra). rewrite exp_nat. lra.
Qed.

Lemma exp_3_upper : exp 3 <= 27.
Proof.
  pose proof exp_le_3 as H3. pose proof (exp_pos 1) as Hpos.
  assert (Hpow : exp 1 ^ 3 <= 3 ^ 3) by (apply pow_incr; lra).
  replace 3 with (INR 3) at 1 by (cbn; lra). rewrite exp_nat. lra.
Qed.

Lemma ln_1000_upper : ln 1000 <= 10.
Proof.
  pose proof exp_10_lower as Hexp.
  rewrite <- (ln_exp 10). left. apply ln_increasing; lra.
Qed.

Lemma ln_1000_lower : 1 < ln 1000.
Proof.
  rewrite <- (ln_exp 1) at 1.
  apply ln_increasing; [apply exp_pos|].
  pose proof exp_le_3. lra.
Qed.

Lemma ln_floor : ln 0.001 = - ln 1000.
Proof. replace 0.001 with (/ 1000) by lra. apply ln_Rinv. lra. Qed.

Lemma ln_floored (p : R) : ln 0.001 <= ln (py_max 0.001 p).
Proof.
  unfold py_max. destruct (Rlt_dec 0.001 p) as [Hp|Hp]; [|lra].
  left. apply ln_increasing; lra.
Qed.

Lemma log_likelihood_lower (theta : R) (pairs : list (Z * Item)) :
  - 10 * INR (List.length pairs) <= log_likelihood theta pairs.
Proof.
  induction pairs as [|[r it] pairs IH].
  - cbn. lra.
  - cbn [log_likelihood List.length]. rewrite S_INR.
    pose proof (ln_floored (grm_value theta it r)).
    pose proof ln_1000_upper. pose proof ln_floor. lra.
Qed.

Lemma theta_grid_nth (n : nat) :
  (n < 61)%nat ->
  nth_error theta_grid n = Some (grid_point (-30 + Z.of_nat n)).
Proof.
  intros Hn. unfold theta_grid, py_range.
  change (Z.to_nat (31 - -30)) with 61%nat.
  rewrite !nth_error_map, nth_error_seq.
  destruct (Nat.ltb_spec n 61); [reflexivity|lia].
Qed.

Lemma theta_grid_length : List.length theta_grid = 61%nat.
Proof. reflexivity. Qed.

Lemma theta_grid_In (x : R) :
  In x theta_grid -> exists k, (-30 <= k <= 30)%Z /\ x = grid_point k.
Proof.
  intros Hin. apply In_nth_error in Hin as (n & Hn).
  assert (Hlt : (n < 61)%nat).
  { rewrite <- theta_grid_length. apply nth_error_Some. congruence. }
  rewrite theta_grid_nth in Hn by exact Hlt. injection Hn as <-.
  exists (-30 + Z.of_nat n)%Z. split; [lia|reflexivity].
Qed.

(** Where the scan splits the grid, the split point is the grid point of
    that position, and every earlier grid point lies in the prefix. *)
Lemma theta_grid_split (pre post : list R) (t : R) :
  theta_grid = pre ++ t :: post ->
  exists k, (-30 <= k <= 30)%Z /\ t = grid_point k /\
    forall j, (-30 <= j <= 30)%Z ->
      ((j < k)%Z /\ In (grid_point j) pre) \/
      j = k \/
      ((k < j)%Z /\ In (grid_point j) post).
Proof.
  intros Hsplit.
  assert (Hlen : (List.length pre + S (List.length post) = 61)%nat).
  { rewrite <- theta_grid_length, Hsplit, length_app. reflexivity. }
  exists (-30 + Z.of_nat (List.length pre))%Z.
  split; [lia|]. split.
  { assert (Hn : nth_error theta_grid (List.length pre) = Some t).
    { rewrite Hsplit, nth_error_app2 by lia.
      now rewrite Nat.sub_diag. }
    rewrite theta_grid_nth in Hn by lia. now injection Hn as <-. }
  intros j Hj.
  assert (Hnth : nth_error theta_grid (Z.to_nat (j + 30))
                 = Some (grid_point j)).
  { rewrite theta_grid_nth by lia. do 2 f_equal. lia. }
  rewrite Hsplit in Hnth.
  destruct (Z.lt_trichotomy j (-30 + Z.of_nat (List.length pre)))
    as [Hlt|[Heq|Hgt]].
  - left. split; [exact Hlt|].
    rewrite nth_error_app1 in Hnth by lia.
    eapply nth_error_In; eassumption.
  - right; left; exact Heq.
  - right; right. split; [lia|].
    rewrite nth_error_app2 in Hnth by lia.
    destruct (Z.to_nat (j + 30) - List.length pre)%nat as [|m] eqn:Em; [lia|].
    cbn in Hnth. eapply nth_error_In; eassumption.
Qed.

End GridSearchFacts.

Section GridSearchClaims.
Import PyReal PurePythonIrt Notions.
Local Open Scope R_scope.

(** The scan of [estimate_theta] over the real grid, as [grid_loop_scan]
    describes it, with the split read as a grid index. *)
Lemma estimate_theta_scan (r : Z) (rs : list Z) (it : Item) (its : list Item) :
  let pairs := combine (r :: rs) (it :: its) in
  exists theta se,
    estimate_theta (r :: rs) (it :: its) = Ok (theta, se) /\
    ((theta = 0 /\
      Forall (fun x => log_likelihood x pairs <= -999999) theta_grid)
     \/ (-999999 < log_likelihood theta pairs /\
         first_grid_maximiser pairs theta)).
Proof.
  intros pairs. unfold estimate_theta.
  destruct (grid_loop_scan pairs theta_grid 0 (-999999))
    as (t & l & Hloop & Hscan).
  fold pairs. rewrite Hloop. cbn [bind fst].
  destruct (info_sum_total t (it :: its) 0) as (v & ->). cbn [bind].
  destruct (standard_error_total v) as (se & ->). cbn [bind].
  exists t, (py_min 2 (py_max 0.1 se)). split; [reflexivity|].
  destruct Hscan as [(-> & _ & Hall)|(pre & post & Hsplit & -> & Hbl & Hpre & Hpost)].
  - left. split; [reflexivity|exact Hall].
  - right. split; [exact Hbl|].
    destruct (theta_grid_split pre post t Hsplit) as (k & Hk & -> & Hpos).
    exists k. split; [exact Hk|]. split; [reflexivity|].
    intros j Hj.
    destruct (Hpos j Hj) as [(Hlt & Hin)|[->|(Hgt & Hin)]].
    + pose proof (proj1 (List.Forall_forall _ _) Hpre _ Hin) as H. cbn beta in H.
      split; [lra|]. intros Heq. lra.
    + split; [lra|]. intros _. lia.
    + pose proof (proj1 (List.Forall_forall _ _) Hpost _ Hin) as H. cbn beta in H.
      split; [exact H|]. intros _. lia.
Qed.

(** Fewer than 100000 responses cannot push every grid point down to the
    initial [best_likelihood]. *)
Lemma sentinel_not_reached (pairs : list (Z * Item)) :
  (Z.of_nat (List.length pairs) <= 99999)%Z ->
  ~ Forall (fun x => log_likelihood x pairs <= -999999) theta_grid.
Proof.
  intros Hlen Hall.
  pose proof (proj1 (List.Forall_forall _ _) Hall (grid_point (-30))) as H.
  cbn beta in H.
  assert (Hin : In (grid_point (-30)) theta_grid) by (left; reflexivity).
  specialize (H Hin).
  pose proof (log_likelihood_lower (grid_point (-30)) pairs) as Hlow.
  rewrite INR_IZR_INZ in Hlow.
  apply IZR_le in Hlen. lra.
Qed.

(** Where the scan is right.  For non-empty response and item lists that
    pair up to fewer than 100000 responses, [estimate_theta] returns a point
    of the grid -3.0, -2.9, ..., 3.0 that maximises the accumulated
    log-likelihood, each probability floored at 0.001 before the logarithm,
    and among the maximising grid points the first in ascending order. *)
Theorem estimate_theta_first_grid_maximiser
  (responses : list Z) (items : list Item) :
  responses <> [] -> items <> [] ->
  (Z.of_nat (List.length (combine responses items)) <= 99999)%Z ->
  exists theta se,
    estimate_theta responses items = Ok (theta, se) /\
    first_grid_maximiser (combine responses items) theta.
Proof.
  intros Hr Hi Hlen.
  destruct responses as [|r rs]; [congruence|].
  destruct items as [|it its]; [congruence|].
  destruct (estimate_theta_scan r rs it its)
    as (theta & se & Heq & [(_ & Hall)|(_ & Hmax)]).
  - exfalso. exact (sentinel_not_reached _ Hlen Hall).
  - exists theta, se. split; [exact Heq|exact Hmax].
Qed.

Lemma estimate_theta_first_grid_maximiser_witness :
  exists theta se,
    estimate_theta [4%Z] [mkItem "INNOV_001" 1.2 [-1.5; -0.5; 0.5; 1.5]]
    = Ok (theta, se) /\
    first_grid_maximiser
      (combine [4%Z] [mkItem "INNOV_001" 1.2 [-1.5; -0.5; 0.5; 1.5]]) theta.
Proof.
  apply (estimate_theta_first_grid_maximiser
           [4%Z] [mkItem "INNOV_001" 1.2 [-1.5; -0.5; 0.5; 1.5]]).
  - discriminate.
  - discriminate.
  - cbn. lia.
Defined.

End GridSearchClaims.

Section SentinelFacts.
Import PyReal PurePythonIrt Notions Inputs.
Local Open Scope R_scope.

Lemma combine_repeat {A B : Type} (a : A) (b : B) (n : nat) :
  combine (repeat a n) (repeat b n) = repeat (a, b) n.
Proof. induction n as [|n IH]; cbn; [reflexivity|now rewrite IH]. Qed.

(** Between -3 and 3 both cumulative values of category 2 of [remote_item]
    are clamped to 1, so the category sits on its floor. *)
Lemma remote_item_value (theta : R) :
  -3 <= theta <= 3 -> grm_value theta remote_item 2 = 0.001.
Proof.
  intros Ht. unfold grm_value, remote_item.
  cbn [discrimination difficulty_thresholds].
  rewrite grm_probability_2. unfold safe_logistic, py_max.
  destruct (Rlt_dec 500 (1 * (theta - -2000))); [|lra].
  destruct (Rlt_dec 500 (1 * (theta - -1000))); [|lra].
  destruct (Rlt_dec 0.001 (1 - 1)); lra.
Qed.

Lemma remote_item_likelihood (theta : R) (n : nat) :
  -3 <= theta <= 3 ->
  log_likelihood theta (repeat (2%Z, remote_item) n) = INR n * ln 0.001.
Proof.
  intros Ht. induction n as [|n IH].
  - cbn. lra.
  - cbn [repeat log_likelihood]. rewrite IH, S_INR, remote_item_value by exact Ht.
    rewrite py_max_absorb_l by lra. lra.
Qed.

Lemma grid_point_range (k : Z) :
  (-30 <= k <= 30)%Z -> -3 <= grid_point k <= 3.
Proof.
  intros [Hlo Hhi]. apply IZR_le in Hlo, Hhi. unfold grid_point. lra.
Qed.

Lemma grid_point_zero (k : Z) : 0 = grid_point k -> k = 0%Z.
Proof.
  unfold grid_point. intros H. apply eq_IZR. lra.
Qed.

(** On responses to [remote_item] alone every grid point has the same
    log-likelihood, so the first maximiser is the first grid point, -3.0. *)
Lemma remote_item_first_maximiser (n : nat) :
  first_grid_maximiser (combine (repeat 2%Z n) (repeat remote_item n))
    (grid_point (-30)).
Proof.
  exists (-30)%Z. split; [lia|]. split; [reflexivity|].
  intros j Hj. rewrite combine_repeat.
  rewrite !remote_item_likelihood by (apply grid_point_range; lia).
  split; [lra|]. intros _. lia.
Qed.

(** More than 999999 such responses put that common value below the initial
    [best_likelihood]. *)
Lemma remote_item_below_sentinel (n : nat) (k : Z) :
  999999 < INR n -> (-30 <= k <= 30)%Z ->
  log_likelihood (grid_point k) (combine (repeat 2%Z n) (repeat remote_item n))
  < -999999.
Proof.
  intros Hn Hk. rewrite combine_repeat.
  rewrite remote_item_likelihood by (apply grid_point_range; exact Hk).
  pose proof ln_1000_lower. pose proof ln_floor. nra.
Qed.

(** With so many floored responses that no grid point reaches the initial
    [best_likelihood] of -999999, the scan keeps its initial theta 0.0. *)
Lemma remote_item_estimate (n : nat) :
  999999 < INR (S n) ->
  exists se,
    estimate_theta (repeat 2%Z (S n)) (repeat remote_item (S n)) = Ok (0, se)
    /\ ~ first_grid_maximiser
           (combine (repeat 2%Z (S n)) (repeat remote_item (S n))) 0.
Proof.
  intros Hn.
  assert (Hll : forall k, (-30 <= k <= 30)%Z ->
            log_likelihood (grid_point k)
              (combine (repeat 2%Z (S n)) (repeat remote_item (S n)))
            = INR (S n) * ln 0.001).
  { intros k Hk. rewrite combine_repeat.
    apply remote_item_likelihood, grid_point_range, Hk. }
  assert (Hnot : ~ first_grid_maximiser
           (combine (repeat 2%Z (S n)) (repeat remote_item (S n))) 0).
  { intros (k & Hk & H0 & Hall).
    apply grid_point_zero in H0 as ->.
    destruct (Hall (-30)%Z ltac:(lia)) as [_ Hfirst].
    assert (Hzero : 0 = grid_point 0) by (unfold grid_point; lra).
    rewrite Hzero in Hfirst at 1.
    rewrite !Hll in Hfirst by lia.
    specialize (Hfirst eq_refl). lia. }
  pose proof (estimate_theta_scan 2%Z (repeat 2%Z n) remote_item
                (repeat remote_item n)) as Hscan.
  cbn zeta in Hscan.
  change (2%Z :: repeat 2%Z n) with (repeat 2%Z (S n)) in Hscan.
  change (remote_item :: repeat remote_item n)
    with (repeat remote_item (S n)) in Hscan.
  destruct Hscan as (theta & se & Heq & [(-> & _)|(Hbl & Hmax)]).
  - exists se. split; [exact Heq|exact Hnot].
  - exfalso. destruct Hmax as (k & Hk & -> & _).
    rewrite Hll in Hbl by exact Hk.
    pose proof ln_1000_lower. pose proof ln_floor.
    assert (0 < INR (S n)) by lra. nra.
Qed.

(** When the log-likelihood at 3.0 exceeds that of every other point of
    [-3, 3], the scan ends on the last grid point. *)
Lemma estimate_theta_increasing (r : Z) (rs : list Z) (it : Item)
  (its : list Item) :
  (Z.of_nat (List.length (combine (r :: rs) (it :: its))) <= 99999)%Z ->
  (forall theta, -3 <= theta < 3 ->
     log_likelihood theta (combine (r :: rs) (it :: its))
     < log_likelihood 3 (combine (r :: rs) (it :: its))) ->
  exists se, estimate_theta (r :: rs) (it :: its) = Ok (3, se).
Proof.
  intros Hlen Hinc.
  destruct (estimate_theta_scan r rs it its)
    as (theta & se & Heq & [(_ & Hall)|(_ & k & Hk & -> & Hmax)]).
  { exfalso. exact (sentinel_not_reached _ Hlen Hall). }
  exists se. rewrite Heq. do 2 f_equal.
  destruct (Hmax 30%Z ltac:(lia)) as [Hle _].
  assert (H30 : grid_point 30 = 3) by (unfold grid_point; lra).
  destruct (Z.eq_dec k 30%Z) as [->|Hne]; [exact H30|].
  exfalso.
  pose proof (grid_point_range k Hk) as Hrange.
  assert (Hlt : grid_point k < 3).
  { unfold grid_point. assert (Hk' : (k <= 29)%Z) by lia.
    apply IZR_le in Hk'. lra. }
  pose proof (Hinc (grid_point k) ltac:(lra)).
  rewrite H30 in Hle. lra.
Qed.

Lemma remote_item_million :
  exists se,
    estimate_theta (repeat 2%Z (N.to_nat 1000000))
      (repeat remote_item (N.to_nat 1000000)) = Ok (0, se)
    /\ ~ first_grid_maximiser
           (combine (repeat 2%Z (N.to_nat 1000000))
              (repeat remote_item (N.to_nat 1000000))) 0.
Proof.
  change 1000000%N with (N.succ 999999).
  rewrite Nnat.N2Nat.inj_succ.
  apply remote_item_estimate.
  rewrite S_INR, INR_IZR_INZ, N_nat_Z.
  change (Z.of_N 999999) with 999999%Z. lra.
Qed.

End SentinelFacts.

Section FlooredObjective.
Import PyReal PurePythonIrt Notions Inputs.
Local Open Scope R_scope.

(** Category 1 of [low_item] between -3 and 3: positive, below the floor. *)
Lemma low_item_value (theta : R) :
  -3 <= theta <= 3 ->
  grm_value theta low_item 1 = 1 / (1 + exp (theta + 20)) /\
  0 < grm_value theta low_item 1 < 0.001.
Proof.
  intros Ht.
  assert (Hval : grm_value theta low_item 1 = 1 / (1 + exp (theta + 20))).
  { unfold grm_value, low_item. cbn [discrimination difficulty_thresholds].
    rewrite grm_probability_1. f_equal. unfold safe_logistic.
    destruct (Rlt_dec 500 (1 * (theta - -20))); [lra|].
    destruct (Rlt_dec (1 * (theta - -20)) (-500)); [lra|].
    rewrite logistic_complement. do 3 f_equal. lra. }
  split; [exact Hval|]. rewrite Hval.
  pose proof exp_10_lower as H10.
  assert (Hexp : exp 10 <= exp (theta + 20)).
  { left. apply exp_increasing. lra. }
  split.
  - apply Rdiv_lt_0_compat; lra.
  - apply (Rmult_lt_reg_r (1 + exp (theta + 20))); [lra|].
    unfold Rdiv. rewrite Rmult_assoc, Rinv_l by lra. lra.
Qed.

(** Category 5 of [mid_item] between -3 and 3: the logistic curve, above
    the floor. *)
Lemma mid_item_value (theta : R) :
  -3 <= theta <= 3 ->
  grm_value theta mid_item 5 = 1 / (1 + exp (- theta)) /\
  0.001 < grm_value theta mid_item 5.
Proof.
  intros Ht.
  assert (Hval : grm_value theta mid_item 5 = 1 / (1 + exp (- theta))).
  { unfold grm_value, mid_item. cbn [discrimination difficulty_thresholds].
    rewrite grm_probability_5. unfold safe_logistic.
    destruct (Rlt_dec 500 (1 * (theta - 0))); [lra|].
    destruct (Rlt_dec (1 * (theta - 0)) (-500)); [lra|].
    do 4 f_equal. lra. }
  split; [exact Hval|]. rewrite Hval.
  pose proof exp_3_upper as H3. pose proof (exp_pos (- theta)) as Hpos.
  assert (Hexp : exp (- theta) <= exp 3).
  { destruct (Req_dec (- theta) 3) as [->|Hne]; [lra|].
    left. apply exp_increasing. lra. }
  apply (Rmult_lt_reg_r (1 + exp (- theta))); [lra|].
  unfold Rdiv. rewrite Rmult_assoc, Rinv_l by lra. lra.
Qed.

Lemma low_mid_likelihood (theta : R) :
  -3 <= theta <= 3 ->
  log_likelihood theta [(1%Z, low_item); (5%Z, mid_item)]
  = ln 0.001 + ln (1 / (1 + exp (- theta))).
Proof.
  intros Ht. cbn [log_likelihood].
  destruct (low_item_value theta Ht) as [_ Hlow].
  destruct (mid_item_value theta Ht) as [Hmid Hhigh].
  rewrite (py_max_absorb_l 0.001 (grm_value theta low_item 1)) by lra.
  rewrite (py_max_absorb_r 0.001 (grm_value theta mid_item 5)) by lra.
  rewrite Hmid. lra.
Qed.

(** The estimator floors the first response and follows the second to the
    top of the grid. *)
Lemma low_mid_estimate :
  exists se, estimate_theta [1%Z; 5%Z] [low_item; mid_item] = Ok (3, se).
Proof.
  apply estimate_theta_increasing; [cbn; lia|].
  intros theta Ht. cbn [combine].
  rewrite !low_mid_likelihood by lra.
  apply Rplus_lt_compat_l, ln_increasing.
  - pose proof (logistic_open_unit theta). lra.
  - apply logistic_strictly_increasing. lra.
Qed.

(** C4, at the failing input.  A million responses in category 2 to the
    well-formed [remote_item]: every probability sits on the floor of 0.001,
    so every grid point has the same accumulated log-likelihood and the first
    maximiser in ascending order is -3.0.  That common value lies below the
    initial [best_likelihood] of -999999, no grid point ever replaces the
    initial [best_theta], and [estimate_theta] returns 0.0, which is not the
    first maximiser. *)
Theorem estimate_theta_sentinel_hides_maximiser :
  well_formed (discrimination remote_item)
    (difficulty_thresholds remote_item) /\
  first_grid_maximiser
    (combine (repeat 2%Z (N.to_nat 1000000))
       (repeat remote_item (N.to_nat 1000000)))
    (grid_point (-30)) /\
  log_likelihood (grid_point (-30))
    (combine (repeat 2%Z (N.to_nat 1000000))
       (repeat remote_item (N.to_nat 1000000)))
  < -999999 /\
  exists se,
    estimate_theta (repeat 2%Z (N.to_nat 1000000))
      (repeat remote_item (N.to_nat 1000000)) = Ok (0, se)
    /\ ~ first_grid_maximiser
           (combine (repeat 2%Z (N.to_nat 1000000))
              (repeat remote_item (N.to_nat 1000000))) 0.
Proof.
  split; [unfold well_formed; cbn; repeat split; lra|].
  split; [apply remote_item_first_maximiser|].
  split; [|exact remote_item_million].
  apply remote_item_below_sentinel; [|lia].
  rewrite INR_IZR_INZ, N_nat_Z. change (Z.of_N 1000000) with 1000000%Z. lra.
Qed.

End FlooredObjective.

(* ===================================================================== *)
(** * Facts about irt_cat_engine.py                                      *)
(* ===================================================================== *)

Section CatFacts.
Import PyReal IrtCatEngine Notions Inputs.
Local Open Scope R_scope.

Lemma py_getitem_front {A : Type} (l : list A) (i : Z) :
  (0 <= i < Z.of_nat (List.length l))%Z -> exists x, py_getitem l i = Ok x.
Proof.
  intros Hi. unfold py_getitem.
  destruct (Z.ltb_spec i 0); [lia|].
  destruct (Z.leb_spec 0 i); [|lia].
  destruct (Z.ltb_spec i (Z.of_nat (List.length l))); [|lia].
  cbn [andb].
  destruct (nth_error l (Z.to_nat i)) as [x|] eqn:E; [eauto|].
  apply nth_error_None in E. lia.
Qed.

Lemma py_getitem_outside {A : Type} (l : list A) (i : Z) :
  (i < - Z.of_nat (List.length l) \/ Z.of_nat (List.length l) <= i)%Z ->
  py_getitem l i = Raise IndexError.
Proof.
  intros Hi. unfold py_getitem.
  destruct (Z.ltb_spec i 0).
  - destruct (Z.leb_spec 0 (Z.of_nat (List.length l) + i)); [lia|reflexivity].
  - destruct (Z.leb_spec 0 i); [|lia].
    destruct (Z.ltb_spec i (Z.of_nat (List.length l))); [lia|reflexivity].
Qed.

Lemma cumulative_probs_length (theta : R) (item : PersonalityItem) :
  List.length (cumulative_probs theta item)
  = S (S (List.length (difficulty_thresholds item))).
Proof.
  unfold cumulative_probs.
  rewrite length_app, length_app, length_map. cbn. lia.
Qed.

(** [grm_probability] of the engine returns on every input, and never less
    than 0.001. *)
Lemma cat_grm_probability_floor (theta : R) (item : PersonalityItem)
  (response : Z) :
  exists p, grm_probability theta item response = Ok p /\ 0.001 <= p.
Proof.
  unfold grm_probability.
  pose proof (cumulative_probs_length theta item) as Hlen.
  destruct (Z.ltb_spec (response - 1) 0) as [Hneg|Hpos]; cbn [orb].
  { exists 0.001. split; [reflexivity|lra]. }
  destruct (Z.leb_spec (Z.of_nat (List.length (cumulative_probs theta item)) - 1)
              (response - 1)) as [Hbig|Hsmall].
  { exists 0.001. split; [reflexivity|lra]. }
  destruct (py_getitem_front (cumulative_probs theta item) (response - 1 + 1))
    as (hi & ->); [lia|].
  destruct (py_getitem_front (cumulative_probs theta item) (response - 1))
    as (lo & ->); [lia|].
  cbn [bind]. eexists; split; [reflexivity|apply py_max_lower_r].
Qed.

(** Outside the categories of the item the engine answers 0.001. *)
Lemma cat_grm_probability_invalid (theta : R) (item : PersonalityItem)
  (response : Z) :
  (response < 1
   \/ Z.of_nat (List.length (difficulty_thresholds item)) + 1 < response)%Z ->
  grm_probability theta item response = Ok 0.001.
Proof.
  intros Hout. unfold grm_probability.
  pose proof (cumulative_probs_length theta item) as Hlen.
  destruct (Z.ltb_spec (response - 1) 0) as [Hneg|Hpos]; cbn [orb];
    [reflexivity|].
  destruct (Z.leb_spec (Z.of_nat (List.length (cumulative_probs theta item)) - 1)
              (response - 1)) as [Hbig|Hsmall]; [reflexivity|lia].
Qed.

Lemma cat_fisher_loop_lower (theta a : R) (bs : list R) :
  forall total_info, total_info <= fisher_loop theta a bs total_info.
Proof.
  induction bs as [|b bs IH]; intros total_info; cbn.
  - lra.
  - destruct (Rlt_dec (-500) (a * (theta - b))); [|apply IH].
    destruct (Rlt_dec (a * (theta - b)) 500); [|apply IH].
    pose proof (logistic_open_unit (a * (theta - b))) as Hp.
    specialize (IH (total_info + a * a * (1 / (1 + exp (- (a * (theta - b)))))
                      * (1 - 1 / (1 + exp (- (a * (theta - b))))))).
    assert (0 <= a * a * (1 / (1 + exp (- (a * (theta - b)))))
                 * (1 - 1 / (1 + exp (- (a * (theta - b)))))).
    { apply Rmult_le_pos; [apply Rmult_le_pos|]; [nra|lra|lra]. }
    lra.
Qed.

Lemma cat_fisher_information_nonneg (theta : R) (item : PersonalityItem) :
  exists v, fisher_information theta item = Ok v /\ 0 <= v.
Proof.
  eexists; split; [reflexivity|apply cat_fisher_loop_lower].
Qed.

(** The theta [update_theta] returns, read off its branches. *)
Lemma update_theta_value (current_theta : R) (item : PersonalityItem)
  (response : Z) :
  exists se,
    update_theta current_theta item response
    = Ok (response_step current_theta response, se) /\ 0 < se.
Proof.
  unfold update_theta.
  destruct (cat_grm_probability_floor current_theta item response)
    as (p & -> & _). cbn [bind].
  assert (Hstep :
    py_max (-3) (py_min 3
      (if (4 <=? response)%Z then current_theta + 0.2
       else if (response <=? 2)%Z then current_theta - 0.2
       else current_theta + 0.1 * IZR (response - 3)))
    = response_step current_theta response).
  { unfold response_step. rewrite py_max_Rmax, py_min_Rmin.
    destruct (Z.leb_spec 4 response); [reflexivity|].
    destruct (Z.leb_spec response 2); [reflexivity|].
    assert (response = 3%Z) as -> by lia.
    change (3 - 3)%Z with 0%Z.
    replace (current_theta + 0.1 * 0) with current_theta by lra.
    reflexivity. }
  rewrite Hstep.
  destruct (cat_fisher_information_nonneg
              (response_step current_theta response) item) as (v & -> & Hv).
  cbn [bind].
  destruct (Rlt_dec 0 v) as [Hpos|Hzero].
  - unfold py_div. pose proof (sqrt_lt_R0 v Hpos) as Hs.
    destruct (Req_dec_T (sqrt v) 0); [lra|]. cbn [bind].
    eexists; split; [reflexivity|].
    apply Rdiv_lt_0_compat; lra.
  - cbn [bind]. eexists; split; [reflexivity|lra].
Qed.

(** The standard error [update_theta] returns, read off its guard: the
    reciprocal of the square root of the information at the new theta when
    that information is positive, and 1.0 otherwise. *)
Lemma update_theta_standard_error (current_theta : R)
  (item : PersonalityItem) (response : Z) :
  exists new_theta info se,
    update_theta current_theta item response = Ok (new_theta, se) /\
    fisher_information new_theta item = Ok info /\
    se = (if Rlt_dec 0 info then 1 / sqrt info else 1) /\
    0 < se.
Proof.
  unfold update_theta.
  destruct (cat_grm_probability_floor current_theta item response)
    as (p & -> & _). cbn [bind].
  match goal with
  | |- context [fisher_information ?t item] => set (new_theta := t)
  end.
  destruct (cat_fisher_information_nonneg new_theta item) as (v & Hinfo & Hv).
  rewrite Hinfo. cbn [bind].
  exists new_theta, v.
  destruct (Rlt_dec 0 v) as [Hpos|Hzero].
  - unfold py_div. pose proof (sqrt_lt_R0 v Hpos) as Hs.
    destruct (Req_dec_T (sqrt v) 0); [lra|]. cbn [bind].
    eexists. split; [reflexivity|]. split; [exact Hinfo|].
    split; [reflexivity|]. apply Rdiv_lt_0_compat; lra.
  - cbn [bind]. eexists. split; [reflexivity|]. split; [exact Hinfo|].
    split; [reflexivity|lra].
Qed.

End CatFacts.

Section StepFacts.
Import PyReal IrtCatEngine Notions Inputs.
Local Open Scope R_scope.

Lemma response_step_bounds (theta : R) (response : Z) :
  -3 <= theta <= 3 ->
  -3 <= response_step theta response <= 3 /\
  -0.2 <= response_step theta response - theta <= 0.2.
Proof.
  intros Ht. unfold response_step. cbv zeta.
  destruct (4 <=? response)%Z; [|destruct (response <=? 2)%Z];
    unfold Rmin; destruct (Rle_dec _ _);
    unfold Rmax; destruct (Rle_dec _ _); lra.
Qed.

Lemma incremental_theta_value (steps : list (Z * PersonalityItem)) :
  forall theta,
    incremental_theta theta steps = Ok (response_walk theta (List.map fst steps)).
Proof.
  induction steps as [|[response item] steps IH]; intros theta.
  - reflexivity.
  - cbn [incremental_theta List.map fst].
    destruct (update_theta_value theta item response) as (se & -> & _).
    cbn [bind fst]. apply IH.
Qed.

Lemma response_walk_bounds (responses : list Z) :
  forall theta, -3 <= theta <= 3 ->
    -3 <= response_walk theta responses <= 3 /\
    Rabs (response_walk theta responses - theta)
    <= 0.2 * INR (List.length responses).
Proof.
  induction responses as [|r rs IH]; intros theta Ht.
  - cbn. split; [lra|]. rewrite Rminus_diag, Rabs_R0. lra.
  - destruct (response_step_bounds theta r Ht) as [Hin Hstep].
    destruct (IH (response_step theta r) Hin) as [Hrange Hwalk].
    change (response_walk theta (r :: rs))
      with (response_walk (response_step theta r) rs).
    split; [exact Hrange|].
    cbn [List.length]. rewrite S_INR.
    apply Rabs_le. revert Hwalk. unfold Rabs.
    destruct (Rcase_abs _); intros Hwalk; lra.
Qed.

End StepFacts.

(* ===================================================================== *)
(** * The incremental update                                             *)
(* ===================================================================== *)

Section UpdateClaims.
Import PyReal IrtCatEngine Notions Inputs.
Local Open Scope R_scope.

(** C10.  From a current theta in [-3, 3], for every item and every integer
    response, [update_theta] returns a new theta in [-3, 3] that differs from
    the current one by at most 0.2. *)
Theorem update_theta_bounded_step (current_theta : R) (item : PersonalityItem)
  (response : Z) :
  -3 <= current_theta <= 3 ->
  exists new_theta se,
    update_theta current_theta item response = Ok (new_theta, se) /\
    -3 <= new_theta <= 3 /\
    Rabs (new_theta - current_theta) <= 0.2.
Proof.
  intros Ht.
  destruct (update_theta_value current_theta item response) as (se & Heq & _).
  destruct (response_step_bounds current_theta response Ht) as [Hin Hstep].
  exists (response_step current_theta response), se.
  split; [exact Heq|]. split; [exact Hin|].
  apply Rabs_le. lra.
Qed.

Lemma update_theta_bounded_step_witness :
  exists new_theta se,
    update_theta 0 sample_item 4 = Ok (new_theta, se) /\
    -3 <= new_theta <= 3 /\
    Rabs (new_theta - 0) <= 0.2.
Proof.
  apply (update_theta_bounded_step 0 sample_item 4). lra.
Defined.

(** C3 (as amended).  The running estimate of [update_theta] is fixed by the
    responses alone: each response of 4 or more adds 0.2, each response of 2
    or less subtracts 0.2, a response of 3 leaves theta as it is, and every
    step is clamped to [-3, 3]; the item parameters play no part.  Started in
    [-3, 3] it stays there, within 0.2 times the number of responses of where
    it started. *)
Theorem incremental_theta_is_response_walk (theta : R)
  (steps : list (Z * PersonalityItem)) :
  -3 <= theta <= 3 ->
  exists final,
    incremental_theta theta steps = Ok final /\
    final = response_walk theta (List.map fst steps) /\
    -3 <= final <= 3 /\
    Rabs (final - theta) <= 0.2 * INR (List.length steps).
Proof.
  intros Ht.
  exists (response_walk theta (List.map fst steps)).
  split; [apply incremental_theta_value|]. split; [reflexivity|].
  destruct (response_walk_bounds (List.map fst steps) theta Ht) as [Hin Hwalk].
  split; [exact Hin|]. now rewrite length_map in Hwalk.
Qed.

Lemma incremental_theta_is_response_walk_witness :
  exists final,
    incremental_theta 0 [(5%Z, sample_item); (1%Z, sample_item)] = Ok final /\
    final = response_walk 0
              (List.map fst [(5%Z, sample_item); (1%Z, sample_item)]) /\
    -3 <= final <= 3 /\
    Rabs (final - 0)
    <= 0.2 * INR (List.length [(5%Z, sample_item); (1%Z, sample_item)]).
Proof.
  apply (incremental_theta_is_response_walk 0
           [(5%Z, sample_item); (1%Z, sample_item)]). lra.
Defined.

End UpdateClaims.

Section BatchVersusIncremental.
Import PyReal PurePythonIrt Notions Inputs.
Local Open Scope R_scope.

(** The log-likelihood of a single response 5 to [sample_item]. *)
Lemma sample_likelihood (theta : R) :
  -3 <= theta <= 3 ->
  log_likelihood theta [(5%Z, as_dict sample_item)]
  = ln (py_max 0.001 (1 / (1 + exp (- (1.2 * (theta - 1.5)))))).
Proof.
  intros Ht. cbn [log_likelihood]. rewrite Rplus_0_r.
  unfold grm_value, as_dict, sample_item.
  cbn [discrimination difficulty_thresholds
       IrtCatEngine.discrimination IrtCatEngine.difficulty_thresholds].
  rewrite grm_probability_5. unfold safe_logistic.
  destruct (Rlt_dec 500 (1.2 * (theta - 1.5))); [lra|].
  destruct (Rlt_dec (1.2 * (theta - 1.5)) (-500)); [lra|].
  reflexivity.
Qed.

Lemma sample_likelihood_increasing (theta : R) :
  -3 <= theta < 3 ->
  log_likelihood theta [(5%Z, as_dict sample_item)]
  < log_likelihood 3 [(5%Z, as_dict sample_item)].
Proof.
  intros Ht. rewrite !sample_likelihood by lra.
  pose proof (logistic_strictly_increasing
                (1.2 * (theta - 1.5)) (1.2 * (3 - 1.5)) ltac:(lra)) as Hinc.
  pose proof (logistic_open_unit (1.2 * (theta - 1.5))) as Hlow.
  pose proof (logistic_lower (1.2 * (3 - 1.5)) ltac:(lra)) as Hhigh.
  assert (Hhalf : 0.5 < 1 / (1 + exp (- (1.2 * (3 - 1.5))))).
  { eapply Rle_lt_trans; [|exact Hhigh].
    apply (Rmult_le_reg_r (2 + 1.2 * (3 - 1.5))); [lra|].
    unfold Rdiv. rewrite Rmult_assoc, Rinv_l by lra. lra. }
  apply ln_increasing.
  - pose proof (py_max_lower_l 0.001
                  (1 / (1 + exp (- (1.2 * (theta - 1.5)))))). lra.
  - rewrite (py_max_absorb_r 0.001 (1 / (1 + exp (- (1.2 * (3 - 1.5))))))
      by lra.
    unfold py_max.
    destruct (Rlt_dec 0.001 (1 / (1 + exp (- (1.2 * (theta - 1.5)))))); lra.
Qed.

Lemma sample_incremental :
  incremental_theta 0 [(5%Z, sample_item)] = Ok 0.2.
Proof.
  rewrite incremental_theta_value. f_equal.
  cbn [List.map fst]. unfold response_walk. cbn [fold_left].
  unfold response_step. cbn [Z.leb Z.compare Pos.compare Pos.compare_cont].
  cbv zeta. unfold Rmin. destruct (Rle_dec _ _); [lra|].
  unfold Rmax. destruct (Rle_dec _ _); lra.
Qed.

Lemma sample_batch :
  exists se, estimate_theta [5%Z] [as_dict sample_item] = Ok (3, se).
Proof.
  apply estimate_theta_increasing; [cbn; lia|].
  intros theta Ht. apply sample_likelihood_increasing, Ht.
Qed.

(** C3, counterexample.  One response 5 to the sample item: the running
    estimate started at 0.0 ends at 0.2, the grid search returns 3.0. *)
Lemma incremental_batch_counterexample :
  exists se,
    incremental_theta 0 [(5%Z, sample_item)] = Ok 0.2 /\
    estimate_theta [5%Z] [as_dict sample_item] = Ok (3, se) /\
    0.2 <> 3.
Proof.
  destruct sample_batch as (se & Hbatch).
  exists se. split; [exact sample_incremental|]. split; [exact Hbatch|lra].
Qed.

End BatchVersusIncremental.

(* ===================================================================== *)
(** * Floors, guards and invalid categories                              *)
(* ===================================================================== *)

Section FloorClaims.
Import PyReal Notions Inputs.
Local Open Scope R_scope.

(** C5, counterexample.  [remote_personality_item] is well formed, yet at
    theta 0 every threshold falls outside the window (-500, 500) and the
    engine's information is exactly 0. *)
Lemma cat_information_zero_counterexample :
  well_formed (IrtCatEngine.discrimination remote_personality_item)
    (IrtCatEngine.difficulty_thresholds remote_personality_item) /\
  IrtCatEngine.fisher_information 0 remote_personality_item = Ok 0.
Proof.
  split.
  - unfold well_formed. cbn. repeat split; lra.
  - unfold IrtCatEngine.fisher_information. f_equal. cbn.
    repeat (destruct (Rlt_dec (-500) _); [lra|]). reflexivity.
Qed.

(** On [remote_personality_item] the guard of [update_theta] is taken: a
    neutral response at theta 0 leaves theta at 0, where the information is
    0, and the standard error is the fallback 1.0. *)
Lemma remote_personality_update :
  IrtCatEngine.update_theta 0 remote_personality_item 3 = Ok (0, 1).
Proof.
  unfold IrtCatEngine.update_theta.
  destruct (cat_grm_probability_floor 0 remote_personality_item 3)
    as (p & -> & _). cbn [bind].
  change (4 <=? 3)%Z with false. change (3 <=? 2)%Z with false.
  change (3 - 3)%Z with 0%Z. cbv iota.
  replace (0 + 0.1 * 0) with 0 by lra.
  assert (Hclamp : py_max (-3) (py_min 3 0) = 0).
  { unfold py_min. destruct (Rlt_dec 0 3) as [_|H]; [|lra].
    unfold py_max. destruct (Rlt_dec (-3) 0); [reflexivity|lra]. }
  rewrite Hclamp.
  assert (Hinfo : IrtCatEngine.fisher_information 0 remote_personality_item
                  = Ok 0).
  { unfold IrtCatEngine.fisher_information. f_equal. cbn.
    repeat (destruct (Rlt_dec (-500) _); [lra|]). reflexivity. }
  rewrite Hinfo. cbn [bind].
  destruct (Rlt_dec 0 0); [lra|]. reflexivity.
Qed.

(** C5 (as amended).  [fisher_information] of pure_python_irt.py is at least
    0.001 for every theta and item.  [fisher_information] of
    irt_cat_engine.py is not floored: it is non-negative and can be 0;
    [update_theta] divides by its square root only when it is positive and
    otherwise answers a standard error of 1.0, as it does on
    [remote_personality_item].  Neither [update_theta] nor [estimate_theta]
    divides by zero, and both return a positive standard error. *)
Theorem information_floor_or_guard :
  (forall theta a bs,
     exists v, PurePythonIrt.fisher_information theta a bs = Ok v
               /\ 0.001 <= v) /\
  (forall theta item,
     exists v, IrtCatEngine.fisher_information theta item = Ok v /\ 0 <= v) /\
  (forall theta item response,
     exists new_theta info se,
       IrtCatEngine.update_theta theta item response = Ok (new_theta, se)
       /\ IrtCatEngine.fisher_information new_theta item = Ok info
       /\ se = (if Rlt_dec 0 info then 1 / sqrt info else 1)
       /\ 0 < se) /\
  IrtCatEngine.update_theta 0 remote_personality_item 3 = Ok (0, 1) /\
  (forall responses items,
     exists theta se,
       PurePythonIrt.estimate_theta responses items = Ok (theta, se)
       /\ 0.1 <= se <= 2).
Proof.
  split; [exact fisher_information_floor|].
  split; [exact cat_fisher_information_nonneg|].
  split; [exact update_theta_standard_error|].
  split; [exact remote_personality_update|exact estimate_theta_total].
Qed.

(** C6, counterexample.  On well-formed items category 1 of
    pure_python_irt.py is exactly 0 once the scaled distance passes 500, and
    positive but below 0.001 already at theta 3 for an item with
    discrimination 2 and first threshold -2. *)
Lemma pure_probability_unfloored_counterexample :
  well_formed 1 [0; 1; 2; 3] /\
  PurePythonIrt.grm_probability 600 1 [0; 1; 2; 3] 1 = Ok 0 /\
  well_formed 2 [-2; -1; 1; 2] /\
  exists p, PurePythonIrt.grm_probability 3 2 [-2; -1; 1; 2] 1 = Ok p
            /\ 0 < p < 0.001.
Proof.
  split; [unfold well_formed; cbn; repeat split; lra|].
  split.
  { rewrite grm_probability_1. f_equal. unfold PurePythonIrt.safe_logistic.
    destruct (Rlt_dec 500 (1 * (600 - 0))); lra. }
  split; [unfold well_formed; cbn; repeat split; lra|].
  eexists. split; [apply grm_probability_1|].
  unfold PurePythonIrt.safe_logistic.
  destruct (Rlt_dec 500 (2 * (3 - -2))); [lra|].
  destruct (Rlt_dec (2 * (3 - -2)) (-500)); [lra|].
  replace (2 * (3 - -2)) with 10 by lra.
  pose proof (logistic_open_unit 10) as Hunit.
  split; [lra|].
  pose proof exp_10_lower as Hexp. pose proof (exp_pos 10) as Hpos.
  assert (Hinv : exp (Ropp 10) < / 1000).
  { rewrite exp_Ropp. apply Rinv_lt_contravar; lra. }
  assert (Hden : / (1 + exp (Ropp 10)) > / (1 + / 1000)).
  { apply Rinv_lt_contravar; [|lra].
    pose proof (exp_pos (Ropp 10)). apply Rmult_lt_0_compat; lra. }
  unfold Rdiv. rewrite Rmult_1_l.
  assert (/ (1 + / 1000) = 1000 / 1001) by (field; lra).
  lra.
Qed.

(** C6 (as amended).  [grm_probability] of irt_cat_engine.py is at least
    0.001 on every input.  [grm_probability] of pure_python_irt.py returns a
    value in [0, 1] that is at least 0.001 except in categories 1 and 5,
    which return the logistic value as it is.  The likelihood loop of
    [estimate_theta] replaces every probability that is not above 0.001 by
    0.001 before it takes the logarithm, so the loop always returns the sum
    of the floored logarithms. *)
Theorem probability_floor_by_implementation :
  (forall theta item response,
     exists p, IrtCatEngine.grm_probability theta item response = Ok p
               /\ 0.001 <= p) /\
  (forall theta a bs category,
     exists p, PurePythonIrt.grm_probability theta a bs category = Ok p
               /\ 0 <= p <= 1
               /\ (0.001 <= p \/ category = 1%Z \/ category = 5%Z)) /\
  (forall theta pairs acc,
     PurePythonIrt.likelihood_loop theta pairs acc
     = Ok (acc + log_likelihood theta pairs)).
Proof.
  split; [exact cat_grm_probability_floor|].
  split; [exact grm_probability_middle_floor|exact likelihood_loop_value].
Qed.

End FloorClaims.

Section InvalidCategoryClaims.
Import PyReal Notions Inputs.
Local Open Scope R_scope.

(** C7, counterexample.  Category 7 on the sample item: both engines answer
    the probability 0.001 instead of raising. *)
Lemma invalid_category_counterexample :
  PurePythonIrt.grm_probability 0.5 1.2 [-1.5; -0.5; 0.5; 1.5] 7 = Ok 0.001 /\
  IrtCatEngine.grm_probability 0.5 sample_item 7 = Ok 0.001.
Proof.
  split; [reflexivity|].
  apply cat_grm_probability_invalid. cbn. lia.
Qed.

(** Categories 0, -1 and -2 do not leave the threshold list of
    pure_python_irt.py: negative indices count from its end, and the answer
    is that of the categories 4, 3 and 2. *)
Lemma pure_negative_category_wraps (theta a b1 b2 b3 b4 : R) (category : Z) :
  (-2 <= category <= 0)%Z ->
  PurePythonIrt.grm_probability theta a [b1; b2; b3; b4] category
  = PurePythonIrt.grm_probability theta a [b1; b2; b3; b4] (category + 4).
Proof.
  intros Hc.
  assert (category = 0 \/ category = -1 \/ category = -2)%Z
    as [->|[->| ->]] by lia; reflexivity.
Qed.

Lemma pure_far_category_fallback (theta a b1 b2 b3 b4 : R) (category : Z) :
  (category <= -3 \/ 6 <= category)%Z ->
  PurePythonIrt.grm_probability theta a [b1; b2; b3; b4] category = Ok 0.001.
Proof.
  intros Hc.
  unfold PurePythonIrt.grm_probability, PurePythonIrt.grm_probability_body.
  destruct (Z.eqb_spec category 1); [lia|].
  destruct (Z.eqb_spec category 5); [lia|].
  rewrite (py_getitem_outside [b1; b2; b3; b4] (category - 2)) by (cbn; lia).
  reflexivity.
Qed.

(** C7 (as amended).  On an item with four thresholds a category outside
    [1, 5] is answered with a probability of at least 0.001, not with an
    error: irt_cat_engine.py returns 0.001, and so does pure_python_irt.py
    for every category of 6 and more or of -3 and less. *)
Theorem invalid_category_is_mapped (theta : R)
  (item : IrtCatEngine.PersonalityItem) (category : Z) :
  List.length (IrtCatEngine.difficulty_thresholds item) = 4%nat ->
  (category < 1 \/ 5 < category)%Z ->
  IrtCatEngine.grm_probability theta item category = Ok 0.001 /\
  exists p,
    PurePythonIrt.grm_probability theta (IrtCatEngine.discrimination item)
      (IrtCatEngine.difficulty_thresholds item) category = Ok p /\
    0.001 <= p <= 1 /\
    (p = 0.001 \/ (-2 <= category <= 0)%Z).
Proof.
  intros Hlen Hout. split.
  { apply cat_grm_probability_invalid. rewrite Hlen. lia. }
  destruct (grm_probability_middle_floor theta
              (IrtCatEngine.discrimination item)
              (IrtCatEngine.difficulty_thresholds item) category)
    as (p & Heq & Hunit & Hfloor).
  exists p. split; [exact Heq|]. split; [split; [|lra]|].
  { destruct Hfloor as [H|[->| ->]]; [exact H|lia|lia]. }
  destruct (Z_le_gt_dec (-2) category) as [Hlo|Hlo];
    [destruct (Z_le_gt_dec category 0) as [Hhi|Hhi]; [right; lia|]|].
  - left. destruct item as [id dim de en a bs]. cbn in *.
    destruct bs as [|b1 [|b2 [|b3 [|b4 [|b5 bs]]]]]; try discriminate Hlen.
    rewrite pure_far_category_fallback in Heq by lia. congruence.
  - left. destruct item as [id dim de en a bs]. cbn in *.
    destruct bs as [|b1 [|b2 [|b3 [|b4 [|b5 bs]]]]]; try discriminate Hlen.
    rewrite pure_far_category_fallback in Heq by lia. congruence.
Qed.

Lemma invalid_category_is_mapped_witness :
  IrtCatEngine.grm_probability 0.5 sample_item 7 = Ok 0.001 /\
  exists p,
    PurePythonIrt.grm_probability 0.5 (IrtCatEngine.discrimination sample_item)
      (IrtCatEngine.difficulty_thresholds sample_item) 7 = Ok p /\
    0.001 <= p <= 1 /\
    (p = 0.001 \/ (-2 <= 7 <= 0)%Z).
Proof.
  apply (invalid_category_is_mapped 0.5 sample_item 7).
  - reflexivity.
  - right. lia.
Defined.

End InvalidCategoryClaims.

(* ===================================================================== *)
(** * The category probabilities as a distribution                       *)
(* ===================================================================== *)

Section ProbabilitySumClaims.
Import PyReal Notions Inputs.
Local Open Scope R_scope.

Lemma py_range_1_6 : py_range 1 6 = [1; 2; 3; 4; 5]%Z.
Proof. reflexivity. Qed.

(** On a well-formed item the five probabilities of pure_python_irt.py add up
    to 1, up to the three floors of 0.001 of the middle categories. *)
Lemma pure_probability_sum_near_one (theta a : R) (bs : list R) :
  well_formed a bs ->
  exists s,
    probability_sum (PurePythonIrt.grm_probability theta a bs) = Ok s /\
    1 <= s <= 1.003.
Proof.
  intros (Ha & Hlen & Hinc).
  destruct bs as [|b1 [|b2 [|b3 [|b4 [|b5 bs]]]]]; try discriminate Hlen.
  cbn in Hinc. destruct Hinc as (H12 & H23 & H34 & _).
  unfold probability_sum. rewrite py_range_1_6. cbn [sum_over].
  rewrite grm_probability_1, grm_probability_2, grm_probability_3,
    grm_probability_4, grm_probability_5.
  cbn [bind]. eexists; split; [reflexivity|].
  pose proof (safe_logistic_increasing (a * (theta - b2)) (a * (theta - b1))
                ltac:(nra)) as M12.
  pose proof (safe_logistic_increasing (a * (theta - b3)) (a * (theta - b2))
                ltac:(nra)) as M23.
  pose proof (safe_logistic_increasing (a * (theta - b4)) (a * (theta - b3))
                ltac:(nra)) as M34.
  unfold py_max. split_Rlt; lra.
Qed.

Lemma cumulative_entry_safe_logistic (theta a b : R) :
  IrtCatEngine.cumulative_entry theta a b
  = PurePythonIrt.safe_logistic (a * (theta - b)).
Proof. reflexivity. Qed.

(** The sum of the five probabilities of irt_cat_engine.py on an item with
    four thresholds. *)
Lemma cat_probability_sum_value (theta : R) (id dim de en : string)
  (a b1 b2 b3 b4 : R) :
  let F := fun b => PurePythonIrt.safe_logistic (a * (theta - b)) in
  probability_sum
    (IrtCatEngine.grm_probability theta
       (IrtCatEngine.mkPersonalityItem id dim de en a [b1; b2; b3; b4]))
  = Ok (0 + py_max (F b1 - 0) 0.001 + py_max (F b2 - F b1) 0.001
        + py_max (F b3 - F b2) 0.001 + py_max (F b4 - F b3) 0.001
        + py_max (1 - F b4) 0.001).
Proof. reflexivity. Qed.

(** On a well-formed item the cumulative list of irt_cat_engine.py falls
    where it should rise: the three middle categories sit on the floor, and
    the sum exceeds 1.003 by the distance between the first and the last
    cumulative value. *)
Lemma cat_probability_sum_lower (theta : R) (id dim de en : string)
  (a b1 b2 b3 b4 : R) :
  0 < a -> b1 < b2 -> b2 < b3 -> b3 < b4 ->
  exists s,
    probability_sum
      (IrtCatEngine.grm_probability theta
         (IrtCatEngine.mkPersonalityItem id dim de en a [b1; b2; b3; b4]))
    = Ok s /\
    1.003 + (PurePythonIrt.safe_logistic (a * (theta - b1))
             - PurePythonIrt.safe_logistic (a * (theta - b4))) <= s.
Proof.
  intros Ha H12 H23 H34.
  rewrite cat_probability_sum_value. cbv zeta.
  eexists; split; [reflexivity|].
  pose proof (safe_logistic_increasing (a * (theta - b2)) (a * (theta - b1))
                ltac:(nra)) as M12.
  pose proof (safe_logistic_increasing (a * (theta - b3)) (a * (theta - b2))
                ltac:(nra)) as M23.
  pose proof (safe_logistic_increasing (a * (theta - b4)) (a * (theta - b3))
                ltac:(nra)) as M34.
  unfold py_max. split_Rlt; lra.
Qed.

(** C2, at the failing input.  The self-test of irt_cat_engine.py evaluates
    [grm_probability] at theta 0.5 on its sample item for the responses 1 to
    5; the five values add up to more than 1.4. *)
Theorem cat_probability_sum_exceeds_one :
  well_formed (IrtCatEngine.discrimination sample_item)
    (IrtCatEngine.difficulty_thresholds sample_item) /\
  exists s,
    probability_sum (IrtCatEngine.grm_probability 0.5 sample_item) = Ok s /\
    1.4 < s.
Proof.
  split; [unfold well_formed; cbn; repeat split; lra|].
  destruct (cat_probability_sum_lower 0.5 "INNOV_001" "innovativeness"
              "Ich entwickle gerne kreative Lösungen für Probleme"
              "I enjoy developing creative solutions to problems"
              1.2 (-1.5) (-0.5) 0.5 1.5) as (s & Heq & Hs); try lra.
  exists s. split; [exact Heq|].
  revert Hs. unfold PurePythonIrt.safe_logistic.
  destruct (Rlt_dec 500 (1.2 * (0.5 - -1.5))); [lra|].
  destruct (Rlt_dec (1.2 * (0.5 - -1.5)) (-500)); [lra|].
  destruct (Rlt_dec 500 (1.2 * (0.5 - 1.5))); [lra|].
  destruct (Rlt_dec (1.2 * (0.5 - 1.5)) (-500)); [lra|].
  replace (1.2 * (0.5 - -1.5)) with 2.4 by lra.
  replace (1.2 * (0.5 - 1.5)) with (Ropp 1.2) by lra.
  rewrite logistic_reflect.
  pose proof (logistic_lower 2.4 ltac:(lra)) as H24.
  pose proof (logistic_lower 1.2 ltac:(lra)) as H12.
  lra.
Qed.

End ProbabilitySumClaims.

(* ===================================================================== *)
(** * Loading the item bank                                              *)
(* ===================================================================== *)

Section ItemBankClaims.
Import PyReal IrtCatEngine Notions Inputs.
Local Open Scope R_scope.

(** C8, counterexample.  Negative discrimination and decreasing thresholds:
    the constructor returns the item, a bank that holds it loads, and the
    engine answers a probability for it. *)
Lemma ill_formed_item_accepted_counterexample :
  ~ well_formed (-1) [1; 0] /\
  PersonalityItem_init "BAD_001" "innovativeness" "" "" (-1) [1; 0]
  = Ok (mkPersonalityItem "BAD_001" "innovativeness" "" "" (-1) [1; 0]) /\
  py_list [PersonalityItem_init "BAD_001" "innovativeness" "" "" (-1) [1; 0]]
  = Ok [mkPersonalityItem "BAD_001" "innovativeness" "" "" (-1) [1; 0]].
Proof.
  split; [|split; reflexivity].
  intros (Ha & _). lra.
Qed.

(** C8 (as amended).  [PersonalityItem] is built without any check: the
    constructor returns an item for every discrimination and every threshold
    list.  The ten items of [create_sample_item_bank] are all well formed.
    No error surfaces later either: [grm_probability] and [update_theta]
    return on every item, well formed or not. *)
Theorem item_construction_unchecked :
  (forall id dim de en a bs,
     PersonalityItem_init id dim de en a bs
     = Ok (mkPersonalityItem id dim de en a bs)) /\
  (exists bank,
     create_sample_item_bank = Ok bank /\
     List.length bank = 10%nat /\
     List.Forall
       (fun item => well_formed (discrimination item)
                      (difficulty_thresholds item)) bank) /\
  (forall theta item response,
     exists p, grm_probability theta item response = Ok p) /\
  (forall theta item response,
     exists new_theta se,
       update_theta theta item response = Ok (new_theta, se)).
Proof.
  split; [reflexivity|]. split.
  { eexists. split; [reflexivity|]. split; [reflexivity|].
    repeat (apply List.Forall_cons;
            [unfold well_formed; cbn; repeat split; lra|]).
    apply List.Forall_nil. }
  split.
  - intros theta item response.
    destruct (cat_grm_probability_floor theta item response) as (p & Hp & _).
    eauto.
  - intros theta item response.
    destruct (update_theta_value theta item response) as (se & Heq & _).
    eauto.
Qed.

End ItemBankClaims.

(* ===================================================================== *)
(** * Item selection                                                     *)
(* ===================================================================== *)

Section SelectionClaims.
Import PyReal PurePythonIrt Notions Inputs.
Local Open Scope R_scope.

Lemma is_used_In (used_set : list string) (item : Item) :
  is_used used_set item = true <-> In (item_id item) used_set.
Proof.
  unfold is_used. rewrite existsb_exists. split.
  - intros (x & Hin & Heq). apply String.eqb_eq in Heq. now subst.
  - intros Hin. exists (item_id item). split; [exact Hin|].
    apply String.eqb_refl.
Qed.

(** The arg-max loop returns its initial best item or one of the
    candidates. *)
Lemma select_loop_result (theta : R) (candidates : list Item) :
  forall best_item max_info,
  exists choice,
    select_loop theta candidates best_item max_info = Ok choice /\
    (choice = best_item \/
     exists item, choice = Some item /\ In item candidates).
Proof.
  induction candidates as [|item candidates IH]; intros best max_info; cbn.
  - exists best. split; [reflexivity|now left].
  - destruct (fisher_information_floor theta (discrimination item)
                (difficulty_thresholds item)) as (v & -> & _). cbn [bind].
    destruct (Rlt_dec max_info v).
    + destruct (IH (Some item) v) as (choice & -> & [->|(it & -> & Hin)]).
      * exists (Some item). split; [reflexivity|]. right.
        exists item. split; [reflexivity|now left].
      * exists (Some it). split; [reflexivity|]. right.
        exists it. split; [reflexivity|now right].
    + destruct (IH best max_info) as (choice & -> & [->|(it & -> & Hin)]).
      * exists best. split; [reflexivity|now left].
      * exists (Some it). split; [reflexivity|]. right.
        exists it. split; [reflexivity|now right].
Qed.

(** [select_next_item] returns [None] or an available item whose identifier
    is not in the administered list. *)
Lemma select_next_item_result (theta : R) (available_items : list Item)
  (administered : list string) :
  exists choice,
    select_next_item theta available_items (Some administered) = Ok choice /\
    match choice with
    | None => True
    | Some item =>
        In item available_items /\ ~ In (item_id item) administered
    end.
Proof.
  unfold select_next_item.
  destruct available_items as [|first others]; [exists None; auto|].
  set (candidates :=
         List.filter (fun item => negb (is_used administered item))
           (first :: others)).
  assert (Hcand : forall item, In item candidates ->
            In item (first :: others) /\ ~ In (item_id item) administered).
  { intros item Hin. apply filter_In in Hin as [Hin Hused].
    split; [exact Hin|].
    rewrite <- is_used_In. destruct (is_used administered item);
      [discriminate|congruence]. }
  destruct candidates as [|c cs] eqn:E; [exists None; auto|].
  destruct (select_loop_result theta (c :: cs) None (-1))
    as (choice & -> & [->|(item & -> & Hin)]).
  - exists None. auto.
  - exists (Some item). split; [reflexivity|]. apply Hcand, Hin.
Qed.

Lemma select_next_item_exhausted (theta : R) (available_items : list Item)
  (administered : list string) :
  List.Forall (fun item => In (item_id item) administered) available_items ->
  select_next_item theta available_items (Some administered) = Ok None.
Proof.
  intros Hall. unfold select_next_item.
  destruct available_items as [|first others]; [reflexivity|].
  assert (Hnil : List.filter (fun item => negb (is_used administered item))
                   (first :: others) = []).
  { induction Hall as [|item items Hitem _ IH]; [reflexivity|].
    cbn [List.filter]. apply is_used_In in Hitem as ->. exact IH. }
  now rewrite Hnil.
Qed.

Lemma select_sequence_fresh (thetas : list R) (available_items : list Item) :
  forall administered,
  exists chosen,
    select_sequence thetas available_items administered = Ok chosen /\
    List.NoDup (List.map item_id chosen) /\
    List.Forall
      (fun item => In item available_items
                   /\ ~ In (item_id item) administered) chosen.
Proof.
  induction thetas as [|theta thetas IH]; intros administered;
    cbn [select_sequence].
  - exists []. split; [reflexivity|]. split; constructor.
  - destruct (select_next_item_result theta available_items administered)
      as ([item|] & -> & Hchoice); cbn [bind].
    2:{ exists []. split; [reflexivity|]. split; constructor. }
    destruct Hchoice as [Havail Hfresh].
    destruct (IH (administered ++ [item_id item]))
      as (later & -> & Hnodup & Hlater). cbn [bind].
    exists (item :: later). split; [reflexivity|]. split.
    + cbn [List.map]. apply List.NoDup_cons; [|exact Hnodup].
      intros Hin. apply in_map_iff in Hin as (other & Hid & Hother).
      pose proof (proj1 (List.Forall_forall _ _) Hlater _ Hother) as [_ Hnot].
      apply Hnot. rewrite Hid. apply in_or_app. right. now left.
    + apply List.Forall_cons; [split; assumption|].
      eapply List.Forall_impl; [|exact Hlater].
      intros other [Ha Hnot]. split; [exact Ha|].
      intros Hin. apply Hnot. apply in_or_app. now left.
Qed.

(** C9.  Over any number of successive calls of [select_next_item], whatever
    the theta of each call, with the identifier of each selected item added
    to the administered list before the next call, no identifier is returned
    twice and none that was administered at the start; and when every
    available item is administered the selector returns [None]. *)
Theorem select_next_item_never_repeats (thetas : list R)
  (available_items : list Item) (administered : list string) :
  (exists chosen,
     select_sequence thetas available_items administered = Ok chosen /\
     List.NoDup (List.map item_id chosen) /\
     List.Forall
       (fun item => In item available_items
                    /\ ~ In (item_id item) administered) chosen) /\
  (List.Forall (fun item => In (item_id item) administered) available_items ->
   forall theta,
     select_next_item theta available_items (Some administered) = Ok None).
Proof.
  split; [apply select_sequence_fresh|].
  intros Hall theta. now apply select_next_item_exhausted.
Qed.

Lemma select_next_item_never_repeats_witness :
  (exists chosen,
     select_sequence [0; 0.5] [remote_item] [] = Ok chosen /\
     List.NoDup (List.map item_id chosen) /\
     List.Forall
       (fun item => In item [remote_item] /\ ~ In (item_id item) []) chosen) /\
  select_next_item 0 [remote_item] (Some ["REMOTE_001"%string]) = Ok None.
Proof.
  split.
  - apply (proj1 (select_next_item_never_repeats [0; 0.5] [remote_item] [])).
  - apply (proj2 (select_next_item_never_repeats []
                    [remote_item] ["REMOTE_001"%string])).
    apply List.Forall_cons; [left; reflexivity|apply List.Forall_nil].
Defined.

End SelectionClaims.

Section SelectionProgress.
Import PyReal PurePythonIrt Notions.
Local Open Scope R_scope.

Lemma select_loop_keeps (theta : R) (candidates : list Item) :
  forall (kept : Item) max_info,
  exists item, select_loop theta candidates (Some kept) max_info = Ok (Some item).
Proof.
  induction candidates as [|c cs IH]; intros kept max_info; cbn.
  - now exists kept.
  - destruct (fisher_information_floor theta (discrimination c)
                (difficulty_thresholds c)) as (v & -> & _). cbn [bind].
    destruct (Rlt_dec max_info v); apply IH.
Qed.

(** While an available item is not yet administered the selector returns
    an item. *)
Lemma select_next_item_some (theta : R) (available_items : list Item)
  (administered : list string) (fresh : Item) :
  In fresh available_items -> ~ In (item_id fresh) administered ->
  exists item,
    select_next_item theta available_items (Some administered)
    = Ok (Some item).
Proof.
  intros Hin Hfresh. unfold select_next_item.
  destruct available_items as [|first others]; [destruct Hin|].
  assert (Hcand : In fresh
            (List.filter (fun item => negb (is_used administered item))
               (first :: others))).
  { apply filter_In. split; [exact Hin|].
    destruct (is_used administered fresh) eqn:E; [|reflexivity].
    apply is_used_In in E. contradiction. }
  destruct (List.filter _ (first :: others)) as [|c cs]; [destruct Hcand|].
  cbn [select_loop].
  destruct (fisher_information_floor theta (discrimination c)
              (difficulty_thresholds c)) as (v & -> & Hv). cbn [bind].
  destruct (Rlt_dec (-1) v); [|lra].
  apply select_loop_keeps.
Qed.

End SelectionProgress.

(* ===================================================================== *)
(** * The stopping rule                                                  *)
(* ===================================================================== *)

Section StoppingClaims.
Import Integrated Notions Inputs.
Local Open Scope Q_scope.

(** The flag [should_stop_assessment] returns is the ceiling test or the
    precision test; the comparison of [current_item] with 8 that follows
    them changes nothing. *)
Lemma should_stop_assessment_flag (session : Session) :
  fst (should_stop_assessment session)
  = ((max_items session <=? current_item session)%Z || precision_met session).
Proof.
  unfold should_stop_assessment, precision_met.
  destruct (max_items session <=? current_item session)%Z; [reflexivity|].
  destruct (count_important session) as [ready total].
  cbn [orb]. cbv zeta.
  destruct (0 <? total)%Z; cbn [andb];
    [destruct (Qle_bool 0.8 (inject_Z ready / inject_Z total));
     [reflexivity|]|];
    destruct (current_item session <? 8)%Z; reflexivity.
Qed.

(** C1, at the failing input.  Seven items administered, below the floor of
    eight that [should_stop_assessment] compares against, and every standard
    error below the target: the rule answers stop, for the reason
    precision_criteria_met.  The same happens before the first item when the
    caller starts the assessment with a target of 2.0. *)
Theorem stopping_rule_precision_before_floor :
  (current_item early_precise_session <? 8)%Z = true /\
  should_stop_assessment early_precise_session
  = (true, set_completion_reason early_precise_session
             "precision_criteria_met") /\
  exists session,
    start_adaptive_assessment "fintech" 2.0 15 = Ok session /\
    current_item session = 0%Z /\
    should_stop_assessment session
    = (true, set_completion_reason session "precision_criteria_met").
Proof.
  split; [reflexivity|]. split; [vm_compute; reflexivity|].
  eexists. split; [reflexivity|]. split; [reflexivity|].
  vm_compute. reflexivity.
Qed.

End StoppingClaims.

(* ===================================================================== *)
(** * Further properties of pure_python_irt.py                           *)
(* ===================================================================== *)

Section PureSelectionMore.
Import PyReal PurePythonIrt Notions MoreNotions.
Local Open Scope R_scope.

Lemma fisher_information_value (theta : R) (item : Item) :
  fisher_information theta (discrimination item) (difficulty_thresholds item)
  = Ok (fisher_value theta item) /\ 0.001 <= fisher_value theta item.
Proof.
  unfold fisher_value.
  destruct (fisher_information_floor theta (discrimination item)
              (difficulty_thresholds item)) as (v & -> & Hv).
  split; [reflexivity|exact Hv].
Qed.

(** The selection loop is an arg-max scan over the candidates. *)
Lemma select_loop_scan (theta : R) (pool : list Item) :
  forall best_item max_info,
  exists choice,
    select_loop theta pool best_item max_info = Ok choice /\
    ((choice = best_item /\
      List.Forall (fun c => fisher_value theta c <= max_info) pool)
     \/
     (exists item,
        choice = Some item /\ max_info < fisher_value theta item /\
        first_most_informative theta pool item)).
Proof.
  induction pool as [|c pool IH]; intros best max_info; cbn [select_loop].
  - exists best. split; [reflexivity|]. left. split; [reflexivity|constructor].
  - destruct (fisher_information_value theta c) as [-> _]. cbn [bind].
    destruct (Rlt_dec max_info (fisher_value theta c)) as [Hlt|Hge].
    + destruct (IH (Some c) (fisher_value theta c))
        as (choice & -> & [(-> & Hall)|(item & -> & Hmore & pre & post & -> & Hpre & Hpost)]).
      * exists (Some c). split; [reflexivity|]. right.
        exists c. split; [reflexivity|]. split; [exact Hlt|].
        exists [], pool. split; [reflexivity|].
        split; [constructor|exact Hall].
      * exists (Some item). split; [reflexivity|]. right.
        exists item. split; [reflexivity|]. split; [lra|].
        exists (c :: pre), post. split; [reflexivity|].
        split; [constructor; [exact Hmore|exact Hpre]|exact Hpost].
    + destruct (IH best max_info)
        as (choice & -> & [(-> & Hall)|(item & -> & Hmore & pre & post & -> & Hpre & Hpost)]).
      * exists best. split; [reflexivity|]. left.
        split; [reflexivity|]. constructor; [lra|exact Hall].
      * exists (Some item). split; [reflexivity|]. right.
        exists item. split; [reflexivity|]. split; [exact Hmore|].
        exists (c :: pre), post. split; [reflexivity|].
        split; [constructor; [lra|exact Hpre]|exact Hpost].
Qed.

(** X1.  [select_next_item] returns [None] only when no available item is
    unused; otherwise it returns an unused item whose Fisher information at
    the current theta is the largest among the unused items, and of several
    such items the first in the order of [available_items]. *)
Theorem select_next_item_most_informative (current_theta : R)
  (available_items : list Item) (used_items : list string) :
  exists choice,
    select_next_item current_theta available_items (Some used_items)
    = Ok choice /\
    match choice with
    | None => candidates available_items used_items = []
    | Some item =>
        first_most_informative current_theta
          (candidates available_items used_items) item
    end.
Proof.
  unfold select_next_item.
  destruct available_items as [|first others].
  { exists None. split; reflexivity. }
  fold (candidates (first :: others) used_items).
  destruct (candidates (first :: others) used_items) as [|c cs] eqn:E.
  { exists None. split; reflexivity. }
  destruct (select_loop_scan current_theta (c :: cs) None (-1))
    as (choice & -> & [(_ & Hall)|(item & -> & _ & Hfirst)]).
  - exfalso. apply List.Forall_inv in Hall.
    destruct (fisher_information_value current_theta c) as [_ Hc]. lra.
  - exists (Some item). split; [reflexivity|exact Hfirst].
Qed.

End PureSelectionMore.

Section PureEstimateMore.
Import PyReal PurePythonIrt Notions MoreNotions.
Local Open Scope R_scope.

(** X2.  Whatever the responses and items, empty, mismatched or arbitrarily
    long, [estimate_theta] returns a theta that is one of the 61 grid values
    k * 0.1, k = -30 .. 30, hence within [-3, 3]. *)
Theorem estimate_theta_on_grid (responses : list Z) (items : list Item) :
  exists theta se k,
    estimate_theta responses items = Ok (theta, se) /\
    theta = grid_point k /\ (-30 <= k <= 30)%Z /\ -3 <= theta <= 3.
Proof.
  assert (Hzero : 0 = grid_point 0) by (unfold grid_point; lra).
  destruct responses as [|r rs].
  { exists 0, 1, 0%Z. split; [reflexivity|]. split; [exact Hzero|].
    split; [lia|lra]. }
  destruct items as [|it its].
  { exists 0, 1, 0%Z. split; [reflexivity|]. split; [exact Hzero|].
    split; [lia|lra]. }
  destruct (estimate_theta_scan r rs it its)
    as (theta & se & Heq & [(-> & _)|(_ & k & Hk & -> & _)]).
  - exists 0, se, 0%Z. split; [exact Heq|]. split; [exact Hzero|].
    split; [lia|lra].
  - exists (grid_point k), se, k. split; [exact Heq|].
    split; [reflexivity|]. split; [exact Hk|apply grid_point_range, Hk].
Qed.

(** X3.  Responses beyond the number of items play no part: the estimate is
    that of the first [len(items)] responses. *)
Theorem estimate_theta_ignores_surplus_responses
  (responses : list Z) (items : list Item) :
  estimate_theta responses items
  = estimate_theta (firstn (List.length items) responses) items.
Proof.
  destruct responses as [|r rs]; [now rewrite firstn_nil|].
  destruct items as [|it its]; [reflexivity|].
  cbn [List.length firstn]. unfold estimate_theta.
  assert (E : combine (r :: firstn (List.length its) rs) (it :: its)
              = combine (r :: rs) (it :: its)).
  { symmetry. exact (combine_firstn_r (r :: rs) (it :: its)). }
  rewrite E. reflexivity.
Qed.

Lemma info_sum_value (theta : R) (items : list Item) :
  forall acc,
    info_sum theta items acc = Ok (acc + total_information theta items).
Proof.
  induction items as [|item items IH]; intros acc; cbn.
  - f_equal. lra.
  - destruct (fisher_information_value theta item) as [-> _]. cbn [bind].
    rewrite IH. f_equal. lra.
Qed.

Lemma total_information_app (theta : R) (items extra : list Item) :
  total_information theta (items ++ extra)
  = total_information theta items + total_information theta extra.
Proof.
  induction items as [|item items IH]; cbn; [lra|]. rewrite IH. lra.
Qed.

Lemma total_information_nonneg (theta : R) (items : list Item) :
  0 <= total_information theta items.
Proof.
  induction items as [|item items IH]; cbn; [lra|].
  destruct (fisher_information_value theta item) as [_ H]. lra.
Qed.

(** The standard error falls as the total information grows. *)
Lemma standard_error_decreasing (low high : R) :
  low <= high ->
  exists se se',
    py_div 1 (sqrt (py_max low 0.1)) = Ok se /\
    py_div 1 (sqrt (py_max high 0.1)) = Ok se' /\
    py_min 2 (py_max 0.1 se') <= py_min 2 (py_max 0.1 se).
Proof.
  intros Hle.
  assert (Hl : 0.1 <= py_max low 0.1) by apply py_max_lower_r.
  assert (Hh : 0.1 <= py_max high 0.1) by apply py_max_lower_r.
  assert (Hmax : py_max low 0.1 <= py_max high 0.1).
  { apply py_max_upper; [|exact Hh].
    pose proof (py_max_lower_l high 0.1). lra. }
  pose proof (sqrt_lt_R0 (py_max low 0.1) ltac:(lra)) as Hsl.
  pose proof (sqrt_lt_R0 (py_max high 0.1) ltac:(lra)) as Hsh.
  assert (Hsqrt : sqrt (py_max low 0.1) <= sqrt (py_max high 0.1))
    by (apply sqrt_le_1; lra).
  unfold py_div.
  destruct (Req_dec_T (sqrt (py_max low 0.1)) 0); [lra|].
  destruct (Req_dec_T (sqrt (py_max high 0.1)) 0); [lra|].
  eexists _, _. split; [reflexivity|]. split; [reflexivity|].
  assert (Hinv : 1 / sqrt (py_max high 0.1) <= 1 / sqrt (py_max low 0.1)).
  { unfold Rdiv. rewrite !Rmult_1_l. apply Rinv_le_contravar; lra. }
  revert Hinv.
  generalize (1 / sqrt (py_max high 0.1)), (1 / sqrt (py_max low 0.1)).
  intros x y Hxy. rewrite !py_min_Rmin, !py_max_Rmax.
  apply Rle_min_compat_l, Rle_max_compat_l, Hxy.
Qed.

Lemma combine_app_short {A B : Type} (l : list A) (l' extra : list B) :
  (List.length l <= List.length l')%nat ->
  combine l (l' ++ extra) = combine l l'.
Proof.
  revert l'. induction l as [|a l IH]; intros [|b l'] Hlen; cbn in *;
    try reflexivity; try lia.
  f_equal. apply IH. lia.
Qed.

(** X4.  Items that have no response, listed after the answered ones, leave
    theta as it is and can only lower the standard error: the information of
    every listed item is added up, answered or not. *)
Theorem estimate_theta_counts_unanswered_items
  (responses : list Z) (items extra : list Item) :
  (List.length responses <= List.length items)%nat ->
  exists theta se se',
    estimate_theta responses items = Ok (theta, se) /\
    estimate_theta responses (items ++ extra) = Ok (theta, se') /\
    se' <= se.
Proof.
  intros Hlen.
  destruct responses as [|r rs].
  { exists 0, 1, 1. split; [reflexivity|]. split; [reflexivity|lra]. }
  destruct items as [|it its]; [cbn in Hlen; lia|].
  change ((it :: its) ++ extra) with (it :: (its ++ extra)).
  unfold estimate_theta.
  change (it :: (its ++ extra)) with ((it :: its) ++ extra).
  rewrite (combine_app_short (r :: rs) (it :: its) extra Hlen).
  destruct (grid_loop_scan (combine (r :: rs) (it :: its)) theta_grid
              0 (-999999)) as (t & l & -> & _).
  cbn [bind fst]. rewrite !info_sum_value. cbn [bind].
  rewrite total_information_app.
  pose proof (total_information_nonneg t extra) as Hextra.
  destruct (standard_error_decreasing
              (0 + total_information t (it :: its))
              (0 + (total_information t (it :: its)
                    + total_information t extra)) ltac:(lra))
    as (se & se' & -> & -> & Hse).
  cbn [bind]. eexists _, _, _.
  split; [reflexivity|]. split; [reflexivity|exact Hse].
Qed.

Lemma estimate_theta_counts_unanswered_items_witness :
  exists theta se se',
    estimate_theta [4%Z] [Inputs.mid_item] = Ok (theta, se) /\
    estimate_theta [4%Z] ([Inputs.mid_item] ++ [Inputs.low_item])
    = Ok (theta, se') /\
    se' <= se.
Proof.
  apply (estimate_theta_counts_unanswered_items
           [4%Z] [Inputs.mid_item] [Inputs.low_item]).
  cbn. lia.
Defined.

End PureEstimateMore.

Section PureModelMore.
Import PyReal PurePythonIrt Notions MoreNotions.
Local Open Scope R_scope.

(** X5.  For a non-negative discrimination and any threshold list, a higher
    theta never lowers the probability of category 5 and never raises the
    probability of category 1. *)
Theorem grm_probability_end_categories_monotone
  (theta theta' a : R) (bs : list R) :
  0 <= a -> theta <= theta' ->
  exists p1 p1' p5 p5',
    grm_probability theta a bs 1 = Ok p1 /\
    grm_probability theta' a bs 1 = Ok p1' /\
    grm_probability theta a bs 5 = Ok p5 /\
    grm_probability theta' a bs 5 = Ok p5' /\
    p1' <= p1 /\ p5 <= p5'.
Proof.
  intros Ha Ht.
  unfold grm_probability, grm_probability_body.
  cbn [Z.eqb Pos.eqb].
  destruct (py_getitem bs 0) as [b|e] eqn:E0;
    destruct (py_getitem bs (-1)) as [b'|e'] eqn:E1; cbn [bind try_except];
    try (apply py_getitem_raises in E0 as ->);
    try (apply py_getitem_raises in E1 as ->); cbn [try_except];
    eexists _, _, _, _;
    (split; [reflexivity|]); (split; [reflexivity|]);
    (split; [reflexivity|]); (split; [reflexivity|]).
  - split.
    + rewrite !safe_logistic_reflect.
      pose proof (safe_logistic_increasing (a * (theta - b))
                    (a * (theta' - b)) ltac:(nra)). lra.
    + apply safe_logistic_increasing. nra.
  - split; [|lra].
    rewrite !safe_logistic_reflect.
    pose proof (safe_logistic_increasing (a * (theta - b))
                  (a * (theta' - b)) ltac:(nra)). lra.
  - split; [lra|]. apply safe_logistic_increasing. nra.
  - split; lra.
Qed.

Lemma grm_probability_end_categories_monotone_witness :
  exists p1 p1' p5 p5',
    grm_probability 0 1.2 [-1.5; -0.5; 0.5; 1.5] 1 = Ok p1 /\
    grm_probability 1 1.2 [-1.5; -0.5; 0.5; 1.5] 1 = Ok p1' /\
    grm_probability 0 1.2 [-1.5; -0.5; 0.5; 1.5] 5 = Ok p5 /\
    grm_probability 1 1.2 [-1.5; -0.5; 0.5; 1.5] 5 = Ok p5' /\
    p1' <= p1 /\ p5 <= p5'.
Proof.
  apply (grm_probability_end_categories_monotone 0 1 1.2
           [-1.5; -0.5; 0.5; 1.5]); lra.
Defined.

(** Each pass of the information loop adds at most a quarter of the squared
    discrimination. *)
Lemma fisher_loop_upper (theta a : R) (bs : list R) (cats : list Z) :
  forall total_info,
  exists v,
    fisher_loop theta a bs cats total_info = Ok v /\
    v <= total_info + INR (List.length cats) * (a ^ 2 / 4).
Proof.
  induction cats as [|c cats IH]; intros total_info.
  - exists total_info. split; [reflexivity|]. cbn. lra.
  - cbn [fisher_loop List.length]. rewrite S_INR.
    destruct (grm_probability_total theta a bs c) as (p & -> & Hp).
    cbn [bind].
    pose proof (pow2_ge_0 a) as Ha2.
    assert (Hquarter : p * (1 - p) <= 1 / 4).
    { pose proof (Rle_0_sqr (p - 1 / 2)) as Hs. unfold Rsqr in Hs. lra. }
    assert (Hterm : a ^ 2 * p * (1 - p) <= a ^ 2 / 4).
    { rewrite Rmult_assoc. replace (a ^ 2 / 4) with (a ^ 2 * (1 / 4)) by lra.
      apply Rmult_le_compat_l; assumption. }
    assert (Hsq : 0 <= a ^ 2 / 4) by lra.
    destruct (Rlt_dec 0.001 p).
    + destruct (IH (total_info + a ^ 2 * p * (1 - p))) as (v & -> & Hv).
      exists v. split; [reflexivity|lra].
    + destruct (IH total_info) as (v & -> & Hv).
      exists v. split; [reflexivity|lra].
Qed.

Lemma fisher_value_upper (theta : R) (item : Item) :
  fisher_value theta item <= 0.001 + 1.25 * discrimination item ^ 2.
Proof.
  unfold fisher_value, fisher_information.
  destruct (fisher_loop_upper theta (discrimination item)
              (difficulty_thresholds item) (py_range 1 6) 0)
    as (v & -> & Hv). cbn [bind].
  change (List.length (py_range 1 6)) with 5%nat in Hv.
  replace (INR 5) with 5 in Hv by (cbn; lra).
  pose proof (pow2_ge_0 (discrimination item)).
  apply py_max_upper; lra.
Qed.

Lemma total_information_upper (theta : R) (items : list Item) :
  total_information theta items
  <= 0.001 * INR (List.length items) + 1.25 * squared_discriminations items.
Proof.
  induction items as [|item items IH].
  - cbn. lra.
  - cbn [total_information squared_discriminations List.length].
    rewrite S_INR. pose proof (fisher_value_upper theta item). lra.
Qed.

(** X6.  [estimate_theta] reports a standard error at or below the target of
    0.20 only when the items are informative enough: 1.25 times the sum of
    their squared discriminations, plus 0.001 per item, must reach 25. *)
Theorem estimate_theta_precision_needs_discrimination
  (responses : list Z) (items : list Item) :
  exists theta se,
    estimate_theta responses items = Ok (theta, se) /\
    (target_se < se \/
     25 <= 0.001 * INR (List.length items)
           + 1.25 * squared_discriminations items).
Proof.
  destruct responses as [|r rs].
  { exists 0, 1. split; [reflexivity|]. left. unfold target_se. lra. }
  destruct items as [|it its].
  { exists 0, 1. split; [reflexivity|]. left. unfold target_se. lra. }
  unfold estimate_theta.
  destruct (grid_loop_scan (combine (r :: rs) (it :: its)) theta_grid
              0 (-999999)) as (t & l & -> & _).
  cbn [bind fst]. rewrite info_sum_value. cbn [bind].
  pose proof (total_information_upper t (it :: its)) as Hup.
  set (total := 0 + total_information t (it :: its)) in *.
  assert (Hpos : 0.1 <= py_max total 0.1) by apply py_max_lower_r.
  pose proof (sqrt_lt_R0 (py_max total 0.1) ltac:(lra)) as Hsqrt.
  unfold py_div. destruct (Req_dec_T (sqrt (py_max total 0.1)) 0); [lra|].
  cbn [bind]. eexists _, _. split; [reflexivity|].
  destruct (Rle_dec 25 total) as [Hbig|Hsmall]; [right; subst total; lra|].
  left. unfold target_se.
  assert (Hmax : py_max total 0.1 < 25).
  { unfold py_max. destruct (Rlt_dec total 0.1); lra. }
  assert (Hs5 : sqrt (py_max total 0.1) < 5).
  { replace 5 with (sqrt 25).
    - apply sqrt_lt_1; lra.
    - replace 25 with (5 * 5) by lra. apply sqrt_square. lra. }
  assert (Hinv : 0.2 < 1 / sqrt (py_max total 0.1)).
  { apply (Rmult_lt_reg_r (sqrt (py_max total 0.1))); [lra|].
    unfold Rdiv. rewrite Rmult_assoc, Rinv_l by lra. lra. }
  revert Hinv. generalize (1 / sqrt (py_max total 0.1)). intros x Hx.
  unfold py_min, py_max.
  destruct (Rlt_dec 0.1 x); [|lra].
  destruct (Rlt_dec x 2); lra.
Qed.

End PureModelMore.

(* ===================================================================== *)
(** * Further properties of irt_cat_engine.py                            *)
(* ===================================================================== *)

Section PercentileFacts.
Import PyNumbers IrtCatPercentile.
Local Open Scope R_scope.

Lemma Int_part_monotone (x y : R) : x <= y -> (Int_part x <= Int_part y)%Z.
Proof.
  intros Hxy.
  destruct (base_Int_part x) as [Hx _]. destruct (base_Int_part y) as [_ Hy].
  assert (H : IZR (Int_part x) < IZR (Int_part y + 1)).
  { rewrite plus_IZR. lra. }
  apply lt_IZR in H. lia.
Qed.

Lemma Int_part_at_least (x : R) (n : Z) : IZR n <= x -> (n <= Int_part x)%Z.
Proof.
  intros Hn. destruct (base_Int_part x) as [_ Hx].
  assert (H : IZR n < IZR (Int_part x + 1)) by (rewrite plus_IZR; lra).
  apply lt_IZR in H. lia.
Qed.

Lemma Int_part_at_most (x : R) (n : Z) : x < IZR (n + 1) -> (Int_part x <= n)%Z.
Proof.
  intros Hn. destruct (base_Int_part x) as [Hx _].
  assert (H : IZR (Int_part x) < IZR (n + 1)) by lra.
  apply lt_IZR in H. lia.
Qed.

Lemma py_int_monotone (x y : R) : x <= y -> (py_int x <= py_int y)%Z.
Proof.
  intros Hxy. unfold py_int.
  destruct (Rlt_dec x 0), (Rlt_dec y 0); try lra.
  - pose proof (Int_part_monotone (- y) (- x) ltac:(lra)). lia.
  - pose proof (Int_part_at_least (- x) 0 ltac:(lra)).
    pose proof (Int_part_at_least y 0 ltac:(lra)). lia.
  - now apply Int_part_monotone.
Qed.

Lemma py_int_at_least (x : R) (n : Z) :
  (0 <= n)%Z -> IZR n <= x -> (n <= py_int x)%Z.
Proof.
  intros Hn Hx. unfold py_int.
  assert (0 <= IZR n) by now apply IZR_le.
  destruct (Rlt_dec x 0); [lra|]. now apply Int_part_at_least.
Qed.

Lemma py_int_at_most (x : R) (n : Z) :
  (0 <= n)%Z -> x < IZR (n + 1) -> (py_int x <= n)%Z.
Proof.
  intros Hn Hx. unfold py_int.
  destruct (Rlt_dec x 0).
  - pose proof (Int_part_at_least (- x) 0 ltac:(lra)). lia.
  - now apply Int_part_at_most.
Qed.

(** X7.  [theta_to_percentile] is non-decreasing in theta, and its values
    lie between 1 and 99. *)
Theorem theta_to_percentile_monotone (theta theta' : R) :
  theta <= theta' ->
  (1 <= theta_to_percentile theta)%Z /\
  (theta_to_percentile theta <= theta_to_percentile theta')%Z /\
  (theta_to_percentile theta' <= 99)%Z.
Proof.
  intros Ht. unfold theta_to_percentile. cbv zeta.
  assert (H : (py_int ((theta + 3.0) / 6.0 * 98)
               <= py_int ((theta' + 3.0) / 6.0 * 98))%Z)
    by (apply py_int_monotone; lra).
  lia.
Qed.

Lemma theta_to_percentile_monotone_witness :
  (1 <= theta_to_percentile 0)%Z /\
  (theta_to_percentile 0 <= theta_to_percentile 1)%Z /\
  (theta_to_percentile 1 <= 99)%Z.
Proof.
  apply (theta_to_percentile_monotone 0 1). lra.
Defined.

(** X8.  [theta_to_percentile] saturates outside the theta range and is
    centred: every theta of -3 or less gives 1, every theta of 3 or more
    gives 99, and theta 0 gives 50. *)
Theorem theta_to_percentile_saturates (low high : R) :
  low <= -3 -> 3 <= high ->
  theta_to_percentile low = 1%Z /\
  theta_to_percentile 0 = 50%Z /\
  theta_to_percentile high = 99%Z.
Proof.
  intros Hlow Hhigh. unfold theta_to_percentile. cbv zeta.
  assert (H1 : (py_int ((low + 3.0) / 6.0 * 98) <= py_int 0)%Z)
    by (apply py_int_monotone; lra).
  assert (H0 : (py_int 0 <= 0)%Z).
  { apply py_int_at_most; [lia|]. rewrite plus_IZR. lra. }
  assert (H49 : (49 <= py_int ((0 + 3.0) / 6.0 * 98))%Z)
    by (apply py_int_at_least; [lia|lra]).
  assert (H49' : (py_int ((0 + 3.0) / 6.0 * 98) <= 49)%Z).
  { apply py_int_at_most; [lia|]. rewrite plus_IZR. lra. }
  assert (H98 : (98 <= py_int ((high + 3.0) / 6.0 * 98))%Z)
    by (apply py_int_at_least; [lia|lra]).
  lia.
Qed.

Lemma theta_to_percentile_saturates_witness :
  theta_to_percentile (-4) = 1%Z /\
  theta_to_percentile 0 = 50%Z /\
  theta_to_percentile 3 = 99%Z.
Proof.
  apply (theta_to_percentile_saturates (-4) 3); lra.
Defined.

End PercentileFacts.

Section CatStandardError.
Import PyReal IrtCatEngine Notions Inputs.
Local Open Scope R_scope.

Lemma cat_fisher_loop_upper (theta a : R) (bs : list R) :
  forall total_info,
    fisher_loop theta a bs total_info
    <= total_info + INR (List.length bs) * (a * a / 4).
Proof.
  induction bs as [|b bs IH]; intros total_info.
  - cbn. lra.
  - cbn [fisher_loop List.length]. rewrite S_INR. cbv zeta.
    assert (Hsq : 0 <= a * a / 4).
    { pose proof (Rle_0_sqr a) as H. unfold Rsqr in H. lra. }
    destruct (Rlt_dec (-500) (a * (theta - b)));
      [destruct (Rlt_dec (a * (theta - b)) 500)|].
    + pose proof (logistic_open_unit (a * (theta - b))) as Hp.
      set (p := 1 / (1 + exp (- (a * (theta - b))))) in *.
      assert (Hquarter : p * (1 - p) <= 1 / 4).
      { pose proof (Rle_0_sqr (p - 1 / 2)) as Hs. unfold Rsqr in Hs. lra. }
      assert (Hterm : a * a * p * (1 - p) <= a * a / 4).
      { rewrite Rmult_assoc. replace (a * a / 4) with (a * a * (1 / 4)) by lra.
        apply Rmult_le_compat_l; [lra|exact Hquarter]. }
      specialize (IH (total_info + a * a * p * (1 - p))). lra.
    + specialize (IH total_info). lra.
    + specialize (IH total_info). lra.
Qed.

(** X9.  For an item with at most four thresholds and a discrimination
    between -5 and 5, the standard error [update_theta] returns stays above
    the engine's [target_se] of 0.20, whatever theta and the response: it is
    computed from the information of that one item, at most the squared
    discrimination. *)
Theorem update_theta_standard_error_above_target (current_theta : R)
  (item : PersonalityItem) (response : Z) :
  (List.length (difficulty_thresholds item) <= 4)%nat ->
  -5 < discrimination item < 5 ->
  exists new_theta se,
    update_theta current_theta item response = Ok (new_theta, se) /\
    target_se < se.
Proof.
  intros Hlen Ha. unfold update_theta.
  destruct (cat_grm_probability_floor current_theta item response)
    as (p & -> & _). cbn [bind].
  set (new_theta := py_max (-3) (py_min 3 _)).
  unfold fisher_information. cbn [bind].
  pose proof (cat_fisher_loop_upper new_theta (discrimination item)
                (difficulty_thresholds item) 0) as Hup.
  set (info := fisher_loop new_theta (discrimination item)
                 (difficulty_thresholds item) 0) in *.
  assert (Hn : INR (List.length (difficulty_thresholds item)) <= 4).
  { replace 4 with (INR 4) by (cbn; lra). now apply le_INR. }
  assert (Hsq : 0 <= discrimination item * discrimination item / 4 < 25 / 4).
  { pose proof (Rle_0_sqr (discrimination item)) as H. unfold Rsqr in H.
    split; [lra|nra]. }
  assert (Hinfo : info < 25) by nra.
  unfold target_se.
  destruct (Rlt_dec 0 info) as [Hpos|Hzero].
  - pose proof (sqrt_lt_R0 info Hpos) as Hs.
    unfold py_div. destruct (Req_dec_T (sqrt info) 0); [lra|]. cbn [bind].
    eexists _, _. split; [reflexivity|].
    assert (Hs5 : sqrt info < 5).
    { replace 5 with (sqrt 25).
      - apply sqrt_lt_1; lra.
      - replace 25 with (5 * 5) by lra. apply sqrt_square. lra. }
    apply (Rmult_lt_reg_r (sqrt info)); [lra|].
    unfold Rdiv. rewrite Rmult_assoc, Rinv_l by lra. lra.
  - cbn [bind]. eexists _, _. split; [reflexivity|lra].
Qed.

Lemma update_theta_standard_error_above_target_witness :
  exists new_theta se,
    update_theta 0 sample_item 4 = Ok (new_theta, se) /\
    target_se < se.
Proof.
  apply (update_theta_standard_error_above_target 0 sample_item 4).
  - cbn. lia.
  - cbn. lra.
Defined.

End CatStandardError.

(* ===================================================================== *)
(** * Properties of assessment_session.py                                *)
(* ===================================================================== *)

Section SessionFacts.
Import PyReal IrtCatEngine AssessmentSession Notions MoreNotions Inputs.
Local Open Scope R_scope.

Lemma py_in_In (x : string) (l : list string) : py_in x l = true <-> In x l.
Proof.
  unfold py_in. rewrite existsb_exists. split.
  - intros (y & Hin & Heq). apply String.eqb_eq in Heq. now subst.
  - intros Hin. exists x. split; [exact Hin|apply String.eqb_refl].
Qed.

Lemma py_in_not_In (x : string) (l : list string) :
  py_in x l = false <-> ~ In x l.
Proof.
  rewrite <- py_in_In. destruct (py_in x l); split; congruence.
Qed.

Lemma random_choice_some {A : Type} (draw : nat) (first : A) (rest : list A) :
  exists x, random_choice draw (first :: rest) = Some x
            /\ In x (first :: rest).
Proof.
  unfold random_choice.
  destruct (nth_error (first :: rest)
              (draw mod List.length (first :: rest))) as [x|] eqn:E.
  - exists x. split; [reflexivity|]. eapply nth_error_In, E.
  - apply nth_error_None in E.
    pose proof (Nat.mod_upper_bound draw (List.length (first :: rest))
                  ltac:(discriminate)).
    lia.
Qed.

(** What [select_next_question] returns, case by case. *)
Lemma select_next_question_cases (self : AssessmentSession) (draw : nat) :
  match select_next_question self draw with
  | None =>
      List.Forall (fun item => In (item_id item) (administered_items self))
        (items self)
  | Some item =>
      In item (items self) /\
      ~ In (item_id item) (administered_items self) /\
      (~ In (dimension item) (dimensions_asked self) \/
       List.Forall
         (fun other => In (item_id other) (administered_items self)
                       \/ In (dimension other) (dimensions_asked self))
         (items self))
  end.
Proof.
  unfold select_next_question. fold (dimensions_asked self).
  set (available :=
         List.filter
           (fun item => negb (py_in (item_id item) (administered_items self)))
           (items self)).
  assert (Havail : forall item, In item available <->
            In item (items self)
            /\ ~ In (item_id item) (administered_items self)).
  { intros item. unfold available. rewrite filter_In, negb_true_iff.
    now rewrite py_in_not_In. }
  destruct available as [|first rest] eqn:E.
  { apply List.Forall_forall. intros item Hin.
    destruct (in_dec string_dec (item_id item) (administered_items self))
      as [Hyes|Hno]; [exact Hyes|].
    destruct (proj2 (Havail item) (conj Hin Hno)). }
  destruct (List.find _ (first :: rest)) as [item|] eqn:F.
  - apply find_some in F as [Hin Hdim].
    apply Havail in Hin as [Hin Hfresh].
    split; [exact Hin|]. split; [exact Hfresh|]. left.
    apply negb_true_iff in Hdim. now apply py_in_not_In.
  - destruct (random_choice_some draw first rest) as (item & -> & Hin).
    apply Havail in Hin as [Hin Hfresh].
    split; [exact Hin|]. split; [exact Hfresh|]. right.
    apply List.Forall_forall. intros other Hother.
    destruct (in_dec string_dec (item_id other) (administered_items self))
      as [Hyes|Hno]; [now left|right].
    pose proof (find_none _ _ F other (proj2 (Havail other) (conj Hother Hno)))
      as Hdim.
    apply negb_false_iff in Hdim. now apply py_in_In.
Qed.

(** X10.  [select_next_question] returns [None] only when every item of the
    bank is administered.  Otherwise it returns a bank item that is not yet
    administered, whatever the random draw; and the item is of a dimension
    already asked only when every item not yet administered is. *)
Theorem select_next_question_policy (self : AssessmentSession) (draw : nat) :
  match select_next_question self draw with
  | None =>
      List.Forall (fun item => In (item_id item) (administered_items self))
        (items self)
  | Some item =>
      In item (items self) /\
      ~ In (item_id item) (administered_items self) /\
      (~ In (dimension item) (dimensions_asked self) \/
       List.Forall
         (fun other => In (item_id other) (administered_items self)
                       \/ In (dimension other) (dimensions_asked self))
         (items self))
  end.
Proof. apply select_next_question_cases. Qed.

(** One successful [process_response]. *)
Lemma process_response_known (self : AssessmentSession)
  (item : PersonalityItem) (response : Z) (current : R) :
  theta_estimates self !! dimension item = Some current ->
  exists new_theta,
    process_response self item response
    = (mkAssessmentSession (items self)
         (user_responses self ++ [(item_id item, response)])
         (<[dimension item := new_theta]> (theta_estimates self))
         (administered_items self ++ [item_id item]), Ok tt) /\
    -3 <= new_theta <= 3 /\
    new_theta = response_step current response.
Proof.
  intros Hkey. unfold process_response. cbn [theta_estimates].
  rewrite Hkey.
  destruct (update_theta_value current item response) as (se & -> & _).
  exists (response_step current response).
  split; [reflexivity|]. split; [|reflexivity].
  unfold response_step. cbv zeta.
  generalize (if (4 <=? response)%Z then current + 0.2
              else if (response <=? 2)%Z then current - 0.2 else current).
  intros moved. unfold Rmin. destruct (Rle_dec _ _);
    unfold Rmax; destruct (Rle_dec _ _); lra.
Qed.

(** X11.  A run of [process_response] over items whose dimensions the
    session tracks never raises.  It keeps the set of tracked dimensions,
    keeps every estimate within [-3, 3] if they started there, and appends
    exactly the answered items, in order, to both logs. *)
Theorem process_all_invariant (self : AssessmentSession)
  (answers : list (PersonalityItem * Z)) :
  map_Forall (fun _ theta => -3 <= theta <= 3) (theta_estimates self) ->
  List.Forall
    (fun answer => is_Some (theta_estimates self !! dimension (fst answer)))
    answers ->
  exists final,
    process_all self answers = (final, Ok tt) /\
    map_Forall (fun _ theta => -3 <= theta <= 3) (theta_estimates final) /\
    dom (theta_estimates final) = dom (theta_estimates self) /\
    administered_items final
    = administered_items self ++ List.map (fun answer => item_id (fst answer)) answers /\
    user_responses final
    = user_responses self
      ++ List.map (fun answer => (item_id (fst answer), snd answer)) answers /\
    items final = items self.
Proof.
  revert self. induction answers as [|[item response] answers IH];
    intros self Hbound Hkeys.
  - exists self. cbn [process_all List.map]. rewrite !app_nil_r.
    split; [reflexivity|]. split; [exact Hbound|].
    repeat (split; [reflexivity|]). reflexivity.
  - apply List.Forall_cons_iff in Hkeys as [[current Hkey] Hkeys].
    cbn [fst] in Hkey.
    destruct (process_response_known self item response current Hkey)
      as (new_theta & Hstep & Hnew & _).
    cbn [process_all]. rewrite Hstep.
    set (next := mkAssessmentSession _ _ _ _).
    assert (Hdom : dom (theta_estimates next) = dom (theta_estimates self)).
    { cbn. apply dom_insert_lookup_L. eauto. }
    destruct (IH next) as (final & -> & Hb & Hd & Ha & Hu & Hi).
    + cbn. apply map_Forall_insert_2; assumption.
    + eapply List.Forall_impl; [|exact Hkeys].
      intros answer Hsome. cbn beta in *.
      apply elem_of_dom. rewrite Hdom. now apply elem_of_dom.
    + exists final. split; [reflexivity|]. split; [exact Hb|].
      split; [congruence|].
      cbn [List.map fst snd]. rewrite Ha, Hu, Hi. cbn.
      rewrite <- !app_assoc. repeat split.
Qed.

Lemma process_all_invariant_witness :
  exists final,
    process_all
      (mkAssessmentSession [sample_item] []
         (<["innovativeness"%string := 0]> ∅) [])
      [(sample_item, 4%Z)] = (final, Ok tt) /\
    map_Forall (fun _ theta => -3 <= theta <= 3) (theta_estimates final) /\
    dom (theta_estimates final)
    = dom (theta_estimates
             (mkAssessmentSession [sample_item] []
                (<["innovativeness"%string := 0]> ∅) [])) /\
    administered_items final
    = administered_items
        (mkAssessmentSession [sample_item] []
           (<["innovativeness"%string := 0]> ∅) [])
      ++ List.map (fun answer => item_id (fst answer)) [(sample_item, 4%Z)] /\
    user_responses final
    = user_responses
        (mkAssessmentSession [sample_item] []
           (<["innovativeness"%string := 0]> ∅) [])
      ++ List.map (fun answer => (item_id (fst answer), snd answer))
           [(sample_item, 4%Z)] /\
    items final
    = items (mkAssessmentSession [sample_item] []
               (<["innovativeness"%string := 0]> ∅) []).
Proof.
  apply (process_all_invariant
           (mkAssessmentSession [sample_item] []
              (<["innovativeness"%string := 0]> ∅) [])
           [(sample_item, 4%Z)]).
  - cbn. apply map_Forall_insert_2; [lra|apply map_Forall_empty].
  - apply List.Forall_cons; [|apply List.Forall_nil].
    cbn. rewrite lookup_insert_eq. eauto.
Defined.

End SessionFacts.

Section SessionEdges.
Import PyReal PyNumbers IrtCatEngine IrtCatPercentile AssessmentSession.
Import Notions MoreNotions Inputs.
Local Open Scope R_scope.

(** X12.  A response to an item whose dimension the session does not track
    raises [KeyError] after both logs were extended: no estimate changes, yet
    the item counts as administered, and [select_next_question] never offers
    it again. *)
Theorem process_response_unknown_dimension (self : AssessmentSession)
  (item : PersonalityItem) (response : Z) :
  theta_estimates self !! dimension item = None ->
  exists after,
    process_response self item response = (after, Raise KeyError) /\
    theta_estimates after = theta_estimates self /\
    administered_items after = administered_items self ++ [item_id item] /\
    user_responses after
    = user_responses self ++ [(item_id item, response)] /\
    forall draw, select_next_question after draw <> Some item.
Proof.
  intros Hkey. unfold process_response. cbn [theta_estimates].
  rewrite Hkey. eexists. split; [reflexivity|].
  repeat (split; [reflexivity|]).
  intros draw Hsel.
  pose proof (select_next_question_cases
                (mkAssessmentSession (items self)
                   (user_responses self ++ [(item_id item, response)])
                   (theta_estimates self)
                   (administered_items self ++ [item_id item])) draw) as H.
  rewrite Hsel in H. destruct H as (_ & Hfresh & _).
  apply Hfresh. cbn. apply in_or_app. right. now left.
Qed.

Lemma process_response_unknown_dimension_witness :
  exists after,
    process_response (mkAssessmentSession [sample_item] [] ∅ [])
      sample_item 4
    = (after, Raise KeyError) /\
    theta_estimates after
    = theta_estimates (mkAssessmentSession [sample_item] [] ∅ []) /\
    administered_items after
    = administered_items (mkAssessmentSession [sample_item] [] ∅ [])
      ++ [item_id sample_item] /\
    user_responses after
    = user_responses (mkAssessmentSession [sample_item] [] ∅ [])
      ++ [(item_id sample_item, 4%Z)] /\
    forall draw, select_next_question after draw <> Some sample_item.
Proof.
  apply (process_response_unknown_dimension
           (mkAssessmentSession [sample_item] [] ∅ []) sample_item 4).
  apply lookup_empty.
Defined.

(** The label of a percentile, read as a function of theta. *)
Lemma interpret_score_label (theta : R) :
  interpret_score (theta_to_percentile theta) = theta_label theta.
Proof.
  unfold theta_to_percentile, theta_label, interpret_score. cbv zeta.
  set (x := (theta + 3.0) / 6.0 * 98).
  assert (Hge : forall n, (0 <= n)%Z -> IZR n <= x -> (n <= py_int x)%Z)
    by (intros n Hn Hx; now apply py_int_at_least).
  assert (Hlt : forall n, (0 <= n)%Z -> x < IZR (n + 1) -> (py_int x <= n)%Z)
    by (intros n Hn Hx; now apply py_int_at_most).
  destruct (Rle_dec (90 / 49) theta) as [Hcasea|Hcasea].
  { pose proof (Hge 79%Z ltac:(lia) ltac:(unfold x; lra)).
    destruct (Z.leb_spec 80 (Z.max 1 (Z.min 99 (py_int x + 1)))); [reflexivity|lia]. }
  pose proof (Hlt 78%Z ltac:(lia) ltac:(unfold x; rewrite plus_IZR; lra)).
  destruct (Z.leb_spec 80 (Z.max 1 (Z.min 99 (py_int x + 1)))); [lia|].
  destruct (Rle_dec (30 / 49) theta) as [Hcaseb|Hcaseb].
  { pose proof (Hge 59%Z ltac:(lia) ltac:(unfold x; lra)).
    destruct (Z.leb_spec 60 (Z.max 1 (Z.min 99 (py_int x + 1)))); [reflexivity|lia]. }
  pose proof (Hlt 58%Z ltac:(lia) ltac:(unfold x; rewrite plus_IZR; lra)).
  destruct (Z.leb_spec 60 (Z.max 1 (Z.min 99 (py_int x + 1)))); [lia|].
  destruct (Rle_dec (- 30 / 49) theta) as [Hcasec|Hcasec].
  { pose proof (Hge 39%Z ltac:(lia) ltac:(unfold x; lra)).
    destruct (Z.leb_spec 40 (Z.max 1 (Z.min 99 (py_int x + 1)))); [reflexivity|lia]. }
  pose proof (Hlt 38%Z ltac:(lia) ltac:(unfold x; rewrite plus_IZR; lra)).
  destruct (Z.leb_spec 40 (Z.max 1 (Z.min 99 (py_int x + 1)))); [lia|].
  destruct (Rle_dec (- 90 / 49) theta) as [Hcased|Hcased].
  { pose proof (Hge 19%Z ltac:(lia) ltac:(unfold x; lra)).
    destruct (Z.leb_spec 20 (Z.max 1 (Z.min 99 (py_int x + 1)))); [reflexivity|lia]. }
  pose proof (Hlt 18%Z ltac:(lia) ltac:(unfold x; rewrite plus_IZR; lra)).
  destruct (Z.leb_spec 20 (Z.max 1 (Z.min 99 (py_int x + 1)))); [lia|].
  reflexivity.
Qed.

(** X13.  [get_final_scores] gives every tracked dimension its theta, the
    percentile of that theta, and a label that depends on theta alone:
    "Sehr hoch" from 90/49 on, "Hoch" from 30/49, "Mittel" from -30/49,
    "Niedrig" from -90/49, and "Sehr niedrig" below. *)
Theorem get_final_scores_labels (self : AssessmentSession)
  (dimension : string) (theta : R) :
  theta_estimates self !! dimension = Some theta ->
  get_final_scores self !! dimension
  = Some (mkScore (theta_to_percentile theta) theta (theta_label theta)).
Proof.
  intros Hkey. unfold get_final_scores.
  rewrite lookup_fmap, Hkey. cbn. now rewrite interpret_score_label.
Qed.

Lemma get_final_scores_labels_witness :
  get_final_scores
    (mkAssessmentSession [] [] (<["innovativeness"%string := 2]> ∅) [])
  !! "innovativeness"%string
  = Some (mkScore (theta_to_percentile 2) 2 (theta_label 2)).
Proof.
  apply (get_final_scores_labels
           (mkAssessmentSession [] [] (<["innovativeness"%string := 2]> ∅) [])
           "innovativeness" 2).
  apply lookup_insert_eq.
Defined.

End SessionEdges.

(* ===================================================================== *)
(** * Further properties of the stopping rule                            *)
(* ===================================================================== *)

Section StoppingMore.
Import Integrated Notions Inputs.
Local Open Scope Q_scope.

(** When every standard error exceeds nine tenths of the target, no
    important trait counts as ready. *)
Lemma count_important_none_ready (session : Session) :
  0 <= target_se session ->
  map_Forall (fun _ se => 0.9 * target_se session < se)
    (se_estimates session) ->
  exists total, count_important session = (0%Z, total) /\ (0 <= total)%Z.
Proof.
  intros Htarget. unfold count_important.
  set (target := target_se session) in *.
  set (weights := context_weights session).
  clearbody target weights.
  apply (map_fold_weak_ind
           (fun acc m =>
              map_Forall (fun _ se => 0.9 * target < se) m ->
              exists total, acc = (0%Z, total) /\ (0 <= total)%Z)).
  - intros _. exists 0%Z. split; [reflexivity|lia].
  - intros dimension se m acc Hfresh IH Hall.
    apply map_Forall_insert in Hall as [Hse Hrest]; [|exact Hfresh].
    destruct (IH Hrest) as (total & -> & Htotal).
    unfold count_trait.
    destruct (Qle_bool 0.65 (default 0.5 (weights !! dimension)));
      [|exists total; split; [reflexivity|exact Htotal]].
    assert (Hnot : Qle_bool se
              (target * (if Qle_bool 0.8 (default 0.5 (weights !! dimension))
                         then 0.8 else 0.9)) = false).
    { apply not_true_is_false.
      destruct (Qle_bool 0.8 (default 0.5 (weights !! dimension)));
        intros Hle; apply Qle_bool_iff in Hle; Lqa.lra. }
    rewrite Hnot. exists (total + 1)%Z. split; [reflexivity|lia].
Qed.

(** Below the ceiling, a session none of whose traits can count as precise
    is continued and left as it is. *)
Lemma should_stop_assessment_continues (session : Session) :
  (current_item session < max_items session)%Z ->
  0 <= target_se session ->
  map_Forall (fun _ se => 0.9 * target_se session < se)
    (se_estimates session) ->
  should_stop_assessment session = (false, session).
Proof.
  intros Hbelow Htarget Hall. unfold should_stop_assessment.
  destruct (Z.leb_spec (max_items session) (current_item session)); [lia|].
  destruct (count_important_none_ready session Htarget Hall)
    as (total & -> & Htotal).
  cbv zeta.
  destruct (Z.ltb_spec 0 total) as [Hpos|Hzero].
  - destruct total as [|p|p]; try lia.
    change (Qle_bool 0.8 (inject_Z 0 / inject_Z (Z.pos p))) with false.
    destruct (current_item session <? 8)%Z; reflexivity.
  - destruct (current_item session <? 8)%Z; reflexivity.
Qed.

(** X14.  Below the ceiling, with a non-negative target, the rule continues
    and leaves the session untouched whenever every standard error is above
    nine tenths of the target: no trait, whatever its weight, can count as
    precise. *)
Theorem should_stop_assessment_needs_precision (session : Session) :
  (current_item session < max_items session)%Z ->
  0 <= target_se session ->
  map_Forall (fun _ se => 0.9 * target_se session < se)
    (se_estimates session) ->
  should_stop_assessment session = (false, session).
Proof. exact (should_stop_assessment_continues session). Qed.

Lemma should_stop_assessment_needs_precision_witness :
  should_stop_assessment
    (mkSession 12 18 0.20 (weights 0.85 0.80 0.75 0.70 0.65 0.45 0.55)
       (<["risk_taking"%string := 0.5]> ∅) None)
  = (false,
     mkSession 12 18 0.20 (weights 0.85 0.80 0.75 0.70 0.65 0.45 0.55)
       (<["risk_taking"%string := 0.5]> ∅) None).
Proof.
  apply (should_stop_assessment_needs_precision
           (mkSession 12 18 0.20 (weights 0.85 0.80 0.75 0.70 0.65 0.45 0.55)
              (<["risk_taking"%string := 0.5]> ∅) None)).
  - cbn. lia.
  - cbn. Lqa.lra.
  - cbn. apply map_Forall_insert_2; [Lqa.lra|apply map_Forall_empty].
Defined.

(** X15.  A session just started in a known business context, with a
    positive item ceiling and a target standard error from 0 up to, but not
    including, 10/9, is never stopped before its first item: every standard
    error starts at 1.0. *)
Theorem fresh_session_is_not_stopped (business_context : string)
  (target_se : Q) (max_items : Z) :
  is_Some (trait_weights !! business_context) ->
  0 <= target_se -> 9 * target_se < 10 -> (0 < max_items)%Z ->
  exists session,
    start_adaptive_assessment business_context target_se max_items
    = Ok session /\
    should_stop_assessment session = (false, session).
Proof.
  intros [context_weights Hctx] Hlow Hhigh Hmax.
  unfold start_adaptive_assessment. rewrite Hctx.
  eexists. split; [reflexivity|].
  apply should_stop_assessment_continues;
    cbn [current_item Integrated.max_items Integrated.target_se se_estimates];
    [lia|exact Hlow|].
  apply map_Forall_lookup. intros dimension se Hlookup.
  apply elem_of_list_to_map_2 in Hlookup.
  apply list_elem_of_In, in_map_iff in Hlookup as (dim & Heq & _).
  injection Heq as _ <-. Lqa.lra.
Qed.

Lemma fresh_session_is_not_stopped_witness :
  exists session,
    start_adaptive_assessment "restaurant" 0.20 15 = Ok session /\
    should_stop_assessment session = (false, session).
Proof.
  apply (fresh_session_is_not_stopped "restaurant" 0.20 15).
  - apply is_Some_alt. vm_compute. exact I.
  - Lqa.lra.
  - Lqa.lra.
  - lia.
Defined.

End StoppingMore.

(* ===================================================================== *)
(** * Properties of the estimates of integrated_assessment_system.py     *)
(* ===================================================================== *)

Section IntegratedIrtFacts.
Import PyReal PyNumbers IntegratedIrt Notions MoreNotions MoreInputs.
Local Open Scope R_scope.

Lemma response_probability_value (a theta d : R) :
  -709 <= a * (theta - d) ->
  response_probability a theta d = Ok (1 / (1 + exp (- (a * (theta - d))))).
Proof.
  intros Hz. unfold response_probability, math_exp, exp_overflow.
  destruct (Rlt_dec 709.78 (- a * (theta - d))); [lra|]. cbn [bind].
  replace (- a * (theta - d)) with (- (a * (theta - d))) by lra.
  unfold py_div. pose proof (exp_pos (- (a * (theta - d)))).
  destruct (Req_dec_T (1 + exp (- (a * (theta - d)))) 0); [lra|reflexivity].
Qed.

(** X16.  While the exponent is clear of the overflow of [math.exp],
    [calculate_fisher_information] lies between 0 and a quarter of the
    squared discrimination, and that quarter is its value at the item's
    difficulty: the information of an item peaks where theta meets its
    difficulty. *)
Theorem calculate_fisher_information_peaks_at_difficulty (theta : R)
  (item : BankItem) :
  -709 <= discrimination item * (theta - default 0 (difficulty item)) ->
  exists info,
    calculate_fisher_information theta item = Ok info /\
    calculate_fisher_information (default 0 (difficulty item)) item
    = Ok (discrimination item ^ 2 / 4) /\
    0 <= info <= discrimination item ^ 2 / 4.
Proof.
  intros Hz. unfold calculate_fisher_information. cbv zeta.
  replace 0.0 with 0 by lra.
  set (a := discrimination item) in *.
  set (d := default 0 (difficulty item)) in *.
  rewrite (response_probability_value a theta d Hz).
  rewrite (response_probability_value a d d) by lra.
  cbn [bind]. eexists. split; [reflexivity|]. split.
  - f_equal. replace (- (a * (d - d))) with 0 by lra. rewrite exp_0. lra.
  - pose proof (logistic_open_unit (a * (theta - d))) as Hp.
    set (p := 1 / (1 + exp (- (a * (theta - d))))) in *.
    pose proof (pow2_ge_0 a) as Ha2.
    assert (Hquarter : p * (1 - p) <= 1 / 4).
    { pose proof (Rle_0_sqr (p - 1 / 2)) as Hs. unfold Rsqr in Hs. lra. }
    assert (Hnonneg : 0 <= p * (1 - p)) by (apply Rmult_le_pos; lra).
    rewrite Rmult_assoc. split.
    + apply Rmult_le_pos; assumption.
    + replace (a ^ 2 / 4) with (a ^ 2 * (1 / 4)) by lra.
      apply Rmult_le_compat_l; assumption.
Qed.

Lemma calculate_fisher_information_peaks_at_difficulty_witness :
  exists info,
    calculate_fisher_information 2 risk_item = Ok info /\
    calculate_fisher_information (default 0 (difficulty risk_item)) risk_item
    = Ok (discrimination risk_item ^ 2 / 4) /\
    0 <= info <= discrimination risk_item ^ 2 / 4.
Proof.
  apply (calculate_fisher_information_peaks_at_difficulty 2 risk_item).
  cbn. lra.
Defined.

(** One successful [update_theta_estimate]. *)
Lemma update_theta_estimate_value (session : Estimates) (item : BankItem)
  (response : Z) (current : R) (se : Q) :
  theta_estimates session !! dimension item = Some current ->
  se_estimates session !! dimension item = Some se ->
  -3 <= current <= 3 ->
  -709 <= discrimination item * (current - default 0 (difficulty item)) ->
  exists new_theta,
    update_theta_estimate session item response
    = (mkEstimates (<[dimension item := new_theta]> (theta_estimates session))
         (<[dimension item := (se * 0.9)%Q]> (se_estimates session)), Ok tt) /\
    -3 <= new_theta <= 3 /\
    (if (4 <=? response)%Z
     then current <= new_theta <= current + 0.3
     else current - 0.3 <= new_theta <= current).
Proof.
  intros Htheta Hse Hrange Hz. unfold update_theta_estimate. cbv zeta.
  rewrite Htheta. replace 0.0 with 0 by lra.
  rewrite (response_probability_value _ _ _ Hz).
  cbn [se_estimates theta_estimates]. rewrite Hse.
  eexists. split; [reflexivity|].
  pose proof (logistic_open_unit
                (discrimination item * (current - default 0 (difficulty item))))
    as Hp.
  set (p := 1 / (1 + exp _)) in *.
  replace 3.0 with 3 by lra.
  destruct (4 <=? response)%Z; rewrite py_max_Rmax, py_min_Rmin;
    unfold Rmin; destruct (Rle_dec _ _);
    unfold Rmax; destruct (Rle_dec _ _); lra.
Qed.

(** X17.  With both estimates of the item's dimension present, the current
    theta in [-3, 3] and the exponent clear of overflow,
    [update_theta_estimate] keeps theta in [-3, 3] and moves it by at most
    0.3: upwards or not at all for a response of 4 or 5, downwards or not at
    all for every other response, the neutral 3 included.  The standard
    error of the dimension is multiplied by 0.9 whatever the item and the
    response. *)
Theorem update_theta_estimate_step (session : Estimates) (item : BankItem)
  (response : Z) (current : R) (se : Q) :
  theta_estimates session !! dimension item = Some current ->
  se_estimates session !! dimension item = Some se ->
  -3 <= current <= 3 ->
  -709 <= discrimination item * (current - default 0 (difficulty item)) ->
  exists new_theta,
    update_theta_estimate session item response
    = (mkEstimates (<[dimension item := new_theta]> (theta_estimates session))
         (<[dimension item := (se * 0.9)%Q]> (se_estimates session)), Ok tt) /\
    -3 <= new_theta <= 3 /\
    (if (4 <=? response)%Z
     then current <= new_theta <= current + 0.3
     else current - 0.3 <= new_theta <= current).
Proof. apply update_theta_estimate_value. Qed.

Lemma update_theta_estimate_step_witness :
  exists new_theta,
    update_theta_estimate risk_estimates risk_item 3
    = (mkEstimates
         (<[dimension risk_item := new_theta]> (theta_estimates risk_estimates))
         (<[dimension risk_item := (1.0 * 0.9)%Q]>
            (se_estimates risk_estimates)), Ok tt) /\
    -3 <= new_theta <= 3 /\
    (if (4 <=? 3)%Z
     then 0 <= new_theta <= 0 + 0.3
     else 0 - 0.3 <= new_theta <= 0).
Proof.
  apply (update_theta_estimate_step risk_estimates risk_item 3 0 1.0%Q).
  - apply lookup_insert_eq.
  - apply lookup_insert_eq.
  - lra.
  - cbn. lra.
Defined.

End IntegratedIrtFacts.

Section IntegratedRuns.
Import PyReal PyNumbers IntegratedIrt Notions MoreNotions MoreInputs.
Local Open Scope R_scope.

(** X18.  Over any run of responses to tame items of one dimension, started
    with that dimension's theta in [-3, 3], [update_theta_estimate] never
    raises, keeps theta in [-3, 3], and leaves the dimension's standard error
    at its initial value multiplied by 0.9 once per response: the standard
    error counts responses and nothing else. *)
Theorem update_all_decays_standard_error (session : Estimates)
  (answers : list (BankItem * Z)) (tracked : string) (theta0 : R) (se0 : Q) :
  theta_estimates session !! tracked = Some theta0 ->
  -3 <= theta0 <= 3 ->
  se_estimates session !! tracked = Some se0 ->
  List.Forall
    (fun answer => dimension (fst answer) = tracked /\ tame (fst answer))
    answers ->
  exists final theta,
    update_all session answers = (final, Ok tt) /\
    theta_estimates final !! tracked = Some theta /\
    -3 <= theta <= 3 /\
    se_estimates final !! tracked
    = Some (Nat.iter (List.length answers) (fun se => (se * 0.9)%Q) se0).
Proof.
  revert session theta0 se0.
  induction answers as [|[item response] answers IH];
    intros session theta0 se0 Htheta Hrange Hse Hall.
  - exists session, theta0. cbn. auto.
  - apply List.Forall_cons_iff in Hall as [[Hdim Htame] Hall].
    cbn [fst] in Hdim, Htame. subst tracked.
    destruct (update_theta_estimate_value session item response theta0 se0
                Htheta Hse Hrange (Htame theta0 Hrange))
      as (new_theta & Hstep & Hnew & _).
    cbn [update_all]. rewrite Hstep.
    destruct (IH (mkEstimates
                    (<[dimension item := new_theta]> (theta_estimates session))
                    (<[dimension item := (se0 * 0.9)%Q]> (se_estimates session)))
                new_theta (se0 * 0.9)%Q)
      as (final & theta & -> & Hfinal & Hbound & Hdecay).
    + cbn. apply lookup_insert_eq.
    + exact Hnew.
    + cbn. apply lookup_insert_eq.
    + exact Hall.
    + exists final, theta. split; [reflexivity|]. split; [exact Hfinal|].
      split; [exact Hbound|].
      rewrite Hdecay. cbn [List.length]. now rewrite Nat.iter_succ_r.
Qed.

Lemma update_all_decays_standard_error_witness :
  exists final theta,
    update_all risk_estimates [(risk_item, 5%Z); (risk_item, 3%Z)]
    = (final, Ok tt) /\
    theta_estimates final !! "risk_taking"%string = Some theta /\
    -3 <= theta <= 3 /\
    se_estimates final !! "risk_taking"%string
    = Some (Nat.iter (List.length [(risk_item, 5%Z); (risk_item, 3%Z)])
              (fun se => (se * 0.9)%Q) 1.0%Q).
Proof.
  apply (update_all_decays_standard_error risk_estimates
           [(risk_item, 5%Z); (risk_item, 3%Z)] "risk_taking" 0 1.0%Q).
  - apply lookup_insert_eq.
  - lra.
  - apply lookup_insert_eq.
  - assert (Htame : tame risk_item) by (intros theta Ht; cbn; lra).
    repeat (apply List.Forall_cons; [split; [reflexivity|exact Htame]|]).
    apply List.Forall_nil.
Defined.

End IntegratedRuns.

(* ===================================================================== *)
(** * integrated_assessment_system.py : the analysis of a session        *)
(* ===================================================================== *)

Section RationalFacts.
Import PyRational.
Local Open Scope Q_scope.

Lemma Qlt_bool_iff (a b : Q) : Qlt_bool a b = true <-> a < b.
Proof.
  unfold Qlt_bool. rewrite negb_true_iff. split.
  - intros H. apply Qnot_le_lt. intros Hle.
    apply Qle_bool_iff in Hle. congruence.
  - intros H. destruct (Qle_bool b a) eqn:E; [|reflexivity].
    apply Qle_bool_iff in E. exfalso. exact (Qlt_not_le _ _ H E).
Qed.

Lemma Qlt_bool_false (a b : Q) : Qlt_bool a b = false <-> b <= a.
Proof.
  unfold Qlt_bool. rewrite negb_false_iff. apply Qle_bool_iff.
Qed.

Lemma py_max_cases (a b : Q) :
  (a < b /\ py_max a b = b) \/ (b <= a /\ py_max a b = a).
Proof.
  unfold py_max. destruct (Qlt_bool a b) eqn:E.
  - left. split; [now apply Qlt_bool_iff|reflexivity].
  - right. split; [now apply Qlt_bool_false|reflexivity].
Qed.

Lemma py_min_cases (a b : Q) :
  (b < a /\ py_min a b = b) \/ (a <= b /\ py_min a b = a).
Proof.
  unfold py_min. destruct (Qlt_bool b a) eqn:E.
  - left. split; [now apply Qlt_bool_iff|reflexivity].
  - right. split; [now apply Qlt_bool_false|reflexivity].
Qed.

Lemma rational_int_floor (x : Q) : 0 <= x -> py_int x = Qround.Qfloor x.
Proof.
  destruct x as [n d]. unfold Qle, py_int. cbn. intros H.
  apply Z.quot_div_nonneg; lia.
Qed.

Lemma rational_int_ceiling (x : Q) : x <= 0 -> py_int x = Qround.Qceiling x.
Proof.
  destruct x as [n d]. unfold Qle, py_int, Qround.Qceiling. cbn. intros H.
  rewrite <- (Z.opp_involutive n) at 1.
  rewrite Z.quot_opp_l by lia. f_equal.
  apply Z.quot_div_nonneg; lia.
Qed.

Lemma rational_int_monotone (x y : Q) : x <= y -> (py_int x <= py_int y)%Z.
Proof.
  intros Hxy.
  destruct (Qlt_le_dec x 0) as [Hx|Hx], (Qlt_le_dec y 0) as [Hy|Hy].
  - rewrite !rational_int_ceiling by Lqa.lra. now apply Qround.Qceiling_resp_le.
  - rewrite (rational_int_ceiling x), (rational_int_floor y) by Lqa.lra.
    assert (Qround.Qceiling x <= Qround.Qceiling 0)%Z by (apply Qround.Qceiling_resp_le; Lqa.lra).
    assert (Qround.Qfloor 0 <= Qround.Qfloor y)%Z by (apply Qround.Qfloor_resp_le; Lqa.lra).
    change (Qround.Qceiling 0) with 0%Z in *. change (Qround.Qfloor 0) with 0%Z in *. lia.
  - Lqa.lra.
  - rewrite !rational_int_floor by Lqa.lra. now apply Qround.Qfloor_resp_le.
Qed.

End RationalFacts.

Section ReportPercentile.
Import PyRational IntegratedReport.
Local Open Scope Q_scope.

(** X19.  The percentile of the integrated system never decreases when
    theta grows, and it always lies between 1 and 99. *)
Theorem report_percentile_monotone (theta theta' : Q) :
  theta <= theta' ->
  (1 <= theta_to_percentile theta)%Z /\
  (theta_to_percentile theta <= theta_to_percentile theta')%Z /\
  (theta_to_percentile theta' <= 99)%Z.
Proof.
  intros Hle. unfold theta_to_percentile.
  assert (H : (py_int ((theta + 3) / 6 * 100)
               <= py_int ((theta' + 3) / 6 * 100))%Z).
  { apply rational_int_monotone. unfold Qdiv. change (/ 6) with (1 # 6). Lqa.lra. }
  lia.
Qed.

Lemma report_percentile_monotone_witness :
  (1 <= theta_to_percentile (-0.5))%Z /\
  (theta_to_percentile (-0.5) <= theta_to_percentile 1.2)%Z /\
  (theta_to_percentile 1.2 <= 99)%Z.
Proof. apply (report_percentile_monotone (-0.5) 1.2). Lqa.lra. Defined.

End ReportPercentile.

Section ReportInteraction.
Import PyRational IntegratedReport.
Local Open Scope Q_scope.

Lemma friction_patterns_pairs (target : string) (pattern : Pattern) :
  friction_patterns !! target = Some pattern ->
  exists t1 t2, traits pattern = [t1; t2].
Proof.
  unfold friction_patterns, friction_pattern_items. intros H.
  apply elem_of_list_to_map_2, list_elem_of_In in H. cbn [In] in H.
  destruct H as [H|[H|[H|[]]]]; injection H as _ <-; cbn; eauto.
Qed.

Lemma uncertainty_range (theta : Q) :
  0 <= 1.0 - py_min 1.0 (Qabs.Qabs theta / 2.0) <= 1.
Proof.
  pose proof (Qabs.Qabs_nonneg theta) as Hn.
  assert (Hd : 0 <= Qabs.Qabs theta / 2.0)
    by (unfold Qdiv; change (/ 2.0) with (10 # 20); Lqa.lra).
  destruct (py_min_cases 1.0 (Qabs.Qabs theta / 2.0)) as [[H ->]|[H ->]];
    Lqa.lra.
Qed.

(** X20.  [assess_interaction_information_need] never raises and returns a
    value between 0 and 1; for a target that names no friction pattern the
    value is 0.0. *)
Theorem assess_interaction_information_need_range
  (theta_estimates : gmap string Q) (interaction_target : string) :
  exists need,
    assess_interaction_information_need theta_estimates interaction_target
    = Ok need /\
    0 <= need <= 1 /\
    (is_Some (friction_patterns !! interaction_target) \/ need = 0.0).
Proof.
  unfold assess_interaction_information_need.
  destruct (String.eqb interaction_target "").
  { exists 0.0. repeat split; [Lqa.lra|Lqa.lra|now right]. }
  destruct (friction_patterns !! interaction_target) as [pattern|] eqn:E.
  2: { exists 0.0. repeat split; [Lqa.lra|Lqa.lra|now right]. }
  destruct (friction_patterns_pairs _ _ E) as (t1 & t2 & ->).
  cbn [fold_left div_by_len List.length].
  eexists. split; [reflexivity|]. split; [|left; eauto].
  pose proof (uncertainty_range (default 0.0 (theta_estimates !! t1))) as H1.
  pose proof (uncertainty_range (default 0.0 (theta_estimates !! t2))) as H2.
  unfold Qdiv at 1 4. change (/ inject_Z (Z.of_nat 2)) with (1 # 2).
  Lqa.lra.
Qed.

End ReportInteraction.

Section ReportContext.
Import PyRational IntegratedReport.
Local Open Scope Q_scope.

Lemma weights_range (w1 w2 w3 w4 w5 w6 w7 : Q) (trait : string) :
  0 < w1 <= 1 -> 0 < w2 <= 1 -> 0 < w3 <= 1 -> 0 < w4 <= 1 ->
  0 < w5 <= 1 -> 0 < w6 <= 1 -> 0 < w7 <= 1 ->
  0 < default 0.5 (Integrated.weights w1 w2 w3 w4 w5 w6 w7 !! trait) <= 1.
Proof.
  intros H1 H2 H3 H4 H5 H6 H7.
  destruct (Integrated.weights w1 w2 w3 w4 w5 w6 w7 !! trait) as [w|] eqn:E;
    cbn [default]; [|Lqa.lra].
  unfold Integrated.weights in E.
  apply elem_of_list_to_map_2, list_elem_of_In in E. cbn [In] in E.
  destruct E as [E|[E|[E|[E|[E|[E|[E|[]]]]]]]]; injection E as _ <-;
    assumption.
Qed.

Lemma trait_weights_range (business_context trait : string)
  (context_weights : gmap string Q) :
  Integrated.trait_weights !! business_context = Some context_weights ->
  0 < default 0.5 (context_weights !! trait) <= 1.
Proof.
  unfold Integrated.trait_weights. intros H.
  apply elem_of_list_to_map_2, list_elem_of_In in H. cbn [In] in H.
  destruct H as [H|[H|[H|[H|[]]]]]; injection H as _ <-;
    apply weights_range; Lqa.lra.
Qed.

(** The loop of [calculate_context_weighted_scores] keeps the weighted total
    between the two bounds times the total weight. *)
Lemma weigh_trait_fold (context_weights : gmap string Q) (low high : Q)
  (theta_scores : list (string * Q)) :
  (forall trait, 0 < default 0.5 (context_weights !! trait)) ->
  List.Forall (fun entry => low * 6 - 3 <= snd entry <= high * 6 - 3)
    theta_scores ->
  forall weighted_scores total_weighted total_weight,
    0 <= total_weight ->
    low * total_weight <= total_weighted <= high * total_weight ->
    exists weighted_scores' total_weighted' total_weight',
      fold_left (weigh_trait context_weights) theta_scores
        (weighted_scores, total_weighted, total_weight)
      = (weighted_scores', total_weighted', total_weight') /\
      total_weight <= total_weight' /\
      (theta_scores <> [] -> 0 < total_weight') /\
      low * total_weight' <= total_weighted' <= high * total_weight' /\
      List.map fst weighted_scores'
      = List.map fst weighted_scores ++ List.map fst theta_scores.
Proof.
  intros Hpos Hall. induction Hall as [|[trait theta] rest Hin Hrest IH];
    intros ws tw twt Htwt Hbounds.
  - exists ws, tw, twt. rewrite app_nil_r.
    repeat split; try tauto; Lqa.lra.
  - cbn [fold_left weigh_trait]. cbn [snd] in Hin.
    set (weight := default 0.5 (context_weights !! trait)).
    pose proof (Hpos trait) as Hw. fold weight in Hw.
    set (normalized := (theta + 3.0) / 6.0).
    assert (Hn : low <= normalized <= high).
    { unfold normalized, Qdiv. change (/ 6.0) with (10 # 60). Lqa.lra. }
    assert (Hlow : low * weight <= normalized * weight)
      by (apply Qmult_le_compat_r; Lqa.lra).
    assert (Hhigh : normalized * weight <= high * weight)
      by (apply Qmult_le_compat_r; Lqa.lra).
    destruct (IH (ws ++ [(trait,
                  mkTraitScore theta normalized weight (normalized * weight)
                    (if Qle_bool 0.8 weight then "critical"
                     else if Qle_bool 0.65 weight then "high"
                     else "moderate"))])
                (tw + normalized * weight) (twt + weight))
      as (ws' & tw' & twt' & Hfold & Hmono & _ & Hb & Hkeys);
      [Lqa.lra|Lqa.lra|].
    exists ws', tw', twt'. split; [exact Hfold|].
    split; [Lqa.lra|]. split; [intros _; Lqa.lra|]. split; [exact Hb|].
    rewrite Hkeys, List.map_app, <- app_assoc. reflexivity.
Qed.

(** X21.  In a business context of the weight table and for at least one
    trait, [calculate_context_weighted_scores] returns, and its context
    fitness is a weighted mean of the normalised thetas: when every theta
    lies between [low] and [high], the fitness lies between [(low + 3) / 6]
    and [(high + 3) / 6].  The weighted scores come in the order of the
    thetas. *)
Theorem context_fitness_is_weighted_mean
  (theta_scores : list (string * Q)) (business_context : string)
  (low high : Q) :
  is_Some (Integrated.trait_weights !! business_context) ->
  theta_scores <> [] ->
  List.Forall (fun entry => low <= snd entry <= high) theta_scores ->
  exists analysis,
    calculate_context_weighted_scores theta_scores business_context
    = Ok analysis /\
    (low + 3) / 6 <= context_fitness_score analysis <= (high + 3) / 6 /\
    List.map fst (weighted_scores analysis) = List.map fst theta_scores.
Proof.
  intros [context_weights Hctx] Hne Hall.
  unfold calculate_context_weighted_scores. rewrite Hctx.
  destruct (weigh_trait_fold context_weights ((low + 3) / 6) ((high + 3) / 6)
              theta_scores) with (weighted_scores := @nil (string * TraitScore))
              (total_weighted := 0.0) (total_weight := 0.0)
    as (ws & tw & twt & -> & _ & Hpos & Hb & Hkeys).
  - intros trait. apply (trait_weights_range business_context trait _ Hctx).
  - eapply List.Forall_impl; [|exact Hall]. cbn beta. intros entry H.
    unfold Qdiv. change (/ 6) with (1 # 6). Lqa.lra.
  - Lqa.lra.
  - Lqa.lra.
  - specialize (Hpos Hne).
    assert (E : Qlt_bool 0 twt = true) by now apply Qlt_bool_iff.
    rewrite E. eexists. split; [reflexivity|].
    cbn [context_fitness_score weighted_scores]. split; [|exact Hkeys].
    split.
    + apply Qle_shift_div_l; [exact Hpos|tauto].
    + apply Qle_shift_div_r; [exact Hpos|tauto].
Qed.

Lemma context_fitness_is_weighted_mean_witness :
  exists analysis,
    calculate_context_weighted_scores
      [("risk_taking"%string, 1.5); ("self_efficacy"%string, -0.5);
       ("stamina"%string, 0.25)] "consulting"
    = Ok analysis /\
    (-0.5 + 3) / 6 <= context_fitness_score analysis <= (1.5 + 3) / 6 /\
    List.map fst (weighted_scores analysis)
    = List.map fst
        [("risk_taking"%string, 1.5); ("self_efficacy"%string, -0.5);
         ("stamina"%string, 0.25)].
Proof.
  apply (context_fitness_is_weighted_mean
           [("risk_taking"%string, 1.5); ("self_efficacy"%string, -0.5);
            ("stamina"%string, 0.25)] "consulting" (-0.5) 1.5).
  - apply is_Some_alt. vm_compute. exact I.
  - discriminate.
  - repeat constructor; cbn; Lqa.lra.
Defined.

End ReportContext.

Section ReportFitness.
Import PyRational IntegratedReport.
Local Open Scope Q_scope.

(** X22.  The adjusted fitness of [assess_business_fitness] is never
    negative and never more than 0.3 below the context fitness; a negative
    net friction, which is a net synergy, lifts it strictly above the
    context fitness. *)
Theorem assess_business_fitness_adjustment
  (contextual_analysis : ContextualAnalysis)
  (friction_analysis : FrictionAnalysis) (business_context : string) :
  0 <= adjusted_fitness_score
         (assess_business_fitness contextual_analysis friction_analysis
            business_context) /\
  context_fitness_score contextual_analysis - 0.3
  <= adjusted_fitness_score
       (assess_business_fitness contextual_analysis friction_analysis
          business_context) /\
  (net_friction friction_analysis < 0 ->
   context_fitness_score contextual_analysis
   < adjusted_fitness_score
       (assess_business_fitness contextual_analysis friction_analysis
          business_context)).
Proof.
  unfold assess_business_fitness. cbn [adjusted_fitness_score].
  set (fitness := context_fitness_score contextual_analysis).
  set (net := net_friction friction_analysis). clearbody fitness net.
  destruct (py_min_cases 0.3 (net * 0.2)) as [[Hmin ->]|[Hmin ->]];
    match goal with
    | |- context [py_max 0.0 ?x] =>
        destruct (py_max_cases 0.0 x) as [[Hmax ->]|[Hmax ->]]
    end; (split; [|split; [|intros Hneg]]); Lqa.lra.
Qed.

Lemma known_context_has_info (business_context : string) :
  is_Some (Integrated.trait_weights !! business_context) ->
  exists context_info,
    business_contexts !! business_context = Some context_info /\
    0.55 <= approval_probability_base context_info <= 0.75 /\
    0.6 <= gruendungszuschuss_compatibility context_info <= 0.9.
Proof.
  intros [context_weights H]. unfold Integrated.trait_weights in H.
  apply elem_of_list_to_map_2, list_elem_of_In in H. cbn [In] in H.
  destruct H as [H|[H|[H|[H|[]]]]]; injection H as <- _;
    eexists; (split; [vm_compute; reflexivity|]); cbn; Lqa.lra.
Qed.

Lemma get_optimization_factors_known (business_fitness : BusinessFitness)
  (business_context : string) (context_info : ContextInfo) :
  business_contexts !! business_context = Some context_info ->
  exists factors,
    get_optimization_factors business_fitness business_context = Ok factors /\
    factors <> [].
Proof.
  intros H. unfold get_optimization_factors. rewrite H.
  eexists. split; [reflexivity|].
  match goal with
  | |- (match ?l with [] => _ | _ => _ end) <> [] => destruct l; discriminate
  end.
Qed.

(** X23.  In every business context of the weight table
    [optimize_gruendungszuschuss_probability] returns; its probability lies
    between 0.25 and 0.95 and does not decrease when the adjusted fitness
    grows. *)
Theorem gruendungszuschuss_probability_monotone
  (business_fitness business_fitness' : BusinessFitness)
  (business_context : string) :
  is_Some (Integrated.trait_weights !! business_context) ->
  adjusted_fitness_score business_fitness
  <= adjusted_fitness_score business_fitness' ->
  exists outlook outlook',
    optimize_gruendungszuschuss_probability business_fitness business_context
    = Ok outlook /\
    optimize_gruendungszuschuss_probability business_fitness' business_context
    = Ok outlook' /\
    0.25 <= probability outlook /\
    probability outlook <= probability outlook' /\
    probability outlook' <= 0.95.
Proof.
  intros Hctx Hle.
  destruct (known_context_has_info _ Hctx) as (context_info & Hinfo & _).
  destruct (get_optimization_factors_known business_fitness _ _ Hinfo)
    as (factors & Hfactors & _).
  destruct (get_optimization_factors_known business_fitness' _ _ Hinfo)
    as (factors' & Hfactors' & _).
  unfold optimize_gruendungszuschuss_probability.
  rewrite Hinfo, Hfactors, Hfactors'. cbn [bind].
  eexists. eexists. split; [reflexivity|]. split; [reflexivity|].
  cbn [probability].
  set (base := approval_probability_base context_info).
  set (compat := gruendungszuschuss_compatibility context_info).
  set (f := adjusted_fitness_score business_fitness) in *.
  set (f' := adjusted_fitness_score business_fitness') in *.
  clearbody base compat f f'.
  destruct (py_min_cases 0.95 (base + (f - 0.5) * 0.4 + (compat - 0.7) * 0.15))
    as [[Hmin ->]|[Hmin ->]];
  destruct (py_min_cases 0.95 (base + (f' - 0.5) * 0.4 + (compat - 0.7) * 0.15))
    as [[Hmin' ->]|[Hmin' ->]];
  repeat match goal with
    | |- context [py_max 0.25 ?x] =>
        let H := fresh "Hmax" in
        destruct (py_max_cases 0.25 x) as [[H ->]|[H ->]]
    end; repeat split; Lqa.lra.
Qed.

Lemma gruendungszuschuss_probability_monotone_witness :
  exists outlook outlook',
    optimize_gruendungszuschuss_probability
      (mkBusinessFitness 0.4 0 0.4 "challenging" [] []) "ecommerce"
    = Ok outlook /\
    optimize_gruendungszuschuss_probability
      (mkBusinessFitness 0.9 0 0.9 "excellent" [] []) "ecommerce"
    = Ok outlook' /\
    0.25 <= probability outlook /\
    probability outlook <= probability outlook' /\
    probability outlook' <= 0.95.
Proof.
  apply (gruendungszuschuss_probability_monotone
           (mkBusinessFitness 0.4 0 0.4 "challenging" [] [])
           (mkBusinessFitness 0.9 0 0.9 "excellent" [] []) "ecommerce").
  - apply is_Some_alt. vm_compute. exact I.
  - cbn. Lqa.lra.
Defined.

End ReportFitness.

(* ===================================================================== *)
(** * integrated_assessment_system.py : friction monitoring              *)
(* ===================================================================== *)

Section FrictionMonitoring.
Import PyRational IntegratedReport ReportNotions ReportInputs.
Local Open Scope Q_scope.

Lemma existing_In (pattern_id' : string) (detected : list Friction) :
  existsb (fun f => String.eqb (pattern_id f) pattern_id') detected = true
  <-> In pattern_id' (pattern_ids detected).
Proof.
  unfold pattern_ids. rewrite existsb_exists, in_map_iff. split.
  - intros (f & Hin & Heq). apply String.eqb_eq in Heq. eauto.
  - intros (f & Heq & Hin). exists f. split; [exact Hin|].
    now apply String.eqb_eq.
Qed.

(** What one pass of the loop over the patterns does to the identifiers. *)
Lemma monitor_pattern_ids (clock : string -> Z)
  (current_thetas : gmap string Q) (detected : list Friction)
  (pattern_id' : string) (pattern : Pattern) :
  exists added,
    monitor_pattern clock current_thetas detected (pattern_id', pattern)
    = detected ++ added /\
    (added = [] \/
     exists f, added = [f] /\ pattern_id f = pattern_id' /\
       severity f = Qabs.Qabs (severity_multiplier pattern) /\
       type f = (if Qlt_bool (severity_multiplier pattern) 0
                 then "synergy" else "friction")%string /\
       ~ In pattern_id' (pattern_ids detected)) /\
    (In pattern_id'
       (pattern_ids
          (monitor_pattern clock current_thetas detected
             (pattern_id', pattern)))
     <-> In pattern_id' (pattern_ids detected)
         \/ conditions_hold current_thetas (conditions pattern) = true).
Proof.
  unfold monitor_pattern.
  destruct (conditions_hold current_thetas (conditions pattern)).
  - destruct (existsb _ detected) eqn:E.
    + exists []. rewrite app_nil_r. split; [reflexivity|]. split; [now left|].
      apply existing_In in E. tauto.
    + eexists. split; [reflexivity|]. split.
      * right. eexists. split; [reflexivity|]. cbn.
        repeat split. intros Hin. apply existing_In in Hin. congruence.
      * unfold pattern_ids. rewrite List.map_app, in_app_iff. cbn. tauto.
  - exists []. rewrite app_nil_r. split; [reflexivity|]. split; [now left|].
    split; [tauto|]. intros [H|H]; [exact H|discriminate].
Qed.

Lemma monitored_app (detected : list Friction) (f : Friction) :
  monitored detected -> recorded f ->
  ~ In (pattern_id f) (pattern_ids detected) ->
  monitored (detected ++ [f]).
Proof.
  intros [Hnodup Hall] Hrec Hfresh. split.
  - unfold pattern_ids in *. rewrite List.map_app. cbn.
    apply List.NoDup_app.
    + exact Hnodup.
    + constructor; [intros []|constructor].
    + intros x Hx [<-|[]]. contradiction.
  - apply List.Forall_app. split; [exact Hall|].
    constructor; [exact Hrec|constructor].
Qed.

(** The loop over any table whose entries the dictionary holds. *)
Lemma monitor_fold (clock : string -> Z) (current_thetas : gmap string Q)
  (items : list (string * Pattern)) :
  List.Forall (fun entry => friction_patterns !! fst entry = Some (snd entry))
    items ->
  forall detected, monitored detected ->
    monitored (fold_left (monitor_pattern clock current_thetas) items detected)
    /\ exists added,
         fold_left (monitor_pattern clock current_thetas) items detected
         = detected ++ added.
Proof.
  induction 1 as [|[pattern_id' pattern] rest Hentry Hrest IH];
    intros detected Hmon; cbn [fold_left].
  - split; [exact Hmon|]. exists []. now rewrite app_nil_r.
  - destruct (monitor_pattern_ids clock current_thetas detected pattern_id'
                pattern) as (added & Hstep & Hadded & _).
    rewrite Hstep. cbn [fst snd] in Hentry.
    assert (Hmon' : monitored (detected ++ added)).
    { destruct Hadded as [->|(f & -> & Hid & Hsev & Htype & Hfresh)].
      - now rewrite app_nil_r.
      - apply monitored_app; [exact Hmon| |now rewrite Hid].
        unfold recorded. rewrite Hid, Hentry. now split. }
    destruct (IH _ Hmon') as (Hfinal & added' & Heq).
    split; [exact Hfinal|]. exists (added ++ added').
    now rewrite Heq, app_assoc.
Qed.

Lemma friction_pattern_items_lookup :
  List.Forall (fun entry => friction_patterns !! fst entry = Some (snd entry))
    friction_pattern_items.
Proof. repeat constructor. Qed.

(** X24.  [monitor_real_time_friction] keeps detected frictions monitored:
    no pattern is recorded twice, every record carries the severity and the
    type of its pattern in the table, and what was detected before stays in
    place in front of what is added. *)
Theorem monitor_real_time_friction_invariant {A : Type}
  (clock : string -> Z) (responses : list A)
  (current_thetas : gmap string Q) (detected : list Friction) :
  monitored detected ->
  monitored
    (monitor_real_time_friction clock responses current_thetas detected) /\
  exists added,
    monitor_real_time_friction clock responses current_thetas detected
    = detected ++ added.
Proof.
  intros Hmon. unfold monitor_real_time_friction.
  destruct (List.length responses <? 3)%nat.
  - split; [exact Hmon|]. exists []. now rewrite app_nil_r.
  - apply monitor_fold; [apply friction_pattern_items_lookup|exact Hmon].
Qed.

Lemma monitor_real_time_friction_invariant_witness :
  monitored
    (monitor_real_time_friction still_clock three_answers bold_thetas []) /\
  exists added,
    monitor_real_time_friction still_clock three_answers bold_thetas []
    = [] ++ added.
Proof.
  apply (monitor_real_time_friction_invariant still_clock three_answers
           bold_thetas []).
  split; constructor.
Defined.

End FrictionMonitoring.

Section FrictionDetection.
Import PyRational IntegratedReport ReportNotions ReportInputs.
Local Open Scope Q_scope.

Lemma monitor_fold_ids (clock : string -> Z) (current_thetas : gmap string Q)
  (items : list (string * Pattern)) (pattern_id' : string) :
  forall detected,
    In pattern_id'
      (pattern_ids
         (fold_left (monitor_pattern clock current_thetas) items detected))
    <-> In pattern_id' (pattern_ids detected)
        \/ exists pattern,
             In (pattern_id', pattern) items /\
             conditions_hold current_thetas (conditions pattern) = true.
Proof.
  induction items as [|[id pattern] rest IH]; intros detected;
    cbn [fold_left].
  - split; [tauto|]. intros [H|(pattern & [] & _)]. exact H.
  - rewrite IH.
    destruct (monitor_pattern_ids clock current_thetas detected id pattern)
      as (added & Hstep & Hadded & Hiff).
    destruct (String.eqb_spec id pattern_id') as [->|Hne].
    + rewrite Hiff. split.
      * intros [[H|H]|(p & Hin & Hp)]; [tauto| |].
        -- right. exists pattern. split; [now left|exact H].
        -- right. exists p. split; [now right|exact Hp].
      * intros [H|(p & [Heq|Hin] & Hp)]; [tauto| |].
        -- injection Heq as <-. tauto.
        -- right. eauto.
    + assert (Hsame : In pattern_id'
                (pattern_ids
                   (monitor_pattern clock current_thetas detected
                      (id, pattern)))
              <-> In pattern_id' (pattern_ids detected)).
      { rewrite Hstep. unfold pattern_ids. rewrite List.map_app, in_app_iff.
        destruct Hadded as [->|(f & -> & Hid & _)]; cbn; [tauto|].
        rewrite Hid. tauto. }
      rewrite Hsame. split.
      * intros [H|(p & Hin & Hp)]; [tauto|]. right. exists p.
        split; [now right|exact Hp].
      * intros [H|(p & [Heq|Hin] & Hp)]; [tauto| |].
        -- injection Heq as Heq _. contradiction.
        -- right. eauto.
Qed.

Lemma friction_pattern_items_unique (pattern_id' : string)
  (pattern pattern' : Pattern) :
  friction_patterns !! pattern_id' = Some pattern ->
  In (pattern_id', pattern') friction_pattern_items ->
  pattern' = pattern.
Proof.
  intros Hlookup Hin.
  pose proof friction_pattern_items_lookup as Hall.
  rewrite List.Forall_forall in Hall. apply Hall in Hin. cbn [fst snd] in Hin.
  congruence.
Qed.

(** X25.  From three responses on, a pattern of the table is among the
    detected frictions after [monitor_real_time_friction] exactly when it
    was there before or all its conditions hold at the current thetas. *)
Theorem monitor_real_time_friction_detects {A : Type}
  (clock : string -> Z) (responses : list A)
  (current_thetas : gmap string Q) (detected : list Friction)
  (pattern_id' : string) (pattern : Pattern) :
  (3 <= List.length responses)%nat ->
  friction_patterns !! pattern_id' = Some pattern ->
  In pattern_id'
    (pattern_ids
       (monitor_real_time_friction clock responses current_thetas detected))
  <-> In pattern_id' (pattern_ids detected)
      \/ conditions_hold current_thetas (conditions pattern) = true.
Proof.
  intros Hthree Hlookup. unfold monitor_real_time_friction.
  destruct (Nat.ltb_spec (List.length responses) 3) as [Hlt|_]; [lia|].
  rewrite monitor_fold_ids. split.
  - intros [H|(p & Hin & Hp)]; [tauto|]. right.
    now rewrite <- (friction_pattern_items_unique _ _ _ Hlookup Hin).
  - intros [H|H]; [tauto|]. right. exists pattern. split; [|exact H].
    unfold friction_patterns in Hlookup.
    now apply elem_of_list_to_map_2, list_elem_of_In in Hlookup.
Qed.

Lemma monitor_real_time_friction_detects_witness :
  In "risk_achievement_friction"%string
    (pattern_ids
       (monitor_real_time_friction still_clock three_answers bold_thetas []))
  <-> In "risk_achievement_friction"%string (pattern_ids [])
      \/ conditions_hold bold_thetas (conditions risk_achievement_pattern)
         = true.
Proof.
  apply (monitor_real_time_friction_detects still_clock three_answers
           bold_thetas [] "risk_achievement_friction"
           risk_achievement_pattern).
  - cbn. lia.
  - vm_compute. reflexivity.
Defined.

End FrictionDetection.

Section FrictionTotals.
Import PyRational IntegratedReport ReportNotions ReportInputs.
Local Open Scope Q_scope.

Lemma fold_severity_shift (frictions : list Friction) (start : Q) :
  fold_left (fun total f => total + severity f) frictions start
  == start + sum_severity frictions.
Proof.
  unfold sum_severity. revert start.
  induction frictions as [|f rest IH]; intros start; cbn [fold_left].
  - Lqa.lra.
  - rewrite IH, (IH (0 + severity f)). Lqa.lra.
Qed.

Lemma net_friction_cons (f : Friction) (rest : list Friction) :
  sum_severity (of_type "friction" (f :: rest))
  - sum_severity (of_type "synergy" (f :: rest))
  == net_share f
     + (sum_severity (of_type "friction" rest)
        - sum_severity (of_type "synergy" rest)).
Proof.
  unfold of_type, net_share. cbn [List.filter].
  destruct (String.eqb (type f) "friction"),
           (String.eqb (type f) "synergy");
    unfold sum_severity; cbn [fold_left];
    rewrite ?fold_severity_shift; unfold sum_severity; Lqa.lra.
Qed.

Lemma recorded_cases (f : Friction) :
  recorded f ->
  (pattern_id f = "autonomy_self_efficacy_friction"%string
   /\ net_share f = 0.8) \/
  (pattern_id f = "risk_achievement_friction"%string
   /\ net_share f = 0.7) \/
  (pattern_id f = "innovation_autonomy_synergy"%string
   /\ net_share f = 0 - 0.6).
Proof.
  unfold recorded, net_share.
  destruct (friction_patterns !! pattern_id f) as [pattern|] eqn:E; [|tauto].
  unfold friction_patterns in E.
  apply elem_of_list_to_map_2, list_elem_of_In in E. cbn [In] in E.
  destruct E as [E|[E|[E|[]]]]; injection E as Hid <-; cbn;
    intros [-> ->]; cbn; auto.
Qed.

Lemma net_friction_by_counts (detected : list Friction) :
  List.Forall recorded detected ->
  sum_severity (of_type "friction" detected)
  - sum_severity (of_type "synergy" detected)
  == 0.8 * inject_Z (Z.of_nat (count_occ string_dec (pattern_ids detected)
                                 "autonomy_self_efficacy_friction"))
     + 0.7 * inject_Z (Z.of_nat (count_occ string_dec (pattern_ids detected)
                                   "risk_achievement_friction"))
     - 0.6 * inject_Z (Z.of_nat (count_occ string_dec (pattern_ids detected)
                                   "innovation_autonomy_synergy")).
Proof.
  induction 1 as [|f rest Hf Hrest IH].
  - vm_compute. reflexivity.
  - rewrite net_friction_cons, IH. unfold pattern_ids.
    cbn [List.map count_occ].
    destruct (recorded_cases f Hf) as [[-> ->]|[[-> ->]|[-> ->]]];
      repeat match goal with
        | |- context [string_dec ?a ?b] =>
            destruct (string_dec a b); try congruence
        end;
      rewrite ?Nat2Z.inj_succ; unfold Z.succ; rewrite ?inject_Z_plus;
      change (inject_Z 1) with 1; Lqa.lra.
Qed.

End FrictionTotals.

Section FrictionBounds.
Import PyRational IntegratedReport ReportNotions ReportInputs.
Local Open Scope Q_scope.

Lemma count_at_most_once (ids : list string) (id : string) :
  List.NoDup ids ->
  0 <= inject_Z (Z.of_nat (count_occ string_dec ids id)) <= 1.
Proof.
  intros H. pose proof (proj1 (List.NoDup_count_occ string_dec ids) H id).
  unfold Qle. cbn. lia.
Qed.

(** X26.  For monitored frictions the net friction that
    [analyze_detected_frictions] reports lies between -0.6 and 1.5, so the
    cap of [assess_business_fitness] at 0.3 never cuts anything off: the
    friction adjustment is minus a fifth of the net friction. *)
Theorem monitored_friction_is_bounded (detected : list Friction)
  (theta_scores : list (string * Q)) (business_context : string)
  (contextual_analysis : ContextualAnalysis) :
  monitored detected ->
  - 0.6
  <= net_friction
       (analyze_detected_frictions detected theta_scores business_context)
  <= 1.5 /\
  friction_adjustment
    (assess_business_fitness contextual_analysis
       (analyze_detected_frictions detected theta_scores business_context)
       business_context)
  == - (net_friction
          (analyze_detected_frictions detected theta_scores business_context)
        * 0.2).
Proof.
  intros [Hnodup Hall].
  unfold assess_business_fitness, analyze_detected_frictions.
  cbn [net_friction friction_adjustment].
  pose proof (net_friction_by_counts detected Hall) as Hnet.
  pose proof (count_at_most_once _ "autonomy_self_efficacy_friction" Hnodup).
  pose proof (count_at_most_once _ "risk_achievement_friction" Hnodup).
  pose proof (count_at_most_once _ "innovation_autonomy_synergy" Hnodup).
  set (net := sum_severity (of_type "friction" detected)
              - sum_severity (of_type "synergy" detected)) in *.
  clearbody net.
  assert (Hrange : - 0.6 <= net <= 1.5) by Lqa.lra.
  split; [exact Hrange|].
  destruct (py_min_cases 0.3 (net * 0.2)) as [[Hmin ->]|[Hmin ->]]; Lqa.lra.
Qed.

Lemma monitored_friction_is_bounded_witness :
  - 0.6
  <= net_friction
       (analyze_detected_frictions [risk_achievement_record] [] "consulting")
  <= 1.5 /\
  friction_adjustment
    (assess_business_fitness plain_analysis
       (analyze_detected_frictions [risk_achievement_record] [] "consulting")
       "consulting")
  == - (net_friction
          (analyze_detected_frictions [risk_achievement_record] []
             "consulting")
        * 0.2).
Proof.
  apply (monitored_friction_is_bounded [risk_achievement_record] []
           "consulting" plain_analysis).
  split.
  - repeat constructor. intros [].
  - repeat constructor; vm_compute; auto.
Defined.

End FrictionBounds.

(* ===================================================================== *)
(** * contextual_scoring.py : fitness and approval probability           *)
(* ===================================================================== *)

Section ContextualFitness.
Import PyRational ContextualScoring ReportInputs.
Local Open Scope Q_scope.

(** The count of the critical traits that are ready. *)
Lemma critical_traits_ready_range (critical_traits : list CriticalTrait)
  (start : Z) :
  (start
   <= fold_left
        (fun critical_traits_ready trait =>
           if Qle_bool 0.6 (score trait)
           then critical_traits_ready + 1 else critical_traits_ready)
        critical_traits start
   <= start + Z.of_nat (List.length critical_traits))%Z.
Proof.
  revert start. induction critical_traits as [|trait rest IH]; intros start;
    cbn [fold_left List.length].
  - lia.
  - destruct (Qle_bool 0.6 (score trait)).
    + specialize (IH (start + 1)%Z). lia.
    + specialize (IH start). lia.
Qed.

Lemma critical_traits_none_ready (critical_traits : list CriticalTrait)
  (start : Z) :
  List.Forall (fun trait => score trait < 0.6) critical_traits ->
  fold_left
    (fun critical_traits_ready trait =>
       if Qle_bool 0.6 (score trait)
       then (critical_traits_ready + 1)%Z else critical_traits_ready)
    critical_traits start
  = start.
Proof.
  induction 1 as [|trait rest Hlow Hrest IH]; cbn [fold_left]; [reflexivity|].
  destruct (Qle_bool 0.6 (score trait)) eqn:E; [|exact IH].
  apply Qle_bool_iff in E. Lqa.lra.
Qed.

Lemma critical_traits_ratio_range (ready : Z) (total : nat) :
  (0 <= ready <= Z.of_nat (S total))%Z ->
  0 <= inject_Z ready / inject_Z (Z.of_nat (S total)) <= 1.
Proof.
  intros H.
  assert (Hpos : 0 < inject_Z (Z.of_nat (S total)))
    by (unfold Qlt; cbn; lia).
  split.
  - apply Qle_shift_div_l; [exact Hpos|]. unfold Qle. cbn. lia.
  - apply Qle_shift_div_r; [exact Hpos|]. unfold Qle. cbn. lia.
Qed.

(** X27.  For a non-negative weighted total, a positive total weight and a
    regulatory complexity of at least 1, the fitness score of
    [calculate_business_fitness] lies between 0 and 1 and never exceeds the
    base fitness, the weighted total over the total weight: critical traits
    and complexity can only lower it. *)
Theorem calculate_business_fitness_at_most_base
  (total_weighted_score total_possible_weight : Q)
  (critical_traits : list CriticalTrait) (context_info : gmap string Q) :
  0 <= total_weighted_score -> 0 < total_possible_weight ->
  1 <= default 3 (context_info !! "regulatory_complexity"%string) ->
  0 <= fitness_score
         (calculate_business_fitness total_weighted_score
            total_possible_weight critical_traits context_info)
  /\ fitness_score
       (calculate_business_fitness total_weighted_score
          total_possible_weight critical_traits context_info)
     <= total_weighted_score / total_possible_weight
  /\ fitness_score
       (calculate_business_fitness total_weighted_score
          total_possible_weight critical_traits context_info)
     <= 1.
Proof.
  intros Hscore Hweight Hcomplexity. unfold calculate_business_fitness.
  cbn [fitness_score].
  assert (E : Qlt_bool 0 total_possible_weight = true)
    by now apply Qlt_bool_iff.
  rewrite E.
  assert (Hbase : 0 <= total_weighted_score / total_possible_weight)
    by (apply Qle_shift_div_l; [exact Hweight|Lqa.lra]).
  set (base := total_weighted_score / total_possible_weight) in *.
  clearbody base.
  match goal with
  | |- context [base * ?r * ?a] =>
      assert (Hratio : 0 <= r <= 1);
      [|assert (Hadj : a <= 1);
        [|set (ratio := r) in *; set (adj := a) in *; clearbody ratio adj]]
  end.
  - destruct critical_traits as [|trait rest]; [Lqa.lra|].
    apply critical_traits_ratio_range.
    pose proof (critical_traits_ready_range (trait :: rest) 0) as H.
    change (List.length (trait :: rest)) with (S (List.length rest)) in H.
    rewrite Z.add_0_l in H. exact H.
  - destruct (bool_decide (context_info = ∅)); Lqa.lra.
  - assert (H1 : 0 <= base * ratio) by (apply Qmult_le_0_compat; tauto).
    assert (H2 : base * ratio <= base * 1)
      by (rewrite !(Qmult_comm base); apply Qmult_le_compat_r; tauto).
    assert (H3 : base * ratio * adj <= base * ratio * 1)
      by (rewrite !(Qmult_comm (base * ratio));
          apply Qmult_le_compat_r; tauto).
    destruct (py_min_cases 1.0 (base * ratio * adj)) as [[Hmin ->]|[Hmin ->]];
      match goal with
      | |- context [py_max 0.0 ?x] =>
          destruct (py_max_cases 0.0 x) as [[Hmax ->]|[Hmax ->]]
      end; (split; [|split]); Lqa.lra.
Qed.

Lemma calculate_business_fitness_at_most_base_witness :
  0 <= fitness_score
         (calculate_business_fitness 3.2 4.5 weak_critical_traits
            fintech_info)
  /\ fitness_score
       (calculate_business_fitness 3.2 4.5 weak_critical_traits fintech_info)
     <= 3.2 / 4.5
  /\ fitness_score
       (calculate_business_fitness 3.2 4.5 weak_critical_traits fintech_info)
     <= 1.
Proof.
  apply (calculate_business_fitness_at_most_base 3.2 4.5 weak_critical_traits
           fintech_info).
  - Lqa.lra.
  - Lqa.lra.
  - vm_compute. discriminate.
Defined.

(** X28.  When there are critical traits and none of them scores 0.6 or
    more, [calculate_business_fitness] reports the fitness score 0, the
    level "difficult" and the optimization potential 1, whatever the
    weighted totals and the context are. *)
Theorem calculate_business_fitness_no_critical_trait_ready
  (total_weighted_score total_possible_weight : Q)
  (critical_traits : list CriticalTrait) (context_info : gmap string Q) :
  critical_traits <> [] ->
  List.Forall (fun trait => score trait < 0.6) critical_traits ->
  fitness_score
    (calculate_business_fitness total_weighted_score total_possible_weight
       critical_traits context_info) == 0 /\
  fitness_level
    (calculate_business_fitness total_weighted_score total_possible_weight
       critical_traits context_info) = "difficult"%string /\
  optimization_potential
    (calculate_business_fitness total_weighted_score total_possible_weight
       critical_traits context_info) == 1.
Proof.
  intros Hne Hlow. unfold calculate_business_fitness.
  cbn [fitness_score fitness_level optimization_potential].
  rewrite (critical_traits_none_ready critical_traits 0 Hlow).
  destruct critical_traits as [|trait rest]; [congruence|].
  match goal with
  | |- context [?b * (inject_Z 0 / ?n) * ?a] =>
      assert (Hzero : b * (inject_Z 0 / n) * a == 0)
        by (unfold Qdiv; change (inject_Z 0) with 0; ring);
      set (product := b * (inject_Z 0 / n) * a) in *; clearbody product
  end.
  assert (Hfinal : py_max 0.0 (py_min 1.0 product) == 0).
  { destruct (py_min_cases 1.0 product) as [[Hmin ->]|[Hmin ->]];
      match goal with
      | |- context [py_max 0.0 ?x] =>
          destruct (py_max_cases 0.0 x) as [[Hmax ->]|[Hmax ->]]
      end; Lqa.lra. }
  set (final := py_max 0.0 (py_min 1.0 product)) in *. clearbody final.
  split; [exact Hfinal|]. split; [|Lqa.lra].
  repeat match goal with
    | |- context [Qle_bool ?c final] =>
        let E := fresh "E" in
        destruct (Qle_bool c final) eqn:E;
        [apply Qle_bool_iff in E; exfalso; Lqa.lra|]
    end.
  reflexivity.
Qed.

Lemma calculate_business_fitness_no_critical_trait_ready_witness :
  fitness_score
    (calculate_business_fitness 3.2 4.5 weak_critical_traits fintech_info)
  == 0 /\
  fitness_level
    (calculate_business_fitness 3.2 4.5 weak_critical_traits fintech_info)
  = "difficult"%string /\
  optimization_potential
    (calculate_business_fitness 3.2 4.5 weak_critical_traits fintech_info)
  == 1.
Proof.
  apply (calculate_business_fitness_no_critical_trait_ready 3.2 4.5
           weak_critical_traits fintech_info).
  - discriminate.
  - repeat constructor.
Defined.

(** X29.  [calculate_gruendungszuschuss_probability] lies between 0.25 and
    0.95 for every context, known or not, and does not decrease when the
    fitness score grows. *)
Theorem calculate_gruendungszuschuss_probability_monotone
  (fitness_analysis fitness_analysis' : Fitness) (business_context : string)
  (context_info : gmap string Q) :
  fitness_score fitness_analysis <= fitness_score fitness_analysis' ->
  0.25 <= calculate_gruendungszuschuss_probability fitness_analysis
            business_context context_info /\
  calculate_gruendungszuschuss_probability fitness_analysis
    business_context context_info
  <= calculate_gruendungszuschuss_probability fitness_analysis'
       business_context context_info /\
  calculate_gruendungszuschuss_probability fitness_analysis'
    business_context context_info <= 0.95.
Proof.
  intros Hle. unfold calculate_gruendungszuschuss_probability.
  set (base := default 0.6 (context_info !! "approval_probability_base"%string)).
  set (compat :=
         default 0.7
           (context_info !! "gruendungszuschuss_compatibility"%string)).
  set (f := fitness_score fitness_analysis) in *.
  set (f' := fitness_score fitness_analysis') in *.
  clearbody base compat f f'.
  destruct (py_min_cases 0.95 (base + (f - 0.5) * 0.4 + (compat - 0.7) * 0.2))
    as [[Hmin ->]|[Hmin ->]];
  destruct (py_min_cases 0.95 (base + (f' - 0.5) * 0.4 + (compat - 0.7) * 0.2))
    as [[Hmin' ->]|[Hmin' ->]];
  repeat match goal with
    | |- context [py_max 0.25 ?x] =>
        let H := fresh "Hmax" in
        destruct (py_max_cases 0.25 x) as [[H ->]|[H ->]]
    end; (split; [|split]); Lqa.lra.
Qed.

Lemma calculate_gruendungszuschuss_probability_monotone_witness :
  0.25 <= calculate_gruendungszuschuss_probability
            (calculate_business_fitness 3.2 4.5 weak_critical_traits
               fintech_info)
            "fintech" fintech_info /\
  calculate_gruendungszuschuss_probability
    (calculate_business_fitness 3.2 4.5 weak_critical_traits fintech_info)
    "fintech" fintech_info
  <= calculate_gruendungszuschuss_probability
       (calculate_business_fitness 3.2 4.5 [] fintech_info)
       "fintech" fintech_info /\
  calculate_gruendungszuschuss_probability
    (calculate_business_fitness 3.2 4.5 [] fintech_info)
    "fintech" fintech_info <= 0.95.
Proof.
  apply (calculate_gruendungszuschuss_probability_monotone
           (calculate_business_fitness 3.2 4.5 weak_critical_traits
              fintech_info)
           (calculate_business_fitness 3.2 4.5 [] fintech_info)
           "fintech" fintech_info).
  vm_compute. discriminate.
Defined.

End ContextualFitness.
